(** * gpm2: the batch import-and-publish pipeline of
      geoserver_postgresql_manager-v2.1.py

    A shallow embedding of the name normalizer, the database gateway's
    rename and column clean-up, the GeoServer publisher's status handling
    and the batch processor, with the properties the specification states
    about them. *)

From Stdlib Require Import ZArith NArith Lia Bool List.
From Stdlib Require Import Strings.String Strings.Ascii Numbers.DecimalString.
From stdpp Require Import base option list gmap strings.

Local Open Scope N_scope.

(** ** Python strings

    A Python [str] is a sequence of Unicode code points.  Literals are
    written as UTF-8 text and decoded once. *)

Module PyStr.

Abbreviation pystr := (list N).

Definition bytes_of (s : string) : list N :=
  map (fun a => N_of_ascii a) (list_ascii_of_string s).

Definition cont (b : N) : N := N.land b 63.

Fixpoint utf8_decode (bs : list N) : pystr :=
  match bs with
  | [] => []
  | b0 :: r0 =>
    if b0 <? 128 then b0 :: utf8_decode r0
    else match r0 with
    | [] => [b0]
    | b1 :: r1 =>
      if b0 <? 224 then (N.land b0 31 * 64 + cont b1) :: utf8_decode r1
      else match r1 with
      | [] => [b0; b1]
      | b2 :: r2 =>
        if b0 <? 240
        then (N.land b0 15 * 4096 + cont b1 * 64 + cont b2) :: utf8_decode r2
        else match r2 with
        | [] => [b0; b1; b2]
        | b3 :: r3 =>
          (N.land b0 7 * 262144 + cont b1 * 4096 + cont b2 * 64 + cont b3)
            :: utf8_decode r3
        end
      end
    end
  end.

(** [u "text"] is the Python literal ['text']. *)
Definition u (s : string) : pystr := utf8_decode (bytes_of s).

(** [str(n)] for an [int]. *)
Definition str_of_Z (z : Z) : pystr :=
  bytes_of (NilEmpty.string_of_int (Z.to_int z)).

Definition eqb (a b : pystr) : bool := bool_decide (a = b).

(** [s.startswith(p)] *)
Fixpoint startswith (p s : pystr) : bool :=
  match p, s with
  | [], _ => true
  | _ :: _, [] => false
  | a :: p', b :: s' => (a =? b) && startswith p' s'
  end.

Definition underscore : N := 95.
Definition newline : N := 10.
Definition dquote : N := 34.

Definition is_lower_az (c : N) : bool := (97 <=? c) && (c <=? 122).
Definition is_upper_az (c : N) : bool := (65 <=? c) && (c <=? 90).
Definition is_digit (c : N) : bool := (48 <=? c) && (c <=? 57).

(** [str.lower()] restricted to ASCII text: on a string of ASCII characters
    Python's [lower] is this function. *)
Definition ascii_lower_char (c : N) : N := if is_upper_az c then c + 32 else c.
Definition ascii_lower (s : pystr) : pystr := map ascii_lower_char s.

End PyStr.
Import PyStr.

(** ** The name normalizer ([ImprovedDataScanner.normalize_name]) *)

Module Normalizer.

(** the character class [[a-z0-9_]] *)
Definition name_char (c : N) : bool :=
  is_lower_az c || is_digit c || (c =? underscore).

(** the character class [[a-z0-9]]: what survives normalisation as itself
    and is not an underscore *)
Definition alnum_char (c : N) : bool := is_lower_az c || is_digit c.

Definition not_us (c : N) : bool := negb (c =? underscore).

(** [re.sub(r'[^a-z0-9_]', '_', s)] *)
Definition sub_invalid (s : pystr) : pystr :=
  map (fun c => if name_char c then c else underscore) s.

(** [re.sub(r'_+', '_', s)]: scanning left to right, every maximal run of
    underscores is replaced by one underscore.  [in_run] tells that the
    previous character belonged to the run being replaced. *)
Fixpoint collapse_from (in_run : bool) (s : pystr) : pystr :=
  match s with
  | [] => []
  | c :: t =>
    if c =? underscore
    then (if in_run then collapse_from true t
          else underscore :: collapse_from true t)
    else c :: collapse_from false t
  end.

Definition collapse (s : pystr) : pystr := collapse_from false s.

(** [s.lstrip('_')], [s.rstrip('_')], [s.strip('_')] *)
Fixpoint lstrip_us (s : pystr) : pystr :=
  match s with
  | [] => []
  | c :: t => if c =? underscore then lstrip_us t else s
  end.

Definition rstrip_us (s : pystr) : pystr := rev (lstrip_us (rev s)).

Definition strip_us (s : pystr) : pystr := rstrip_us (lstrip_us s).

Definition unnamed : pystr := Eval vm_compute in u "unnamed".

Section WithLower.

(** [str.lower] over all of Unicode is a table of the Python runtime (with a
    context rule for the Greek final sigma); the normalizer is stated over
    any such function. *)
Variable lower : pystr -> pystr.

Definition normalize_name (name : pystr) : pystr :=
  let normalized := sub_invalid (lower name) in
  let normalized := collapse normalized in
  let normalized := strip_us normalized in
  match normalized with
  | [] => unnamed
  | _ :: _ => normalized
  end.

(** the value tested for emptiness *)
Definition core (name : pystr) : pystr :=
  strip_us (collapse (sub_invalid (lower name))).

(** the letters and digits of the lower-cased input: the characters the
    normalizer keeps and does not strip *)
Definition valid_chars (name : pystr) : pystr :=
  List.filter alnum_char (lower name).

End WithLower.

End Normalizer.

Import Normalizer.


(** *** Shape of a normalised name *)

Module NormalForm.

Definition head_us (s : pystr) : bool :=
  match s with
  | [] => false
  | c :: _ => c =? underscore
  end.

(** no two adjacent underscores *)
Fixpoint no_run (s : pystr) : bool :=
  match s with
  | [] => true
  | c :: t => negb ((c =? underscore) && head_us t) && no_run t
  end.

Definition starts_with_digit (s : pystr) : bool :=
  match s with
  | [] => false
  | c :: _ => is_digit c
  end.

(** what the normalizer guarantees of its result: non-empty, only
    [[a-z0-9_]], no run of underscores, no underscore at either end *)
Definition normal_form (s : pystr) : bool :=
  negb (bool_decide (s = [])) && forallb name_char s && no_run s
  && negb (head_us s) && negb (head_us (rev s)).

(** The invariant of [target_name] as the data model words it: non-empty,
    only [[a-z0-9_]] (hence lower-case), not starting with a digit, not made
    of underscores only. *)
Definition target_name_invariant (s : pystr) : bool :=
  negb (bool_decide (s = [])) && forallb name_char s
  && negb (starts_with_digit s)
  && negb (forallb (fun c => c =? underscore) s).

End NormalForm.
Import NormalForm.


(** ** Python values, exceptions and the effect monad *)

Module Py.

(** The values an item dictionary holds.  [PObj] stands for any other object
    (a float, a nested dict), shown by its [str()]. *)
Inductive pyval :=
| PStr (s : pystr)
| PInt (z : Z)
| PNone
| PObj (repr : pystr).

#[export] Instance pyval_eq_dec : EqDecision pyval.
Proof. solve_decision. Defined.

(** a Python [dict] with [str] keys *)
Abbreviation pydict := (gmap string pyval).

(** [str(v)], as an f-string interpolates it *)
Definition str_of (v : pyval) : pystr :=
  match v with
  | PStr s => s
  | PInt z => str_of_Z z
  | PNone => u "None"
  | PObj r => r
  end.

Inductive exn :=
| KeyError (key : string)
| AttributeError (msg : pystr)
| OtherError (msg : pystr).

(** [str(e)] *)
Definition exn_str (e : exn) : pystr :=
  match e with
  | KeyError k => u "'" ++ bytes_of k ++ u "'"
  | AttributeError m => m
  | OtherError m => m
  end.

Inductive result (A : Type) :=
| Ok (a : A)
| Raise (e : exn).
Arguments Ok {A} a.
Arguments Raise {A} e.

(** ConnectionParameters of the database *)
Record connection_params := {
  host : pystr;
  port : Z;
  database : pystr;
  user : pystr;
  password : pystr
}.

(** JSON bodies the publisher posts *)
Inductive payload :=
| WorkspaceData (name namespaceURI : pystr)
| DataStoreData (name : pystr) (pg_params : connection_params)
| FeatureTypeData (name nativeName title srs : pyval).

(** [int((i / total_items) * 100)] is computed in floating point; the trace
    keeps its operands.  [Percent p] is a literal percentage. *)
Inductive percent :=
| Ratio (i total : nat)
| Percent (p : Z).

(** What the program does to the outside, in order. *)
Inductive event :=
| EPgConnect (params : connection_params)
| EPostgisQuery
| EImportVector (file_path table_name : pyval) (target_crs : pystr)
| EHttpGet (url : pystr)
| EHttpPost (url : pystr) (body : payload)
| ESqlExecute (stmt : pystr)
| ECommit
| ERollback
| EProgress (p : percent)
| EStatus (msg : pystr).

(** How the outside answers, given everything done so far.  [None] in an
    [option exn] is a normal return. *)
Record world := {
  (** [psycopg2.connect] with the connection parameters *)
  pg_connect : list event -> connection_params -> option exn;
  (** the [pg_extension] query of [connect] *)
  has_postgis : list event -> result bool;
  (** The body of [import_vector_file] runs geopandas and SQLAlchemy; every
      path through it returns a pair (success, message), its own handler
      catching whatever they raise. *)
  import_vector_result : list event -> pyval -> pyval -> pystr -> bool * pystr;
  (** [session.get(url).status_code] *)
  http_get : list event -> pystr -> result Z;
  (** [session.post(url, json=body).status_code] *)
  http_post : list event -> pystr -> payload -> result Z;
  (** [cursor.execute(stmt)] *)
  sql_execute : list event -> pystr -> option exn;
  (** [connection.commit()], [connection.rollback()] *)
  commit : list event -> option exn;
  rollback : list event -> option exn
}.

(** a callable passed in by the caller: returns or raises *)
Definition callback (A : Type) : Type := list event -> A -> option exn.

(** The state the claims speak about: the trace of interactions and the two
    counters of the running batch. *)
Record state := {
  trace : list event;
  success_count : Z;
  error_count : Z
}.

Definition M (A : Type) : Type := state -> result A * state.

Definition ret {A} (a : A) : M A := fun s => (Ok a, s).

Definition bind {A B} (c : M A) (k : A -> M B) : M B :=
  fun s =>
    match c s with
    | (Ok a, s') => k a s'
    | (Raise e, s') => (Raise e, s')
    end.

Definition raise {A} (e : exn) : M A := fun s => (Raise e, s).

(** [try: c  except Exception as e: h e] *)
Definition try_except {A} (c : M A) (h : exn -> M A) : M A :=
  fun s =>
    match c s with
    | (Ok a, s') => (Ok a, s')
    | (Raise e, s') => h e s'
    end.

(** the state after one more interaction *)
Definition record (e : event) (s : state) : state :=
  {| trace := trace s ++ [e];
     success_count := success_count s;
     error_count := error_count s |}.

Definition emit (e : event) : M unit := fun s => (Ok tt, record e s).

Definition get_trace : M (list event) := fun s => (Ok (trace s), s).

Definition of_result {A} (r : result A) : M A := fun s => (r, s).

Definition of_outcome (o : option exn) : M unit :=
  match o with
  | None => ret tt
  | Some e => raise e
  end.

Definition set_counters (sc ec : Z) : M unit :=
  fun s => (Ok tt, {| trace := trace s; success_count := sc; error_count := ec |}).

Definition get_success_count : M Z := fun s => (Ok (success_count s), s).
Definition get_error_count : M Z := fun s => (Ok (error_count s), s).

(** [success_count += 1], [error_count += 1] *)
Definition incr_success : M unit :=
  fun s => (Ok tt, {| trace := trace s;
                      success_count := (success_count s + 1)%Z;
                      error_count := error_count s |}).
Definition incr_error : M unit :=
  fun s => (Ok tt, {| trace := trace s;
                      success_count := success_count s;
                      error_count := (error_count s + 1)%Z |}).

(** [d[k]] and [d.get(k, dflt)] *)
Definition getitem (d : pydict) (k : string) : M pyval :=
  match d !! k with
  | Some v => ret v
  | None => raise (KeyError k)
  end.

Definition dict_get (d : pydict) (k : string) (dflt : pyval) : pyval :=
  default dflt (d !! k).

(** calling a callback with [a], recorded as [e] *)
Definition call {A} (cb : callback A) (e : event) (a : A) : M unit :=
  fun s =>
    match cb (trace s) a with
    | None => (Ok tt, record e s)
    | Some x => (Raise x, record e s)
    end.

End Py.
Import Py.

Notation "'let*' x ':=' c 'in' k" := (bind c (fun x => k))
  (at level 10, x name, c at level 100, k at level 200, only parsing).
Notation "c ;;; k" := (bind c (fun _ => k))
  (at level 100, right associativity, only parsing).

(** ** The gateways and the batch processor *)

Module Pipeline.

(** the item kinds, as [get_data_type] and the table scan name them *)
Definition VECTOR : pystr := Eval vm_compute in u "矢量数据".
Definition RASTER : pystr := Eval vm_compute in u "栅格数据".
Definition SPATIAL_TABLE : pystr := Eval vm_compute in u "空间表".

Definition EPSG_4326 : pystr := Eval vm_compute in u "EPSG:4326".
Definition EPSG_prefix : pystr := Eval vm_compute in u "EPSG:".

(** [status_code in [200, 201]] *)
Definition created (status : Z) : bool := (status =? 200)%Z || (status =? 201)%Z.

(** [srid_text.startswith('EPSG:')] on whatever the item holds: only a [str]
    has the method with this meaning. *)
Definition startswith_epsg (srid_text : pyval) : M bool :=
  match srid_text with
  | PStr s => ret (startswith EPSG_prefix s)
  | PInt _ => raise (AttributeError (u "'int' object has no attribute 'startswith'"))
  | PNone => raise (AttributeError (u "'NoneType' object has no attribute 'startswith'"))
  | PObj _ => raise (AttributeError (u "object has no attribute 'startswith'"))
  end.

(** [x == "literal"] *)
Definition is_str (v : pyval) (lit : pystr) : bool := bool_decide (v = PStr lit).

Section WithWorld.

Variable W : world.
(** [pg_manager.params] and [gs_publisher.base_url] *)
Variable params : connection_params.
Variable base_url : pystr.

(** an external call: recorded in the trace, answered by the world *)
Definition ask {A} (e : event) (answer : list event -> result A) : M A :=
  let* tr := get_trace in
  emit e ;;;
  of_result (answer tr).

Definition ask_unit (e : event) (answer : list event -> option exn) : M unit :=
  let* tr := get_trace in
  emit e ;;;
  of_outcome (answer tr).

(** *** ImprovedPostgreSQLManager *)

Definition connect : M (bool * pystr) :=
  try_except
    (ask_unit (EPgConnect params) (fun tr => pg_connect W tr params) ;;;
     let* has := ask EPostgisQuery (has_postgis W) in
     if negb has then ret (false, u "PostGIS扩展未安装")
     else ret (true, u "连接成功"))
    (fun e => ret (false, exn_str e)).

Definition import_vector_file (file_path table_name : pyval) (target_crs : pystr)
  : M (bool * pystr) :=
  let* tr := get_trace in
  emit (EImportVector file_path table_name target_crs) ;;;
  ret (import_vector_result W tr file_path table_name target_crs).

Definition import_raster_file (file_path table_name : pyval) (target_crs : pystr)
  : M (bool * pystr) :=
  ret (false, u "栅格数据导入功能暂未实现，请使用矢量数据").

Definition rename_statement (schema old_name new_name : pystr) : pystr :=
  u "ALTER TABLE " ++ [dquote] ++ schema ++ [dquote] ++ u "." ++
  [dquote] ++ old_name ++ [dquote] ++ u " RENAME TO " ++
  [dquote] ++ new_name ++ [dquote].

(** [ImprovedPostgreSQLManager.rename_table].  Opening and closing the
    cursor stay inside the driver and are not recorded; the statement, the
    commit and the rollback are. *)
Definition rename_table (old_name new_name schema : pystr) : M (bool * pystr) :=
  try_except
    (let stmt := rename_statement schema old_name new_name in
     ask_unit (ESqlExecute stmt) (fun tr => sql_execute W tr stmt) ;;;
     ask_unit ECommit (commit W) ;;;
     ret (true, u "重命名成功"))
    (fun e =>
       ask_unit ERollback (rollback W) ;;;
       ret (false, exn_str e)).

(** *** ImprovedGeoServerPublisher *)

Definition test_connection : M (bool * pystr) :=
  try_except
    (let url := base_url ++ u "/rest/about/version" in
     let* status := ask (EHttpGet url) (fun tr => http_get W tr url) in
     if (status =? 200)%Z then ret (true, u "连接成功")
     else ret (false, u "HTTP " ++ str_of_Z status))
    (fun e => ret (false, exn_str e)).

Definition post (url : pystr) (body : payload) : M Z :=
  ask (EHttpPost url body) (fun tr => http_post W tr url body).

(** the answer of the server to a POST made in state [s] *)
Definition answer (s : state) (url : pystr) (body : payload) : result Z :=
  http_post W (trace s) url body.

Definition create_workspace (workspace_name : pystr) (namespace_uri : option pystr)
  : M (bool * pystr) :=
  let namespace_uri :=
    match namespace_uri with
    | None => u "http://www.example.com/" ++ workspace_name
    | Some uri => uri
    end in
  let workspace_data := WorkspaceData workspace_name namespace_uri in
  try_except
    (let* status := post (base_url ++ u "/rest/workspaces") workspace_data in
     if created status then ret (true, u "创建成功")
     else if (status =? 409)%Z then ret (true, u "工作空间已存在")
     else ret (false, u "创建失败: " ++ str_of_Z status))
    (fun e => ret (false, exn_str e)).

Definition create_postgresql_datastore (workspace datastore_name : pystr)
    (pg_params : connection_params) : M (bool * pystr) :=
  let datastore_data := DataStoreData datastore_name pg_params in
  try_except
    (let* status :=
       post (base_url ++ u "/rest/workspaces/" ++ workspace ++ u "/datastores")
            datastore_data in
     if created status then ret (true, u "创建成功")
     else if (status =? 409)%Z then ret (true, u "数据存储已存在")
     else ret (false, u "创建失败: " ++ str_of_Z status))
    (fun e => ret (false, exn_str e)).

Definition featuretypes_url (workspace datastore : pystr) : pystr :=
  base_url ++ u "/rest/workspaces/" ++ workspace ++ u "/datastores/" ++
  datastore ++ u "/featuretypes".

Definition publish_layer_from_table (workspace datastore : pystr)
    (table_name layer_name title srs : pyval) : M (bool * pystr) :=
  let layer_name := if bool_decide (layer_name = PNone) then table_name else layer_name in
  let title := if bool_decide (title = PNone) then layer_name else title in
  let featuretype_data := FeatureTypeData layer_name table_name title srs in
  try_except
    (let* status := post (featuretypes_url workspace datastore) featuretype_data in
     if created status then ret (true, u "发布成功")
     else ret (false, u "发布失败: " ++ str_of_Z status))
    (fun e => ret (false, exn_str e)).

(** *** ImprovedBatchProcessor *)

(** Logging goes to the log files and the console and is not part of the
    trace.  What is kept of a logging call is the evaluation of its
    f-string, where that reads [item['new_name']]. *)
Definition log_item (item : pydict) : M unit :=
  let* name := getitem item "new_name" in
  ret tt.

(** [srid_text if srid_text.startswith('EPSG:') else 'EPSG:4326'] *)
Definition target_crs_of (srid_text : pyval) : M pystr :=
  let* epsg := startswith_epsg srid_text in
  ret (if epsg then str_of srid_text else EPSG_4326).

Definition _import_single_item (item : pydict) : M bool :=
  try_except
    (let* file_path := getitem item "path" in
     let* table_name := getitem item "new_name" in
     let* data_type := getitem item "type" in
     let srid_text := dict_get item "srs" (PStr EPSG_4326) in
     let* target_crs := target_crs_of srid_text in
     if is_str data_type VECTOR then
       let* r := import_vector_file file_path table_name target_crs in
       ret (fst r)
     else if is_str data_type RASTER then
       let* r := import_raster_file file_path table_name target_crs in
       ret (fst r)
     else if is_str data_type SPATIAL_TABLE then ret true
     else ret false)
    (fun e => log_item item ;;; ret false).

Definition _publish_single_item (item : pydict) (workspace datastore_name : pystr)
  : M bool :=
  try_except
    (let* table_name := getitem item "new_name" in
     let* layer_name := getitem item "new_name" in
     let srid_text := dict_get item "srs" (PStr EPSG_4326) in
     let* r := publish_layer_from_table workspace datastore_name
                 table_name layer_name PNone srid_text in
     ret (fst r))
    (fun e => log_item item ;;; ret false).

Section Run.

Variable workspace datastore_name : pystr.
Variable progress_callback : option (callback percent).
Variable status_callback : option (callback pystr).

Definition report_progress (p : percent) : M unit :=
  match progress_callback with
  | Some cb => call cb (EProgress p) p
  | None => ret tt
  end.

Definition report_status (msg : M pystr) : M unit :=
  match status_callback with
  | Some cb => let* m := msg in call cb (EStatus m) m
  | None => ret tt
  end.

(** the connection and creation steps; [Some msg] is the early
    [return False, msg] *)
Definition setup : M (option pystr) :=
  let* r := connect in
  let '(success, message) := r in
  if negb success then ret (Some (u "数据库连接失败: " ++ message)) else
  let* r := test_connection in
  let '(success, message) := r in
  if negb success then ret (Some (u "GeoServer连接失败: " ++ message)) else
  let* r := create_workspace workspace None in
  let '(success, message) := r in
  if negb success then ret (Some (u "工作空间创建失败: " ++ message)) else
  let* r := create_postgresql_datastore workspace datastore_name params in
  let '(success, message) := r in
  if negb success then ret (Some (u "数据存储创建失败: " ++ message)) else
  ret None.

(** the two reports that open an iteration *)
Definition announce (total_items i : nat) (item : pydict) : M unit :=
  report_progress (Ratio i total_items) ;;;
  report_status (let* name := getitem item "new_name" in
                 ret (u "正在处理: " ++ str_of name)).

(** the [try] block of one iteration *)
Definition item_body (total_items i : nat) (item : pydict) : M unit :=
  announce total_items i item ;;;
  let* import_success := _import_single_item item in
  if import_success then
    let* publish_success := _publish_single_item item workspace datastore_name in
    if publish_success then incr_success ;;; log_item item
    else incr_error ;;; log_item item
  else incr_error ;;; log_item item.

(** one iteration with its handler *)
Definition process_item (total_items i : nat) (item : pydict) : M unit :=
  try_except (item_body total_items i item)
             (fun e => incr_error ;;; log_item item).

(** [for i, item in enumerate(data_items)], from index [i] on *)
Fixpoint for_items (total_items i : nat) (items : list pydict) : M unit :=
  match items with
  | [] => ret tt
  | item :: rest =>
    process_item total_items i item ;;; for_items total_items (S i) rest
  end.

Definition completed_status (sc ec : Z) : pystr :=
  u "处理完成: 成功 " ++ str_of_Z sc ++ u ", 失败 " ++ str_of_Z ec.

Definition completed_message (sc : Z) (total_items : nat) : pystr :=
  u "处理完成: 成功 " ++ str_of_Z sc ++ u "/" ++
  str_of_Z (Z.of_nat total_items) ++ u " 个".

(** what follows the setup inside the outer [try] *)
Definition batch (data_items : list pydict) : M (bool * pystr) :=
  let total_items := List.length data_items in
  set_counters 0 0 ;;;
  for_items total_items 0 data_items ;;;
  report_progress (Percent 100) ;;;
  report_status (let* sc := get_success_count in
                 let* ec := get_error_count in
                 ret (completed_status sc ec)) ;;;
  let* sc := get_success_count in
  ret ((0 <? sc)%Z, completed_message sc total_items).

(** *** What happened to each item

    The processor keeps two counters only.  For the statements about single
    items, the stages of an iteration are classified from the same stage
    functions. *)
Inductive verdict :=
| Interrupted      (* a report raised before the import stage *)
| ImportFailed
| PublishFailed
| Succeeded.

#[export] Instance verdict_eq_dec : EqDecision verdict.
Proof. solve_decision. Defined.

Definition verdict_of (total_items i : nat) (item : pydict) (s : state) : verdict :=
  match announce total_items i item s with
  | (Raise _, _) => Interrupted
  | (Ok _, s1) =>
    match _import_single_item item s1 with
    | (Ok true, s2) =>
      match _publish_single_item item workspace datastore_name s2 with
      | (Ok true, _) => Succeeded
      | _ => PublishFailed
      end
    | _ => ImportFailed
    end
  end.

(** the verdicts of the iterations of [for_items], each taken in the state
    its iteration starts in *)
Fixpoint verdicts (total_items i : nat) (items : list pydict) (s : state)
  : list verdict :=
  match items with
  | [] => []
  | item :: rest =>
    verdict_of total_items i item s
      :: verdicts total_items (S i) rest (snd (process_item total_items i item s))
  end.

(** The failure list of the BatchResult the specification describes: the
    source identifiers of the items that did not succeed, in order. *)
Definition failed_items (data_items : list pydict) (s : state) : list pyval :=
  let s1 := snd (setup s) in
  let s2 := snd (set_counters 0 0 s1) in
  let vs := verdicts (List.length data_items) 0 data_items s2 in
  map (fun iv => dict_get (fst iv) "path" PNone)
      (List.filter (fun iv => negb (bool_decide (snd iv = Succeeded)))
                   (combine data_items vs)).

Definition process_data_items (data_items : list pydict) : M (bool * pystr) :=
  try_except
    (let* early := setup in
     match early with
     | Some msg => ret (false, msg)
     | None => batch data_items
     end)
    (fun e => ret (false, exn_str e)).

End Run.

End WithWorld.

(** a POST of a feature type is a publish attempt *)
Definition is_publish (e : event) : bool :=
  match e with
  | EHttpPost _ (FeatureTypeData _ _ _ _) => true
  | _ => false
  end.

Definition publish_attempts (tr : list event) : list event :=
  List.filter is_publish tr.

Definition import_succeeded (v : verdict) : bool :=
  match v with
  | Succeeded | PublishFailed => true
  | _ => false
  end.

Definition count_verdicts (p : verdict -> bool) (vs : list verdict) : nat :=
  List.length (List.filter p vs).

Definition succeeded (v : verdict) : bool := bool_decide (v = Succeeded).

Definition has_name (item : pydict) : Prop := is_Some (item !! "new_name").

Definition bump (b : bool) : Z := if b then 1%Z else 0%Z.
Definition bump_nat (b : bool) : nat := if b then 1%nat else 0%nat.

(** a step that leaves the counters alone and publishes nothing *)
Definition quiet (s s' : state) : Prop :=
  success_count s' = success_count s /\ error_count s' = error_count s /\
  publish_attempts (trace s') = publish_attempts (trace s).

End Pipeline.
Import Pipeline.

(** ** Column clean-up of [import_vector_file]

    The part of [import_vector_file] that decides the column names of the
    destination table, between the renaming of the geometry column and the
    write. *)

Module Columns.

(** the character class [[a-zA-Z0-9_]] *)
Definition word_char (c : N) : bool :=
  is_lower_az c || is_upper_az c || is_digit c || (c =? underscore).

Definition geom : pystr := Eval vm_compute in u "geom".

Section WithLower.

Variable lower : pystr -> pystr.

(** [re.sub(r'[^a-zA-Z0-9_]', '_', col.lower())] *)
Definition clean_col (col : pystr) : pystr :=
  map (fun c => if word_char c then c else underscore) (lower col).

(** the loop filling [column_mapping] *)
Definition column_mapping (columns : list pystr) : gmap pystr pystr :=
  foldl (fun mapping col =>
           if bool_decide (col = geom) then mapping
           else <[col := clean_col col]> mapping)
        ∅ columns.

(** [gdf.rename(columns=column_mapping)]: a column the mapping does not
    mention keeps its name *)
Definition rename (mapping : gmap pystr pystr) (columns : list pystr) : list pystr :=
  map (fun col => default col (mapping !! col)) columns.

(** the columns written to the table; [columns] are those of the frame after
    its geometry column was renamed to [geom] *)
Definition destination_columns (columns : list pystr) : list pystr :=
  let mapping := column_mapping columns in
  if bool_decide (mapping = ∅) then columns else rename mapping columns.

End WithLower.

End Columns.

(** ** The data item built by [scan_folder] *)

Module Scanner.

Definition opt_get (d : pydict) (k : string) : pyval := dict_get d k PNone.

(** The dictionary [scan_folder] appends for one file.  [stem] is
    [Path(file).stem], computed by pathlib; [file_info] is what
    [get_file_info] returned.  [file_info['type']] and
    [file_info['size_formatted']] raise when absent (the file is then
    skipped with a warning). *)
Definition data_item (lower : pystr -> pystr) (file file_path stem : pystr)
    (file_info : pydict) : result pydict :=
  match file_info !! "type" with
  | None => Raise (KeyError "type")
  | Some type =>
    match file_info !! "size_formatted" with
    | None => Raise (KeyError "size_formatted")
    | Some size =>
      Ok (<["original_name" := PStr file]>
          (<["path" := PStr file_path]>
          (<["type" := type]>
          (<["size" := size]>
          (<["srs" := dict_get file_info "crs" (PStr EPSG_4326)]>
          (<["new_name" := PStr (normalize_name lower stem)]>
          (<["style" := PStr (u "default")]>
          (<["geometry_type" := opt_get file_info "geometry_type"]>
          (<["feature_count" := opt_get file_info "feature_count"]>
          (<["extent" := opt_get file_info "extent"]> ∅))))))))))
    end
  end.

End Scanner.

(** ** The rename action of the main window *)

Module MainWindow.

(** [re.match(r'^[a-zA-Z][a-zA-Z0-9_]*$', s)]: a letter, then letters,
    digits and underscores up to the end of the string; Python's [$] also
    matches just before a newline that ends the string. *)
Definition ident_start (c : N) : bool := is_lower_az c || is_upper_az c.

Fixpoint ident_rest (s : pystr) : bool :=
  match s with
  | [] => true
  | [c] => Columns.word_char c || (c =? newline)
  | c :: t => Columns.word_char c && ident_rest t
  end.

Definition re_match_ident (s : pystr) : bool :=
  match s with
  | [] => false
  | c :: t => ident_start c && ident_rest t
  end.

(** what the handler shows to the user *)
Inductive message_box :=
| NoMessage
| Warning (text : pystr)
| Information (text : pystr)
| Critical (text : pystr).

(** [item.data(0, UserRole)] of a tree row *)
Record table_data := {
  table_name : pystr;
  table_schema : pystr
}.

Section WithWorld.

Variable W : world.
Variable params : connection_params.

(** [ImprovedMainWindow.rename_table].  [selected_items] are the selected
    tree rows with their table data, [dialog] is [Some name] when the rename
    dialog was accepted with [get_new_name() = name].  The refresh of the
    tree view after a rename is not part of the model. *)
Definition rename_table (selected_items : list (option table_data))
    (dialog : option pystr) : M message_box :=
  try_except
    (match selected_items with
     | [] => ret (Warning (u "请选择要重命名的表"))
     | None :: _ => ret (Warning (u "无法获取表信息"))
     | Some data :: _ =>
       let current_name := table_name data in
       let schema_name := table_schema data in
       match dialog with
       | None => ret NoMessage
       | Some new_name =>
         if bool_decide (new_name = []) || bool_decide (new_name = current_name)
         then ret NoMessage
         else if negb (re_match_ident new_name)
         then ret (Warning (u "表名只能包含字母、数字和下划线，且必须以字母开头"))
         else
           let* r := connect W params in
           let '(success, message) := r in
           if success then
             let* r := Pipeline.rename_table W current_name new_name schema_name in
             let '(success, message) := r in
             if success then ret (Information (u "表已重命名为: " ++ new_name))
             else ret (Critical (u "重命名失败: " ++ message))
           else ret (Critical (u "数据库连接失败"))
       end
     end)
    (fun e => ret (Critical (u "重命名时发生异常: " ++ exn_str e))).

End WithWorld.

End MainWindow.

(** ** Concrete worlds and items *)

Module Examples.

Definition params0 : connection_params :=
  {| host := u "localhost"; port := 5432; database := u "gis";
     user := u "postgres"; password := u "secret" |}.

Definition base0 : pystr := Eval vm_compute in u "http://localhost:8080/geoserver".

#[export] Instance connection_params_eq_dec : EqDecision connection_params.
Proof. solve_decision. Defined.
#[export] Instance payload_eq_dec : EqDecision payload.
Proof. solve_decision. Defined.

Definition posted_before (tr : list event) (url : pystr) (body : payload) : bool :=
  existsb (fun e => match e with
                    | EHttpPost url' body' =>
                      bool_decide (url' = url) && bool_decide (body' = body)
                    | _ => false
                    end) tr.

(** a reachable database and server; a resource posted a second time is a
    conflict *)
Definition reachable : world :=
  {| pg_connect := fun _ _ => None;
     has_postgis := fun _ => Ok true;
     import_vector_result := fun _ _ _ _ => (true, u "导入成功");
     http_get := fun _ _ => Ok 200%Z;
     http_post := fun tr url body =>
       if posted_before tr url body then Ok 409%Z else Ok 201%Z;
     sql_execute := fun _ _ => None;
     commit := fun _ => None;
     rollback := fun _ => None |}.

(** the same, with credentials the database refuses *)
Definition bad_credentials : world :=
  {| pg_connect := fun _ _ => Some (OtherError (u "password authentication failed"));
     has_postgis := has_postgis reachable;
     import_vector_result := import_vector_result reachable;
     http_get := http_get reachable;
     http_post := http_post reachable;
     sql_execute := sql_execute reachable;
     commit := commit reachable;
     rollback := rollback reachable |}.

Definition s0 : state := {| trace := []; success_count := 0; error_count := 0 |}.

Definition mk_item (path new_name type srs : pystr) : pydict :=
  <["path" := PStr path]>
  (<["new_name" := PStr new_name]>
  (<["type" := PStr type]>
  (<["srs" := PStr srs]> ∅))).

Definition roads : pydict := mk_item (u "/data/roads.shp") (u "roads") VECTOR EPSG_4326.
Definition dem : pydict := mk_item (u "/data/dem.tif") (u "dem") RASTER EPSG_4326.
Definition parcels : pydict :=
  mk_item (u "public.parcels") (u "parcels") SPATIAL_TABLE EPSG_4326.
(** a file whose coordinate system is not an EPSG code: [detect_crs]
    returns the upper-cased [init] entry as it is *)
Definition lakes : pydict :=
  mk_item (u "/data/lakes.shp") (u "lakes") VECTOR (u "ESRI:102100").
(** a dictionary that is not a data item: it has no [new_name] *)
Definition nameless : pydict := <["path" := PStr (u "/data/x.shp")]> ∅.

Definition hillshade : pydict :=
  mk_item (u "/data/hillshade.tif") (u "hillshade") RASTER EPSG_4326.

(** a run without callbacks against the reachable world *)
Definition run_plain (items : list pydict) : result (bool * pystr) * state :=
  process_data_items reachable params0 base0 (u "gis") (u "gis_datastore")
    None None items s0.

Definition failed_plain (items : list pydict) : list pyval :=
  failed_items reachable params0 base0 (u "gis") (u "gis_datastore")
    None None items s0.

(** a progress callback that raises on every call *)
Definition failing_progress : callback percent :=
  fun _ _ => Some (OtherError (u "progress bar is gone")).
(** a callback that always returns *)
Definition silent {A} : callback A := fun _ _ => None.

End Examples.

(** ** Further table operations of [ImprovedPostgreSQLManager] *)

Module Tables.

Definition drop_statement (schema table_name : pystr) : pystr :=
  u "DROP TABLE IF EXISTS " ++ [dquote] ++ schema ++ [dquote] ++ u "." ++
  [dquote] ++ table_name ++ [dquote] ++ u " CASCADE".

(** [f"idx_{table_name}_{geom_column}"] *)
Definition index_name (table_name geom_column : pystr) : pystr :=
  u "idx_" ++ table_name ++ u "_" ++ geom_column.

(** the triple-quoted statement of [create_spatial_index], with its line
    breaks and indentation *)
Definition index_statement (schema table_name geom_column : pystr) : pystr :=
  [newline] ++ u "                CREATE INDEX IF NOT EXISTS " ++
  [dquote] ++ index_name table_name geom_column ++ [dquote] ++ u " " ++
  [newline] ++ u "                ON " ++
  [dquote] ++ schema ++ [dquote] ++ u "." ++
  [dquote] ++ table_name ++ [dquote] ++ u " " ++
  [newline] ++ u "                USING GIST (" ++
  [dquote] ++ geom_column ++ [dquote] ++ u ")" ++
  [newline] ++ u "            ".

Section WithWorld.

Variable W : world.

(** [drop_table_if_exists] *)
Definition drop_table_if_exists (table_name schema : pystr) : M bool :=
  try_except
    (let stmt := drop_statement schema table_name in
     ask_unit (ESqlExecute stmt) (fun tr => sql_execute W tr stmt) ;;;
     ask_unit ECommit (commit W) ;;;
     ret true)
    (fun e =>
       ask_unit ERollback (rollback W) ;;;
       ret false).

(** [create_spatial_index] *)
Definition create_spatial_index (table_name schema geom_column : pystr) : M bool :=
  try_except
    (let stmt := index_statement schema table_name geom_column in
     ask_unit (ESqlExecute stmt) (fun tr => sql_execute W tr stmt) ;;;
     ask_unit ECommit (commit W) ;;;
     ret true)
    (fun e =>
       ask_unit ERollback (rollback W) ;;;
       ret false).

End WithWorld.

(** how a table operation that started in [s] with [stmt] may leave the
    trace *)
Definition committed (s s' : state) (stmt : pystr) : Prop :=
  trace s' = trace s ++ [ESqlExecute stmt; ECommit].

Definition rolled_back (s s' : state) (stmt : pystr) : Prop :=
  trace s' = trace s ++ [ESqlExecute stmt; ERollback] \/
  trace s' = trace s ++ [ESqlExecute stmt; ECommit; ERollback].

End Tables.

(** ** Views of the trace *)

Module TraceViews.

(** requests of the setup phase *)
Definition is_setup_event (e : event) : bool :=
  match e with
  | EPgConnect _ | EPostgisQuery | EHttpGet _ => true
  | EHttpPost _ (WorkspaceData _ _) | EHttpPost _ (DataStoreData _ _) => true
  | _ => false
  end.

(** calls made for an item: the import and the feature type *)
Definition is_item_call (e : event) : bool :=
  match e with
  | EImportVector _ _ _ => true
  | EHttpPost _ (FeatureTypeData _ _ _ _) => true
  | _ => false
  end.

Definition item_calls (tr : list event) : list event := List.filter is_item_call tr.

(** calls of the two callbacks *)
Definition is_report (e : event) : bool :=
  match e with
  | EProgress _ | EStatus _ => true
  | _ => false
  end.


(** the percentages handed to the progress callback, in order *)
Definition progress_reports (tr : list event) : list percent :=
  omap (fun e => match e with EProgress p => Some p | _ => None end) tr.


(** [status in [200, 201]] or [status == 409] *)
Definition accepted (r : result Z) : bool :=
  match r with
  | Ok status => created status || (status =? 409)%Z
  | Raise _ => false
  end.

(** the state after the interactions [l] *)
Definition extend (l : list event) (s : state) : state :=
  {| trace := trace s ++ l;
     success_count := success_count s;
     error_count := error_count s |}.

End TraceViews.

(** ** Words of a name *)

Module Words.

(** The maximal runs of characters that are not separators, in order.
    [w] holds the run being read. *)
Fixpoint words_from (sep : N -> bool) (w : pystr) (s : pystr) : list pystr :=
  match s with
  | [] => match w with [] => [] | _ :: _ => [w] end
  | c :: t =>
    if sep c
    then match w with
         | [] => words_from sep [] t
         | _ :: _ => w :: words_from sep [] t
         end
    else words_from sep (w ++ [c]) t
  end.

(** the runs of letters [a-z] and digits: [re.findall('[a-z0-9]+', s)] *)
Definition alnum_words (s : pystr) : list pystr :=
  words_from (fun c => negb (alnum_char c)) [] s.

Definition is_us (c : N) : bool := c =? underscore.

(** ['_'.join(ws)] *)
Fixpoint join_us (ws : list pystr) : pystr :=
  match ws with
  | [] => []
  | [w] => w
  | w :: rest => w ++ [underscore] ++ join_us rest
  end.

End Words.

(** ** Editing names in the import table *)

Module DataTable.

Section WithLower.

Variable lower : pystr -> pystr.

(** The loop of [batch_rename]: every item is given the normalised
    [f"{prefix}_{new_name}"].  The list is changed in place, so when an item
    without [new_name] stops the loop the items before it stay renamed; the
    result is the list as the loop left it and the exception, if any. *)
Fixpoint rename_all (prefix : pystr) (scanned_data : list pydict)
  : list pydict * option exn :=
  match scanned_data with
  | [] => ([], None)
  | data :: rest =>
    match data !! "new_name" with
    | None => (data :: rest, Some (KeyError "new_name"))
    | Some name =>
      let new_name := prefix ++ u "_" ++ str_of name in
      let data' := <["new_name" := PStr (normalize_name lower new_name)]> data in
      let (rest', e) := rename_all prefix rest in
      (data' :: rest', e)
    end
  end.

(** [ImprovedMainWindow.batch_rename].  [dialog] is [Some prefix] when the
    dialog was accepted, [prefix] being the stripped text of its field.
    Returns the scanned data afterwards and the message box shown. *)
Definition batch_rename (scanned_data : list pydict) (dialog : option pystr)
  : list pydict * MainWindow.message_box :=
  match scanned_data with
  | [] => (scanned_data, MainWindow.Warning (u "没有扫描到数据"))
  | _ :: _ =>
    match dialog with
    | None => (scanned_data, MainWindow.NoMessage)
    | Some [] => (scanned_data, MainWindow.NoMessage)
    | Some prefix =>
      match rename_all prefix scanned_data with
      | (data, None) => (data, MainWindow.Information (u "批量重命名完成"))
      | (data, Some e) =>
        (data, MainWindow.Critical (u "批量重命名失败: " ++ exn_str e))
      end
    end
  end.

(** [ImprovedMainWindow.on_cell_changed].  [cell] is the text of the table
    item at ([row], [column]), [None] when there is no item.  Returns the
    scanned data afterwards and the text the item shows afterwards. *)
Definition on_cell_changed (scanned_data : list pydict) (row column : Z)
    (cell : option pystr) : list pydict * option pystr :=
  if (0 <=? row)%Z && (row <? Z.of_nat (List.length scanned_data))%Z then
    match cell with
    | None => (scanned_data, cell)
    | Some value =>
      let i := Z.to_nat row in
      if (column =? 3)%Z then
        (alter (insert "srs" (PStr value)) i scanned_data, cell)
      else if (column =? 4)%Z then
        let normalized := normalize_name lower value in
        (alter (insert "new_name" (PStr normalized)) i scanned_data,
         if bool_decide (normalized = value) then cell else Some normalized)
      else if (column =? 5)%Z then
        (alter (insert "style" (PStr value)) i scanned_data, cell)
      else (scanned_data, cell)
    end
  else (scanned_data, cell).

End WithLower.

End DataTable.

(** ** File information and the folder scan *)

Module FileInfo.

Definition vector_extensions : list pystr :=
  [u ".shp"; u ".geojson"; u ".kml"; u ".gpkg"; u ".gml"].
Definition raster_extensions : list pystr :=
  [u ".tif"; u ".tiff"; u ".img"; u ".jp2"; u ".png"; u ".jpg"].

(** the extensions [get_file_info] looks into *)
Definition vector_detail : list pystr := [u ".shp"; u ".geojson"; u ".gpkg"].
Definition raster_detail : list pystr := [u ".tif"; u ".tiff"].

Definition UNKNOWN : pystr := Eval vm_compute in u "未知类型".

(** [x in s] *)
Definition member (x : pystr) (s : list pystr) : bool := bool_decide (x ∈ s).

(** [get_data_type] *)
Definition get_data_type (file_ext : pystr) : pystr :=
  if member file_ext vector_extensions then VECTOR
  else if member file_ext raster_extensions then RASTER
  else UNKNOWN.

(** What the file system and the spatial libraries tell about one file.
    [detect_geometry_type], [detect_crs] and [get_data_extent] have handlers
    of their own and always return: a string, a string, and a dictionary or
    [None]. *)
Record probes := {
  (** [os.path.getsize] and [format_file_size]: the size and its text, or
      what they raise *)
  stat : result (Z * pystr);
  geometry_type : pystr;
  crs : pystr;
  extent : pyval;
  (** [len(gpd.read_file(path))] when the file could be read *)
  feature_count : option Z;
  (** bands, width, height and dtype when rasterio could open the file *)
  raster_shape : option (Z * Z * Z * pystr)
}.

Definition set_raster_shape (shape : option (Z * Z * Z * pystr)) (info : pydict)
  : pydict :=
  match shape with
  | None => info
  | Some (bands, width, height, dtype) =>
    <["dtype" := PStr dtype]>
    (<["height" := PInt height]>
    (<["width" := PInt width]>
    (<["bands" := PInt bands]> info)))
  end.

(** [get_file_info]: [None] when anything raised.  [name] is
    [Path(file_path).stem] and [file_ext] is [Path(file_path).suffix.lower()]. *)
Definition get_file_info (file_path name file_ext : pystr) (p : probes)
  : option pydict :=
  match stat p with
  | Raise _ => None
  | Ok (file_size, size_formatted) =>
    let info : pydict :=
      <["path" := PStr file_path]>
      (<["name" := PStr name]>
      (<["extension" := PStr file_ext]>
      (<["size" := PInt file_size]>
      (<["size_formatted" := PStr size_formatted]>
      (<["type" := PStr (get_data_type file_ext)]>
      (<["geometry_type" := PNone]>
      (<["crs" := PNone]>
      (<["extent" := PNone]>
      (<["feature_count" := PNone]> ∅))))))))) in
    if member file_ext vector_detail then
      let info := <["geometry_type" := PStr (geometry_type p)]> info in
      let info := <["crs" := PStr (crs p)]> info in
      let info := <["extent" := extent p]> info in
      Some match feature_count p with
           | Some n => <["feature_count" := PInt n]> info
           | None => info
           end
    else if member file_ext raster_detail then
      let info := <["crs" := PStr (crs p)]> info in
      let info := <["extent" := extent p]> info in
      Some (set_raster_shape (raster_shape p) info)
    else Some info
  end.

(** one file met by [os.walk] *)
Record file_entry := {
  file : pystr;          (* its name *)
  file_path : pystr;     (* [os.path.join(root, file)] *)
  stem : pystr;          (* [Path(file).stem] *)
  file_ext : pystr;      (* [Path(file).suffix.lower()] *)
  probed : probes
}.

Section WithLower.

Variable lower : pystr -> pystr.

(** the body of the loop of [scan_folder] for one file: the item appended,
    if any *)
Definition scan_file (f : file_entry) : option pydict :=
  if member (file_ext f) vector_extensions || member (file_ext f) raster_extensions
  then
    match get_file_info (file_path f) (stem f) (file_ext f) (probed f) with
    | None => None
    | Some file_info =>
      if bool_decide (file_info = ∅) then None
      else match Scanner.data_item lower (file f) (file_path f) (stem f) file_info with
           | Ok data_item => Some data_item
           | Raise _ => None
           end
    end
  else None.

(** [scan_folder], over the files in the order [os.walk] gives them *)
Definition scan_folder (files : list file_entry) : list pydict :=
  omap scan_file files.

End WithLower.

End FileInfo.

(** ** The import task of the main window *)

Module ImportTask.

Section WithWorld.

Variable W : world.
Variable params : connection_params.

(** the [try] block of one iteration and its handler; [success_count] and
    [errors] are the two locals it updates, as its last step *)
Definition import_one (item : pydict) (success_count : Z) (errors : list pystr)
  : M (Z * list pystr) :=
  try_except
    (let* file_path := getitem item "path" in
     let* table_name := getitem item "new_name" in
     let* data_type := getitem item "type" in
     let srid_text := dict_get item "srs" (PStr EPSG_4326) in
     let* target_crs := target_crs_of srid_text in
     if is_str data_type VECTOR then
       let* r := import_vector_file W file_path table_name target_crs in
       if fst r then ret ((success_count + 1)%Z, errors)
       else ret (success_count, errors ++ [str_of table_name ++ u ": " ++ snd r])
     else if is_str data_type RASTER then
       let* r := import_raster_file file_path table_name target_crs in
       if fst r then ret ((success_count + 1)%Z, errors)
       else ret (success_count, errors ++ [str_of table_name ++ u ": " ++ snd r])
     else if is_str data_type SPATIAL_TABLE then
       ret ((success_count + 1)%Z, errors)
     else ret (success_count, errors))
    (fun e =>
       let* name := getitem item "new_name" in
       ret (success_count, errors ++ [str_of name ++ u ": " ++ exn_str e])).

(** the loop; the progress bar and the status label are set directly *)
Fixpoint import_items (total_count i : nat) (items : list pydict)
    (success_count : Z) (errors : list pystr) : M (Z * list pystr) :=
  match items with
  | [] => ret (success_count, errors)
  | item :: rest =>
    emit (EProgress (Ratio i total_count)) ;;;
    let* name := getitem item "new_name" in
    emit (EStatus (u "正在导入: " ++ str_of name)) ;;;
    let* r := import_one item success_count errors in
    import_items total_count (S i) rest (fst r) (snd r)
  end.

Definition result_message (success_count : Z) (total_count : nat)
    (errors : list pystr) : pystr :=
  let message := u "导入完成: 成功 " ++ str_of_Z success_count ++ u "/" ++
                 str_of_Z (Z.of_nat total_count) in
  match errors with
  | [] => message
  | _ :: _ =>
    message ++ [newline] ++ u "错误: " ++
    str_of_Z (Z.of_nat (List.length errors)) ++ u " 个"
  end.

(** [import_task] of [import_to_postgresql] *)
Definition import_task (scanned_data : list pydict) : M (bool * pystr) :=
  try_except
    (let* r := connect W params in
     let '(success, message) := r in
     if negb success then ret (false, u "数据库连接失败: " ++ message) else
     let total_count := List.length scanned_data in
     let* r := import_items total_count 0 scanned_data 0 [] in
     let '(success_count, errors) := r in
     emit (EProgress (Percent 100)) ;;;
     let message := result_message success_count total_count errors in
     emit (EStatus message) ;;;
     ret ((0 <? success_count)%Z, message))
    (fun e => ret (false, u "导入过程中发生错误: " ++ exn_str e)).

End WithWorld.

(** an item the import task leaves out of both of its tallies: its kind is
    none of the three and nothing raised before the kind was looked at *)
Definition uncounted (item : pydict) : bool :=
  match item !! "path", item !! "new_name", item !! "type" with
  | Some _, Some _, Some ty =>
    match dict_get item "srs" (PStr EPSG_4326) with
    | PStr _ =>
      negb (is_str ty VECTOR) && negb (is_str ty RASTER)
      && negb (is_str ty SPATIAL_TABLE)
    | _ => false
    end
  | _, _, _ => false
  end.

End ImportTask.

(** ** Listings of the publisher *)

Module Listing.

Set Warnings "-register-all".

(** what [response.json()] returns *)
Inductive json :=
| JNull
| JBool (b : bool)
| JNum (z : Z)
| JStr (s : pystr)
| JList (l : list json)
| JObj (fields : gmap pystr json).

(** truth value of an object in [if x] and [x and y]; a number that is not
    an integer counts as non-zero *)
Definition truthy (v : json) : bool :=
  match v with
  | JNull => false
  | JBool b => b
  | JNum z => negb (z =? 0)%Z
  | JStr s => negb (bool_decide (s = []))
  | JList l => match l with [] => false | _ :: _ => true end
  | JObj m => negb (bool_decide (m = ∅))
  end.

(** [sub in s] for two strings *)
Fixpoint is_infix (sub s : pystr) : bool :=
  startswith sub s ||
  match s with
  | [] => false
  | _ :: t => is_infix sub t
  end.

Definition is_the_string (key : pystr) (v : json) : bool :=
  match v with
  | JStr s => bool_decide (s = key)
  | _ => false
  end.

(** [key in v]: a key of a dict, an element of a list, a part of a string;
    a [TypeError] for the rest *)
Definition contains (key : pystr) (v : json) : result bool :=
  match v with
  | JObj m => Ok (bool_decide (is_Some (m !! key)))
  | JList l => Ok (existsb (is_the_string key) l)
  | JStr s => Ok (is_infix key s)
  | _ => Raise (OtherError (u "argument is not iterable"))
  end.

(** [v[key]] for a string [key] *)
Definition subscript (v : json) (key : pystr) : result json :=
  match v with
  | JObj m =>
    match m !! key with
    | Some x => Ok x
    | None => Raise (OtherError (u "KeyError"))
    end
  | JStr _ => Raise (OtherError (u "string indices must be integers"))
  | JList _ => Raise (OtherError (u "list indices must be integers or slices"))
  | _ => Raise (OtherError (u "object is not subscriptable"))
  end.

(** [data.get(key, {})] *)
Definition get_or_empty (data : json) (key : pystr) : result json :=
  match data with
  | JObj m => Ok (default (JObj ∅) (m !! key))
  | _ => Raise (AttributeError (u "object has no attribute 'get'"))
  end.

(** The lines the four listings share, from [data.get(outer, {})] to the
    [return] inside the [if]: [None] stands for falling through to the final
    [return []]. *)
Definition unwrap (outer inner : pystr) (data : json) : result (option (list json)) :=
  match get_or_empty data outer with
  | Raise e => Raise e
  | Ok container =>
    if truthy container then
      match contains inner container with
      | Raise e => Raise e
      | Ok false => Ok None
      | Ok true =>
        match subscript container inner with
        | Raise e => Raise e
        | Ok found =>
          match found with
          | JObj _ => Ok (Some [found])
          | JList l => Ok (Some l)
          | _ => Ok (Some [])
          end
        end
      end
    else Ok None
  end.

Section WithWorld.

Variable W : world.
(** [response.json()] of the answer to a GET *)
Variable body : list event -> pystr -> result json.
Variable base_url : pystr.

Definition listing (url outer inner : pystr) : M (list json) :=
  try_except
    (let* tr := get_trace in
     let* status := ask (EHttpGet url) (fun tr => http_get W tr url) in
     if (status =? 200)%Z then
       let* data := of_result (body tr url) in
       let* found := of_result (unwrap outer inner data) in
       match found with
       | Some l => ret l
       | None => ret []
       end
     else ret [])
    (fun e => ret []).

Definition get_workspaces : M (list json) :=
  listing (base_url ++ u "/rest/workspaces") (u "workspaces") (u "workspace").

Definition get_datastores (workspace : pystr) : M (list json) :=
  listing (base_url ++ u "/rest/workspaces/" ++ workspace ++ u "/datastores")
          (u "dataStores") (u "dataStore").

Definition get_layers (workspace : pystr) : M (list json) :=
  listing (base_url ++ u "/rest/workspaces/" ++ workspace ++ u "/layers")
          (u "layers") (u "layer").

(** [if workspace:] is false for [None] and for the empty string *)
Definition get_styles (workspace : option pystr) : M (list json) :=
  let url :=
    match workspace with
    | Some (c :: w) => base_url ++ u "/rest/workspaces/" ++ (c :: w) ++ u "/styles"
    | _ => base_url ++ u "/rest/styles"
    end in
  listing url (u "styles") (u "style").

End WithWorld.

(** what a listing returns for the parsed answer [data] *)
Definition entries (outer inner : pystr) (data : json) : list json :=
  match data with
  | JObj m =>
    match m !! outer with
    | Some (JObj container) =>
      match container !! inner with
      | Some (JObj o) => [JObj o]
      | Some (JList l) => l
      | _ => []
      end
    | _ => []
    end
  | _ => []
  end.

End Listing.

(** ** Programs over other interactions

    [import_vector_file] and [upload_style] talk to geopandas and to the
    style end points, which the batch trace does not show.  Their models
    record their own steps; the monad is the one of the batch without the
    counters. *)

Module Steps.

Section Over.

Context {E : Type}.

Definition L (A : Type) : Type := list E -> result A * list E.

Definition pure {A} (a : A) : L A := fun tr => (Ok a, tr).

Definition and_then {A B} (c : L A) (k : A -> L B) : L B :=
  fun tr =>
    match c tr with
    | (Ok a, tr') => k a tr'
    | (Raise e, tr') => (Raise e, tr')
    end.

(** [try: c  except Exception as e: h e] *)
Definition attempt {A} (c : L A) (h : exn -> L A) : L A :=
  fun tr =>
    match c tr with
    | (Ok a, tr') => (Ok a, tr')
    | (Raise e, tr') => h e tr'
    end.

(** one interaction: recorded, and answered from what happened before *)
Definition perform {A} (e : E) (answer : list E -> result A) : L A :=
  fun tr => (answer tr, tr ++ [e]).

Definition outcome (o : option exn) : result unit :=
  match o with
  | None => Ok tt
  | Some e => Raise e
  end.

Definition perform_unit (e : E) (answer : list E -> option exn) : L unit :=
  perform e (fun tr => outcome (answer tr)).

Definition lift {A} (r : result A) : L A := fun tr => (r, tr).

End Over.

End Steps.

(** ** [import_vector_file] in detail *)

Module VectorImport.

Import Steps.

Local Notation "'let+' x ':=' c 'in' k" := (and_then c (fun x => k))
  (at level 10, x name, c at level 100, k at level 200, only parsing).
Local Notation "c ;;+ k" := (and_then c (fun _ => k))
  (at level 100, right associativity, only parsing).

(** What [import_vector_file] looks at in the frame [gpd.read_file] returns.
    [gdf.geometry] raises when the frame has no geometry column; column
    labels are strings. *)
Record frame := {
  (** [gdf.geometry.empty] *)
  geometry_empty : result bool;
  (** [None] when [gdf.crs is None], else [str(gdf.crs)] *)
  crs : option pystr;
  (** [gdf.geometry.name] *)
  geometry_name : pystr;
  (** [gdf.columns] *)
  columns : list pystr
}.

Definition with_columns (gdf : frame) (cols : list pystr) : frame :=
  {| geometry_empty := geometry_empty gdf;
     crs := crs gdf;
     geometry_name := geometry_name gdf;
     columns := cols |}.

Inductive step :=
| ReadFile (file_path : pyval)
| SetCrs (target_crs : pystr)
| ToCrs (target_crs : pystr)
| RenameGeometry (col : pystr)
| TableExistsQuery (schema : pystr) (table_name : pyval)
| SqlExecute (stmt : pystr)
| Commit
| Rollback
| ToPostgis (gdf : frame) (table_name : pyval) (engine schema if_exists : pystr).

(** geopandas and the open connection, answering from the steps so far *)
Record library := {
  read_file : list step -> pyval -> result frame;
  (** [gdf.set_crs(target_crs, inplace=True)]: the frame afterwards *)
  set_crs : list step -> frame -> pystr -> result frame;
  to_crs : list step -> frame -> pystr -> result frame;
  rename_geometry : list step -> frame -> pystr -> result frame;
  (** the [information_schema.tables] query and [fetchone()[0]] *)
  fetch_exists : list step -> pystr -> pyval -> result bool;
  cursor_execute : list step -> pystr -> option exn;
  connection_commit : list step -> option exn;
  connection_rollback : list step -> option exn;
  to_postgis : list step -> frame -> pyval -> pystr -> pystr -> pystr -> option exn
}.

Definition is_database_step (e : step) : bool :=
  match e with
  | TableExistsQuery _ _ | SqlExecute _ | Commit | Rollback => true
  | ToPostgis _ _ _ _ _ => true
  | _ => false
  end.


(** the statements executed on the cursor, in order *)
Definition statements (tr : list step) : list pystr :=
  omap (fun e => match e with SqlExecute stmt => Some stmt | _ => None end) tr.

Definition replace_ : pystr := Eval vm_compute in u "replace".
Definition append_ : pystr := Eval vm_compute in u "append".
Definition imported : pystr := Eval vm_compute in u "导入成功".
Definition no_geometry : pystr := Eval vm_compute in u "文件中没有几何数据".

Section WithLibrary.

Variable lower : pystr -> pystr.
Variable G : library.
Variable params : connection_params.

(** [check_table_exists] *)
Definition check_table_exists (table_name : pyval) (schema : pystr) : L bool :=
  attempt
    (perform (TableExistsQuery schema table_name)
             (fun tr => fetch_exists G tr schema table_name))
    (fun e => pure false).

(** [drop_table_if_exists] *)
Definition drop_table_if_exists (table_name : pyval) (schema : pystr) : L bool :=
  attempt
    (let stmt := Tables.drop_statement schema (str_of table_name) in
     perform_unit (SqlExecute stmt) (fun tr => cursor_execute G tr stmt) ;;+
     perform_unit Commit (connection_commit G) ;;+
     pure true)
    (fun e =>
       perform_unit Rollback (connection_rollback G) ;;+
       pure false).

(** [create_spatial_index] *)
Definition create_spatial_index (table_name : pyval) (schema geom_column : pystr)
    : L bool :=
  attempt
    (let stmt := Tables.index_statement schema (str_of table_name) geom_column in
     perform_unit (SqlExecute stmt) (fun tr => cursor_execute G tr stmt) ;;+
     perform_unit Commit (connection_commit G) ;;+
     pure true)
    (fun e =>
       perform_unit Rollback (connection_rollback G) ;;+
       pure false).

(** [f"postgresql://{user}:{password}@{host}:{port}/{database}"] *)
Definition engine_string : pystr :=
  u "postgresql://" ++ user params ++ u ":" ++ password params ++
  u "@" ++ host params ++ u ":" ++ str_of_Z (port params) ++
  u "/" ++ database params.

(** [import_geodataframe_to_postgis], with [index=False] *)
Definition import_geodataframe_to_postgis (gdf : frame) (table_name : pyval)
    (schema if_exists : pystr) : L (bool * pystr) :=
  attempt
    (perform_unit (ToPostgis gdf table_name engine_string schema if_exists)
       (fun tr => to_postgis G tr gdf table_name engine_string schema if_exists) ;;+
     create_spatial_index table_name schema Columns.geom ;;+
     pure (true, imported))
    (fun e => pure (false, exn_str e)).

(** lines 440 to 445: the coordinate system of the frame *)
Definition reproject (gdf : frame) (target_crs : pystr) : L frame :=
  match crs gdf with
  | None => perform (SetCrs target_crs) (fun tr => set_crs G tr gdf target_crs)
  | Some c =>
      if bool_decide (c <> target_crs)
      then perform (ToCrs target_crs) (fun tr => to_crs G tr gdf target_crs)
      else pure gdf
  end.

(** lines 448 and 449 *)
Definition name_geometry (gdf : frame) : L frame :=
  if bool_decide (geometry_name gdf <> Columns.geom)
  then perform (RenameGeometry Columns.geom)
               (fun tr => rename_geometry G tr gdf Columns.geom)
  else pure gdf.

(** lines 452 to 459 *)
Definition clean_columns (gdf : frame) : frame :=
  with_columns gdf (Columns.destination_columns lower (columns gdf)).

(** lines 462 and 463; [and] does not ask when [overwrite] is false *)
Definition make_room (table_name : pyval) (schema : pystr) (overwrite : bool)
    : L unit :=
  if overwrite
  then let+ found := check_table_exists table_name schema in
       if found
       then drop_table_if_exists table_name schema ;;+ pure tt
       else pure tt
  else pure tt.

Definition if_exists_of (overwrite : bool) : pystr :=
  if overwrite then replace_ else append_.

(** [import_vector_file] *)
Definition import_vector_file (file_path table_name : pyval)
    (schema target_crs : pystr) (overwrite : bool) : L (bool * pystr) :=
  attempt
    (let+ gdf := perform (ReadFile file_path)
                         (fun tr => read_file G tr file_path) in
     let+ empty := lift (geometry_empty gdf) in
     if empty then pure (false, no_geometry)
     else
       let+ gdf := reproject gdf target_crs in
       let+ gdf := name_geometry gdf in
       let gdf := clean_columns gdf in
       make_room table_name schema overwrite ;;+
       import_geodataframe_to_postgis gdf table_name schema
         (if_exists_of overwrite))
    (fun e => pure (false, exn_str e)).

End WithLibrary.

(** *** A library for worked runs *)

Definition parcels_frame : frame :=
  {| geometry_empty := Ok false;
     crs := Some (u "EPSG:3857");
     geometry_name := u "geometry";
     columns := [u "Parcel ID"; u "Area(m2)"; u "geometry"] |}.

(** renaming the geometry column renames it among the columns too *)
Definition renamed (gdf : frame) (col : pystr) : frame :=
  {| geometry_empty := geometry_empty gdf;
     crs := crs gdf;
     geometry_name := col;
     columns := map (fun c => if bool_decide (c = geometry_name gdf) then col else c)
                    (columns gdf) |}.

Definition with_crs (gdf : frame) (c : pystr) : frame :=
  {| geometry_empty := geometry_empty gdf;
     crs := Some c;
     geometry_name := geometry_name gdf;
     columns := columns gdf |}.

(** a database in which the table exists and every statement goes through,
    except those in [refused] *)
Definition friendly (refused : pystr -> bool) : library :=
  {| read_file := fun _ _ => Ok parcels_frame;
     set_crs := fun _ gdf c => Ok (with_crs gdf c);
     to_crs := fun _ gdf c => Ok (with_crs gdf c);
     rename_geometry := fun _ gdf col => Ok (renamed gdf col);
     fetch_exists := fun _ _ _ => Ok true;
     cursor_execute := fun _ stmt =>
       if refused stmt then Some (OtherError (u "permission denied")) else None;
     connection_commit := fun _ => None;
     connection_rollback := fun _ => None;
     to_postgis := fun _ _ _ _ _ _ => None |}.

(** the same, but the write is refused *)
Definition write_refused (G : library) : library :=
  {| read_file := read_file G;
     set_crs := set_crs G;
     to_crs := to_crs G;
     rename_geometry := rename_geometry G;
     fetch_exists := fetch_exists G;
     cursor_execute := cursor_execute G;
     connection_commit := connection_commit G;
     connection_rollback := connection_rollback G;
     to_postgis := fun _ _ _ _ _ _ => Some (OtherError (u "disk full")) |}.


End VectorImport.

(** ** [upload_style] *)

Module Styles.

Import Steps.

Local Notation "'let+' x ':=' c 'in' k" := (and_then c (fun x => k))
  (at level 10, x name, c at level 100, k at level 200, only parsing).

Inductive request :=
(** [session.post(url, json={"style": {"name": .., "filename": ..}})] *)
| PostStyle (url : pystr) (name filename : pystr)
(** [session.put(sld_url, data=sld_content)] *)
| PutSld (sld_url : pystr) (sld_content : pystr).

Record server := {
  post_status : list request -> pystr -> pystr -> pystr -> result Z;
  put_status : list request -> pystr -> pystr -> result Z
}.

Definition is_put (r : request) : bool :=
  match r with
  | PutSld _ _ => true
  | PostStyle _ _ _ => false
  end.

Definition uploaded : pystr := Eval vm_compute in u "上传成功".

Section WithServer.

Variable GS : server.
Variable base_url : pystr.

(** [if workspace:] holds for a non-empty string *)
Definition styles_url (workspace : option pystr) : pystr :=
  match workspace with
  | Some (c :: w) => base_url ++ u "/rest/workspaces/" ++ (c :: w) ++ u "/styles"
  | _ => base_url ++ u "/rest/styles"
  end.

Definition sld_url (workspace : option pystr) (style_name : pystr) : pystr :=
  match workspace with
  | Some (c :: w) =>
      base_url ++ u "/rest/workspaces/" ++ (c :: w) ++ u "/styles/" ++ style_name
  | _ => base_url ++ u "/rest/styles/" ++ style_name
  end.

(** [upload_style] *)
Definition upload_style (style_name sld_content : pystr)
    (workspace : option pystr) : L (bool * pystr) :=
  attempt
    (let url := styles_url workspace in
     let filename := style_name ++ u ".sld" in
     let+ status := perform (PostStyle url style_name filename)
                      (fun tr => post_status GS tr url style_name filename) in
     if negb (created status) && negb (status =? 409)%Z
     then pure (false, u "样式创建失败: " ++ str_of_Z status)
     else
       let target := sld_url workspace style_name in
       let+ sld_status := perform (PutSld target sld_content)
                            (fun tr => put_status GS tr target sld_content) in
       if created sld_status
       then pure (true, uploaded)
       else pure (false, u "SLD上传失败: " ++ str_of_Z sld_status))
    (fun e => pure (false, exn_str e)).

End WithServer.

End Styles.

(** ** The data items of [scan_postgresql_data] *)

Module TableScan.

(** A row of [get_spatial_tables], with the columns its query selects;
    the cursor returns each row as a dictionary holding all of them, so the
    defaults of [table.get] are never taken.  [srid] is an integer or
    NULL. *)
Record spatial_table := {
  table_schema : pystr;
  table_name : pystr;
  geometry_type : pyval;
  srid : option Z;
  table_size : pyval;
  column_count : pyval
}.

Definition UNKNOWN_SRS : pystr := Eval vm_compute in u "未知".

(** [f"EPSG:{srid}" if srid else "未知"] *)
Definition srs_of (srid : option Z) : pystr :=
  match srid with
  | Some z => if (z =? 0)%Z then UNKNOWN_SRS else u "EPSG:" ++ str_of_Z z
  | None => UNKNOWN_SRS
  end.

(** the dictionary appended for one table *)
Definition table_item (t : spatial_table) : pydict :=
  let full_name := table_schema t ++ u "." ++ table_name t in
  <["original_name" := PStr full_name]>
  (<["path" := PStr full_name]>
  (<["type" := PStr SPATIAL_TABLE]>
  (<["size" := table_size t]>
  (<["srs" := PStr (srs_of (srid t))]>
  (<["new_name" := PStr (table_name t)]>
  (<["style" := PStr (u "default")]>
  (<["geometry_type" := geometry_type t]>
  (<["feature_count" := column_count t]>
  (<["extent" := PNone]> ∅))))))))).

(** the loop of [scan_postgresql_data] over the rows found *)
Definition scan_postgresql_data (spatial_tables : list spatial_table)
    : list pydict :=
  map table_item spatial_tables.

End TableScan.

(** * Properties *)

(** ** The name normalizer *)

Section NormalizerFacts.

Local Open Scope N_scope.

Lemma name_char_underscore : name_char underscore = true.
Proof. reflexivity. Qed.

Lemma sub_invalid_name_chars (s : pystr) : forallb name_char (sub_invalid s) = true.
Proof.
  induction s as [|c t IH]; simpl; [reflexivity|].
  rewrite IH, andb_true_r.
  destruct (name_char c) eqn:E; [exact E | reflexivity].
Qed.

Lemma sub_invalid_fixed (s : pystr) :
  forallb name_char s = true -> sub_invalid s = s.
Proof.
  induction s as [|c t IH]; simpl; [reflexivity|].
  intros [Hc Ht]%andb_true_iff. rewrite Hc, IH by assumption. reflexivity.
Qed.

Lemma collapse_from_chars (P : N -> bool) (b : bool) (s : pystr) :
  forallb P s = true -> forallb P (collapse_from b s) = true.
Proof.
  revert b. induction s as [|c t IH]; intros b; simpl; [reflexivity|].
  intros [Hc Ht]%andb_true_iff.
  destruct (N.eqb_spec c underscore) as [->|Hne].
  - destruct b; simpl; [|rewrite Hc; simpl]; auto.
  - simpl. rewrite Hc. simpl. auto.
Qed.

Lemma collapse_from_true_head (s : pystr) : head_us (collapse_from true s) = false.
Proof.
  induction s as [|c t IH]; simpl; [reflexivity|].
  destruct (N.eqb_spec c underscore) as [->|Hne]; [exact IH|].
  simpl. apply N.eqb_neq, Hne.
Qed.

Lemma collapse_from_no_run (b : bool) (s : pystr) : no_run (collapse_from b s) = true.
Proof.
  revert b. induction s as [|c t IH]; intros b; simpl; [reflexivity|].
  destruct (N.eqb_spec c underscore) as [->|Hne].
  - destruct b; [apply IH|].
    simpl. rewrite collapse_from_true_head, IH. reflexivity.
  - simpl. apply N.eqb_neq in Hne. rewrite Hne, IH. reflexivity.
Qed.

Lemma collapse_from_fixed (b : bool) (s : pystr) :
  no_run s = true -> (b = true -> head_us s = false) ->
  collapse_from b s = s.
Proof.
  revert b. induction s as [|c t IH]; intros b; simpl; [reflexivity|].
  intros [H1 H2]%andb_true_iff Hb.
  destruct (N.eqb_spec c underscore) as [->|Hne].
  - destruct b; [specialize (Hb eq_refl); discriminate|].
    simpl in H1. apply negb_true_iff in H1.
    rewrite (IH true); auto.
  - rewrite (IH false); auto. discriminate.
Qed.

Lemma lstrip_us_head (s : pystr) : head_us (lstrip_us s) = false.
Proof.
  induction s as [|c t IH]; simpl; [reflexivity|].
  destruct (N.eqb_spec c underscore) as [->|Hne]; [exact IH|].
  simpl. apply N.eqb_neq, Hne.
Qed.

Lemma lstrip_us_fixed (s : pystr) : head_us s = false -> lstrip_us s = s.
Proof. destruct s as [|c t]; simpl; [reflexivity|]. intros ->. reflexivity. Qed.

(** what [lstrip] removes is a block of underscores *)
Lemma lstrip_us_split (s : pystr) :
  exists n, s = repeat underscore n ++ lstrip_us s.
Proof.
  induction s as [|c t [n IH]]; simpl.
  - exists 0%nat. reflexivity.
  - destruct (N.eqb_spec c underscore) as [->|Hne].
    + exists (S n). simpl. f_equal. exact IH.
    + exists 0%nat. reflexivity.
Qed.

Lemma rev_repeat_us (n : nat) : rev (repeat underscore n) = repeat underscore n.
Proof.
  induction n as [|n IH]; simpl; [reflexivity|].
  rewrite IH. clear IH. induction n as [|n IH]; simpl; [reflexivity|].
  f_equal. exact IH.
Qed.

Lemma rstrip_us_split (s : pystr) :
  exists n, s = rstrip_us s ++ repeat underscore n.
Proof.
  unfold rstrip_us. destruct (lstrip_us_split (rev s)) as [n Hn].
  exists n. rewrite <- (rev_involutive s) at 1. rewrite Hn at 1.
  rewrite rev_app_distr, rev_repeat_us. reflexivity.
Qed.

Lemma rstrip_us_last (s : pystr) : head_us (rev (rstrip_us s)) = false.
Proof. unfold rstrip_us. rewrite rev_involutive. apply lstrip_us_head. Qed.

Lemma rstrip_us_head (s : pystr) : head_us s = false -> head_us (rstrip_us s) = false.
Proof.
  intros H. destruct (rstrip_us_split s) as [n Hn].
  destruct (rstrip_us s) as [|c t]; [reflexivity|].
  rewrite Hn in H. exact H.
Qed.

Lemma rstrip_us_fixed (s : pystr) : head_us (rev s) = false -> rstrip_us s = s.
Proof.
  intros H. unfold rstrip_us. rewrite lstrip_us_fixed by exact H.
  apply rev_involutive.
Qed.

Lemma forallb_app_l {A} (P : A -> bool) (a b : list A) :
  forallb P (a ++ b) = true -> forallb P a = true.
Proof. rewrite forallb_app. intros [H _]%andb_true_iff. exact H. Qed.

Lemma forallb_app_r {A} (P : A -> bool) (a b : list A) :
  forallb P (a ++ b) = true -> forallb P b = true.
Proof. rewrite forallb_app. intros [_ H]%andb_true_iff. exact H. Qed.

Lemma no_run_app_r (a b : pystr) : no_run (a ++ b) = true -> no_run b = true.
Proof.
  induction a as [|c t IH]; simpl; [auto|].
  intros [_ H]%andb_true_iff. auto.
Qed.

Lemma head_us_app (a b : pystr) : a <> [] -> head_us (a ++ b) = head_us a.
Proof. destruct a; [congruence | reflexivity]. Qed.

Lemma no_run_app_l (a b : pystr) : no_run (a ++ b) = true -> no_run a = true.
Proof.
  induction a as [|c t IH]; simpl; [auto|].
  intros [H1 H2]%andb_true_iff.
  rewrite IH by exact H2. rewrite andb_true_r.
  destruct t as [|d t']; simpl in *; [rewrite andb_false_r; reflexivity | exact H1].
Qed.

Lemma strip_us_chars (P : N -> bool) (s : pystr) :
  forallb P s = true -> forallb P (strip_us s) = true.
Proof.
  intros H. unfold strip_us.
  destruct (lstrip_us_split s) as [n Hn].
  destruct (rstrip_us_split (lstrip_us s)) as [m Hm].
  rewrite Hn in H. apply forallb_app_r in H.
  rewrite Hm in H. apply forallb_app_l in H. exact H.
Qed.

Lemma strip_us_no_run (s : pystr) : no_run s = true -> no_run (strip_us s) = true.
Proof.
  intros H. unfold strip_us.
  destruct (lstrip_us_split s) as [n Hn].
  destruct (rstrip_us_split (lstrip_us s)) as [m Hm].
  rewrite Hn in H. apply no_run_app_r in H.
  rewrite Hm in H. apply no_run_app_l in H. exact H.
Qed.

Lemma strip_us_ends (s : pystr) :
  head_us (strip_us s) = false /\ head_us (rev (strip_us s)) = false.
Proof.
  unfold strip_us. split.
  - apply rstrip_us_head, lstrip_us_head.
  - apply rstrip_us_last.
Qed.

Lemma strip_us_fixed (s : pystr) :
  head_us s = false -> head_us (rev s) = false -> strip_us s = s.
Proof.
  intros H1 H2. unfold strip_us.
  rewrite lstrip_us_fixed by exact H1. apply rstrip_us_fixed, H2.
Qed.

Variable lower : pystr -> pystr.

Lemma normalize_name_core (name : pystr) :
  normalize_name lower name =
  match core lower name with [] => unnamed | _ :: _ => core lower name end.
Proof. reflexivity. Qed.

Lemma core_shape (name : pystr) :
  forallb name_char (core lower name) = true /\ no_run (core lower name) = true /\
  head_us (core lower name) = false /\ head_us (rev (core lower name)) = false.
Proof.
  unfold core. split; [|split].
  - apply strip_us_chars, collapse_from_chars, sub_invalid_name_chars.
  - apply strip_us_no_run, collapse_from_no_run.
  - apply strip_us_ends.
Qed.

Lemma normal_form_unnamed : normal_form unnamed = true.
Proof. vm_compute. reflexivity. Qed.

Lemma normalize_name_normal_form (name : pystr) :
  normal_form (normalize_name lower name) = true.
Proof.
  rewrite normalize_name_core.
  destruct (core_shape name) as (H1 & H2 & H3 & H4).
  destruct (core lower name) as [|c t] eqn:E; [apply normal_form_unnamed|].
  unfold normal_form. rewrite H1, H2, H3, H4. reflexivity.
Qed.

Lemma normal_form_parts (s : pystr) :
  normal_form s = true ->
  s <> [] /\ forallb name_char s = true /\ no_run s = true /\
  head_us s = false /\ head_us (rev s) = false.
Proof.
  unfold normal_form.
  intros [[[[H0 H1]%andb_true_iff H2]%andb_true_iff H3]%andb_true_iff H4]%andb_true_iff.
  apply negb_true_iff in H0, H3, H4. apply bool_decide_eq_false in H0.
  auto.
Qed.

(** a name in normal form is returned unchanged, provided [lower] leaves
    lower-case text alone *)
Lemma normalize_name_fixed (s : pystr) :
  lower s = s -> normal_form s = true -> normalize_name lower s = s.
Proof.
  intros Hl (H0 & H1 & H2 & H3 & H4)%normal_form_parts.
  unfold normalize_name. rewrite Hl, sub_invalid_fixed by exact H1.
  unfold collapse. rewrite collapse_from_fixed by (auto; discriminate).
  rewrite strip_us_fixed by assumption.
  destruct s; congruence.
Qed.

Lemma alnum_not_us (c : N) : alnum_char c = name_char c && not_us c.
Proof.
  unfold alnum_char, name_char, not_us, is_lower_az, is_digit, underscore.
  destruct (N.eqb_spec c 95) as [->|Hne]; [reflexivity|].
  rewrite orb_false_r, andb_true_r. reflexivity.
Qed.

Lemma filter_sub_invalid (s : pystr) :
  List.filter not_us (sub_invalid s) = List.filter alnum_char s.
Proof.
  induction s as [|c t IH]; simpl; [reflexivity|].
  rewrite IH, alnum_not_us.
  destruct (name_char c); reflexivity.
Qed.

Lemma filter_collapse_from (b : bool) (s : pystr) :
  List.filter not_us (collapse_from b s) = List.filter not_us s.
Proof.
  revert b. induction s as [|c t IH]; intros b; simpl; [reflexivity|].
  unfold not_us at 2.
  destruct (N.eqb_spec c underscore) as [->|Hne]; simpl.
  - destruct b; simpl; apply IH.
  - unfold not_us at 1. apply N.eqb_neq in Hne. rewrite Hne. simpl.
    f_equal. apply IH.
Qed.

Lemma filter_repeat_us (n : nat) : List.filter not_us (repeat underscore n) = [].
Proof. induction n; simpl; auto. Qed.

Lemma filter_strip_us (s : pystr) :
  List.filter not_us (strip_us s) = List.filter not_us s.
Proof.
  unfold strip_us.
  destruct (lstrip_us_split s) as [n Hn].
  destruct (rstrip_us_split (lstrip_us s)) as [m Hm].
  rewrite Hn at 2. rewrite Hm at 2.
  rewrite !List.filter_app, !filter_repeat_us, app_nil_r. reflexivity.
Qed.

(** stripping and collapsing only ever remove underscores *)
Lemma filter_core (name : pystr) :
  List.filter not_us (core lower name) = valid_chars lower name.
Proof.
  unfold core, collapse, valid_chars.
  rewrite filter_strip_us, filter_collapse_from. apply filter_sub_invalid.
Qed.

Lemma core_nil_iff (name : pystr) :
  core lower name = [] <-> valid_chars lower name = [].
Proof.
  rewrite <- filter_core. split; [intros ->; reflexivity|].
  destruct (core_shape name) as (_ & _ & H & _).
  destruct (core lower name) as [|c t]; [reflexivity|].
  simpl in *. unfold not_us. rewrite H. discriminate.
Qed.

End NormalizerFacts.

Lemma ascii_lower_fixed (s : pystr) :
  forallb name_char s = true -> ascii_lower s = s.
Proof.
  induction s as [|c t IH]; simpl; [reflexivity|].
  intros [Hc Ht]%andb_true_iff. rewrite IH by exact Ht. f_equal.
  unfold ascii_lower_char.
  destruct (is_upper_az c) eqn:E; [|reflexivity].
  exfalso. revert Hc E.
  unfold name_char, is_lower_az, is_digit, is_upper_az, underscore.
  rewrite !orb_true_iff, !andb_true_iff, !N.leb_le, N.eqb_eq. lia.
Qed.

(** C4.  The name normalizer is idempotent: normalising a normalised name
    returns it unchanged.  [lower] is Python's [str.lower]; what is used of
    it is that it leaves a string of lower-case letters, digits and
    underscores as it is. *)
Theorem normalize_name_idempotent (lower : pystr -> pystr)
    (lower_fixed : forall s, forallb name_char s = true -> lower s = s)
    (x : pystr) :
  normalize_name lower (normalize_name lower x) = normalize_name lower x.
Proof.
  pose proof (normalize_name_normal_form lower x) as Hn.
  apply normalize_name_fixed; [|exact Hn].
  apply lower_fixed.
  apply normal_form_parts in Hn. tauto.
Qed.

Lemma normalize_name_idempotent_witness :
  (forall s, forallb name_char s = true -> ascii_lower s = s) /\
  normalize_name ascii_lower (normalize_name ascii_lower (u "My Roads (2020).v2"))
  = normalize_name ascii_lower (u "My Roads (2020).v2").
Proof.
  split.
  - exact ascii_lower_fixed.
  - exact (normalize_name_idempotent ascii_lower ascii_lower_fixed
             (u "My Roads (2020).v2")).
Defined.

(** C5, as the specification states it, fails: the input [unnamed] has only
    valid characters and its normal form is the word [unnamed]. *)
Lemma unnamed_from_valid_input :
  normalize_name ascii_lower (u "unnamed") = unnamed /\
  forallb name_char (u "unnamed") = true /\
  valid_chars ascii_lower (u "unnamed") <> [].
Proof. vm_compute. repeat split; discriminate. Qed.

(** C5, amended.  The normalizer is a total function whose result is
    non-empty and made of [[a-z0-9_]] only.  The result is [unnamed]
    whenever the lower-cased input has no letter or digit; and when the
    result is [unnamed], the letters and digits of the lower-cased input are
    none at all or spell [unnamed]. *)
Theorem normalize_name_total_pattern (lower : pystr -> pystr) (x : pystr) :
  let r := normalize_name lower x in
  r <> [] /\ forallb name_char r = true /\
  (valid_chars lower x = [] -> r = unnamed) /\
  (r = unnamed -> valid_chars lower x = [] \/ valid_chars lower x = unnamed).
Proof.
  intros r.
  destruct (normal_form_parts _ (normalize_name_normal_form lower x))
    as (H0 & H1 & _).
  split; [exact H0|]. split; [exact H1|].
  subst r. rewrite normalize_name_core. split.
  - intros Hv. apply core_nil_iff in Hv. rewrite Hv. reflexivity.
  - destruct (core lower x) as [|c t] eqn:E.
    + intros _. left. apply core_nil_iff, E.
    + intros Hu. right. rewrite <- filter_core, E, Hu. reflexivity.
Qed.

(** C6, as the specification states it, fails: a file called [1abc.shp] is
    given the target name [1abc], which starts with a digit. *)
Lemma target_name_may_start_with_digit :
  normalize_name ascii_lower (u "1abc") = u "1abc" /\
  starts_with_digit (normalize_name ascii_lower (u "1abc")) = true /\
  target_name_invariant (normalize_name ascii_lower (u "1abc")) = false /\
  (forall file file_path info item,
     Scanner.data_item ascii_lower file file_path (u "1abc") info = Ok item ->
     item !! "new_name" = Some (PStr (u "1abc"))).
Proof.
  repeat split; try (vm_compute; reflexivity).
  intros file file_path info item. unfold Scanner.data_item.
  destruct (info !! "type"); [|discriminate].
  destruct (info !! "size_formatted"); [|discriminate].
  intros [= <-]. reflexivity.
Qed.

(** C6, amended.  The target name that folder scanning gives a data item is
    the normal form of the file's stem: it is non-empty, made of
    [[a-z0-9_]] only (so it has no upper-case letter), neither starts nor
    ends with an underscore (so it is not made of underscores only) and has
    no two underscores in a row.  It may start with a digit. *)
Theorem scanned_target_name_shape (lower : pystr -> pystr)
    (file file_path stem : pystr) (file_info item : pydict) :
  Scanner.data_item lower file file_path stem file_info = Ok item ->
  exists n, item !! "new_name" = Some (PStr n) /\
    n = normalize_name lower stem /\
    n <> [] /\ forallb name_char n = true /\
    forallb (fun c => negb (is_upper_az c)) n = true /\
    head_us n = false /\ head_us (rev n) = false /\
    forallb (fun c => c =? underscore) n = false /\
    no_run n = true.
Proof.
  unfold Scanner.data_item.
  destruct (file_info !! "type"); [|discriminate].
  destruct (file_info !! "size_formatted"); [|discriminate].
  intros [= <-]. exists (normalize_name lower stem).
  destruct (normal_form_parts _ (normalize_name_normal_form lower stem))
    as (H0 & H1 & H2 & H3 & H4).
  repeat split; try assumption.
  - apply forallb_forall. intros c Hc.
    rewrite forallb_forall in H1. specialize (H1 c Hc). revert H1.
    unfold name_char, is_lower_az, is_digit, is_upper_az, underscore.
    rewrite !orb_true_iff, !andb_true_iff, !N.leb_le, N.eqb_eq, negb_true_iff.
    intros H. apply andb_false_iff. rewrite !N.leb_gt. lia.
  - destruct (normalize_name lower stem) as [|c t]; [congruence|].
    simpl in *. rewrite H3. reflexivity.
Qed.

Lemma scanned_target_name_shape_witness :
  exists n,
    (<["original_name" := PStr (u "Main Roads.shp")]>
     (<["path" := PStr (u "/data/Main Roads.shp")]>
     (<["type" := PStr VECTOR]>
     (<["size" := PStr (u "1.5 KB")]>
     (<["srs" := PStr EPSG_4326]>
     (<["new_name" := PStr (normalize_name ascii_lower (u "Main Roads"))]>
     (<["style" := PStr (u "default")]>
     (<["geometry_type" := PNone]>
     (<["feature_count" := PNone]>
     (<["extent" := PNone]> (∅ : pydict))))))))))) !! "new_name" = Some (PStr n) /\
    n = normalize_name ascii_lower (u "Main Roads") /\
    n <> [] /\ forallb name_char n = true /\
    forallb (fun c => negb (is_upper_az c)) n = true /\
    head_us n = false /\ head_us (rev n) = false /\
    forallb (fun c => c =? underscore) n = false /\
    no_run n = true.
Proof.
  apply (scanned_target_name_shape ascii_lower (u "Main Roads.shp")
           (u "/data/Main Roads.shp") (u "Main Roads")
           (<["type" := PStr VECTOR]>
            (<["size_formatted" := PStr (u "1.5 KB")]> ∅))).
  reflexivity.
Defined.

(** ** The publisher and the batch processor *)

#[local] Arguments startswith : simpl never.
#[local] Arguments import_vector_file : simpl never.
#[local] Arguments str_of_Z : simpl never.
#[local] Arguments u : simpl never.

Ltac run_monad :=
  unfold ask, ask_unit, post, of_result, of_outcome, get_trace, emit,
         try_except, bind, ret, raise in *; simpl in *.

Section PipelineFacts.

Variable W : world.
Variable params : connection_params.
Variable base_url : pystr.

Lemma post_eq (url : pystr) (body : payload) (s : state) :
  post W url body s = (answer W s url body, record (EHttpPost url body) s).
Proof. reflexivity. Qed.

Lemma create_workspace_eq (ws : pystr) (ns : option pystr) (s : state) :
  let uri := match ns with
             | None => u "http://www.example.com/" ++ ws
             | Some uri => uri
             end in
  let url := base_url ++ u "/rest/workspaces" in
  let body := WorkspaceData ws uri in
  create_workspace W base_url ws ns s =
  (Ok match answer W s url body with
      | Ok status =>
        if created status then (true, u "创建成功")
        else if (status =? 409)%Z then (true, u "工作空间已存在")
        else (false, u "创建失败: " ++ str_of_Z status)
      | Raise e => (false, exn_str e)
      end,
   record (EHttpPost url body) s).
Proof.
  intros uri url body. unfold create_workspace, answer. run_monad.
  fold uri. fold url. fold body.
  destruct (http_post W (trace s) url body) as [status|e]; [|reflexivity].
  destruct (created status); [reflexivity|].
  destruct (status =? 409)%Z; reflexivity.
Qed.

Lemma publish_layer_from_table_eq (ws ds : pystr) (table layer title srs : pyval)
    (s : state) :
  let layer' := if bool_decide (layer = PNone) then table else layer in
  let title' := if bool_decide (title = PNone) then layer' else title in
  let url := featuretypes_url base_url ws ds in
  let body := FeatureTypeData layer' table title' srs in
  publish_layer_from_table W base_url ws ds table layer title srs s =
  (Ok match answer W s url body with
      | Ok status =>
        if created status then (true, u "发布成功")
        else (false, u "发布失败: " ++ str_of_Z status)
      | Raise e => (false, exn_str e)
      end,
   record (EHttpPost url body) s).
Proof.
  intros layer' title' url body. unfold publish_layer_from_table, answer. run_monad.
  fold layer'. fold title'. fold url. fold body.
  destruct (http_post W (trace s) url body) as [status|e]; [|reflexivity].
  destruct (created status); reflexivity.
Qed.

Lemma publish_attempts_record (e : event) (s : state) :
  publish_attempts (trace (record e s)) =
  publish_attempts (trace s) ++ (if is_publish e then [e] else []).
Proof.
  unfold publish_attempts, record. simpl. rewrite List.filter_app. simpl.
  destruct (is_publish e); reflexivity.
Qed.

Lemma quiet_refl (s : state) : quiet s s.
Proof. repeat split. Qed.

Lemma quiet_trans (s1 s2 s3 : state) : quiet s1 s2 -> quiet s2 s3 -> quiet s1 s3.
Proof. unfold quiet. intros (?&?&?) (?&?&?). repeat split; congruence. Qed.

Lemma quiet_record (e : event) (s : state) :
  is_publish e = false -> quiet s (record e s).
Proof.
  intros H. repeat split. rewrite publish_attempts_record, H. apply app_nil_r.
Qed.

Lemma log_item_named (item : pydict) (s : state) :
  has_name item -> log_item item s = (Ok tt, s).
Proof. intros [n Hn]. unfold log_item, getitem. rewrite Hn. reflexivity. Qed.

Lemma log_item_nameless (item : pydict) (s : state) :
  item !! "new_name" = None -> log_item item s = (Raise (KeyError "new_name"), s).
Proof. intros Hn. unfold log_item, getitem. rewrite Hn. reflexivity. Qed.

Lemma import_vector_file_eq (file_path table_name : pyval) (crs : pystr) (s : state) :
  import_vector_file W file_path table_name crs s =
  (Ok (import_vector_result W (trace s) file_path table_name crs),
   record (EImportVector file_path table_name crs) s).
Proof. reflexivity. Qed.

(** the import stage of a named item returns a verdict and never raises *)
Lemma import_single_item_quiet (item : pydict) (s : state) :
  has_name item ->
  exists b s', _import_single_item W item s = (Ok b, s') /\ quiet s s'.
Proof.
  intros Hn. pose proof (log_item_named item s Hn) as Hlog.
  destruct Hn as [n Hn].
  unfold _import_single_item, try_except, bind, getitem. rewrite Hn.
  destruct (item !! "path") as [p|]; simpl;
    [|rewrite Hlog; exists false, s; split; [reflexivity | apply quiet_refl]].
  destruct (item !! "type") as [ty|]; simpl;
    [|rewrite Hlog; exists false, s; split; [reflexivity | apply quiet_refl]].
  unfold target_crs_of, startswith_epsg, bind.
  destruct (dict_get item "srs" (PStr EPSG_4326)) as [srs| | |]; simpl;
    try (rewrite Hlog; exists false, s; split; [reflexivity | apply quiet_refl]).
  destruct (is_str ty VECTOR).
  - unfold ret. eexists _, _. split; [reflexivity|].
    apply quiet_record. reflexivity.
  - destruct (is_str ty RASTER); [|destruct (is_str ty SPATIAL_TABLE)];
      simpl; eexists _, s; (split; [reflexivity | apply quiet_refl]).
Qed.

(** the publish stage of a named item posts one feature type and returns a
    verdict *)
Lemma publish_single_item_eq (item : pydict) (ws ds : pystr) (n : pyval) (s : state) :
  item !! "new_name" = Some n ->
  let srs := dict_get item "srs" (PStr EPSG_4326) in
  let url := featuretypes_url base_url ws ds in
  let body := FeatureTypeData n n n srs in
  _publish_single_item W base_url item ws ds s =
  (Ok match answer W s url body with
      | Ok status => created status
      | Raise _ => false
      end,
   record (EHttpPost url body) s).
Proof.
  intros Hn srs url body.
  unfold _publish_single_item, try_except, bind, getitem. rewrite Hn. simpl.
  rewrite publish_layer_from_table_eq. simpl.
  assert (Hl : (if bool_decide (n = PNone) then n else n) = n)
    by (destruct (bool_decide (n = PNone)); reflexivity).
  rewrite Hl. fold srs. fold url. fold body.
  destruct (answer W s url body) as [status|e]; [|reflexivity].
  destruct (created status); reflexivity.
Qed.

Lemma publish_single_item_once (item : pydict) (ws ds : pystr) (s : state) :
  has_name item ->
  exists b s', _publish_single_item W base_url item ws ds s = (Ok b, s') /\
    success_count s' = success_count s /\ error_count s' = error_count s /\
    List.length (publish_attempts (trace s')) =
    S (List.length (publish_attempts (trace s))).
Proof.
  intros [n Hn]. rewrite (publish_single_item_eq item ws ds n s Hn).
  eexists _, _. split; [reflexivity|]. repeat split.
  rewrite publish_attempts_record. simpl. rewrite length_app. simpl. lia.
Qed.

Section RunFacts.

Variable workspace datastore_name : pystr.
Variable progress_callback : option (callback percent).
Variable status_callback : option (callback pystr).

Lemma call_quiet {A} (cb : callback A) (e : event) (a : A) (s : state) :
  is_publish e = false ->
  exists r, call cb e a s = (r, record e s) /\ quiet s (record e s).
Proof.
  intros He. unfold call. destruct (cb (trace s) a); eexists; split;
    try reflexivity; apply quiet_record, He.
Qed.

Lemma report_progress_quiet (p : percent) (s : state) :
  exists r s', report_progress progress_callback p s = (r, s') /\ quiet s s'.
Proof.
  unfold report_progress. destruct progress_callback as [cb|].
  - destruct (call_quiet cb (EProgress p) p s eq_refl) as (r & H1 & H2). eauto.
  - exists (Ok tt), s. split; [reflexivity | apply quiet_refl].
Qed.

Lemma report_status_quiet (msg : M pystr) (s : state) :
  (exists r, msg s = (r, s)) ->
  exists r s', report_status status_callback msg s = (r, s') /\ quiet s s'.
Proof.
  intros [m Hm]. unfold report_status. destruct status_callback as [cb|].
  - unfold bind. rewrite Hm. destruct m as [m|e].
    + destruct (call_quiet cb (EStatus m) m s eq_refl) as (r & H1 & H2). eauto.
    + exists (Raise e), s. split; [reflexivity | apply quiet_refl].
  - exists (Ok tt), s. split; [reflexivity | apply quiet_refl].
Qed.

Lemma announce_quiet (total i : nat) (item : pydict) (s : state) :
  exists r s',
    announce progress_callback status_callback total i item s = (r, s') /\
    quiet s s'.
Proof.
  unfold announce, bind.
  destruct (report_progress_quiet (Ratio i total) s) as (r1 & s1 & H1 & Q1).
  rewrite H1. destruct r1 as [[]|e]; [|eauto].
  edestruct (report_status_quiet) as (r2 & s2 & H2 & Q2);
    [|rewrite H2; exists r2, s2; split; [reflexivity|]].
  - unfold getitem, bind. destruct (item !! "new_name"); eexists; reflexivity.
  - eapply quiet_trans; eauto.
Qed.

Local Abbreviation step :=
  (process_item W base_url workspace datastore_name progress_callback status_callback).
Local Abbreviation verdict_at :=
  (verdict_of W base_url workspace datastore_name progress_callback status_callback).
Local Abbreviation loop :=
  (for_items W base_url workspace datastore_name progress_callback status_callback).
Local Abbreviation verdicts_at :=
  (verdicts W base_url workspace datastore_name progress_callback status_callback).

(** One iteration on a named item: it returns normally, moves exactly one
    counter, the success counter exactly when both stages succeeded, and
    posts a feature type exactly when the import stage succeeded. *)
Lemma process_item_spec (total i : nat) (item : pydict) (s : state) :
  has_name item ->
  exists s', step total i item s = (Ok tt, s') /\
    let v := verdict_at total i item s in
    success_count s' = (success_count s + bump (succeeded v))%Z /\
    error_count s' = (error_count s + bump (negb (succeeded v)))%Z /\
    List.length (publish_attempts (trace s')) =
    (List.length (publish_attempts (trace s)) + bump_nat (import_succeeded v))%nat.
Proof.
  intros Hn. unfold process_item, verdict_of, item_body, try_except, bind.
  destruct (announce_quiet total i item s) as (ra & s1 & Ha & (Qa1 & Qa2 & Qa3)).
  rewrite Ha.
  destruct ra as [[]|e].
  - destruct (import_single_item_quiet item s1 Hn) as (b & s2 & Hi & (Qi1 & Qi2 & Qi3)).
    rewrite Hi. destruct b.
    + destruct (publish_single_item_once item workspace datastore_name s2 Hn)
        as (pb & s3 & Hp & Qp1 & Qp2 & Qp3).
      rewrite Hp. destruct pb.
      * unfold incr_success. rewrite log_item_named by exact Hn.
        eexists. split; [reflexivity|]. simpl. rewrite Qp3, Qi3, Qa3.
        repeat split; lia.
      * unfold incr_error. rewrite log_item_named by exact Hn.
        eexists. split; [reflexivity|]. simpl. rewrite Qp3, Qi3, Qa3.
        repeat split; lia.
    + unfold incr_error. rewrite log_item_named by exact Hn.
      eexists. split; [reflexivity|]. simpl. rewrite Qi3, Qa3.
      repeat split; lia.
  - unfold incr_error. rewrite log_item_named by exact Hn.
    eexists. split; [reflexivity|]. simpl. rewrite Qa3.
    repeat split; lia.
Qed.

(** An iteration on a dictionary without [new_name] does not return: the
    handler of the iteration raises in its turn. *)
Lemma process_item_nameless (total i : nat) (item : pydict) (s : state) :
  item !! "new_name" = None ->
  exists s', step total i item s = (Raise (KeyError "new_name"), s').
Proof.
  intros Hn.
  assert (Hi : forall s1, exists s2,
             _import_single_item W item s1 = (Raise (KeyError "new_name"), s2)).
  { intros s1. unfold _import_single_item, try_except, bind, getitem. rewrite Hn.
    destruct (item !! "path"); simpl; rewrite log_item_nameless by exact Hn;
      eexists; reflexivity. }
  unfold process_item, item_body, try_except, bind.
  destruct (announce_quiet total i item s) as (ra & s1 & Ha & _).
  rewrite Ha. destruct ra as [[]|e].
  - destruct (Hi s1) as [s2 H2]. rewrite H2. unfold incr_error.
    rewrite log_item_nameless by exact Hn. eexists. reflexivity.
  - unfold incr_error. rewrite log_item_nameless by exact Hn.
    eexists. reflexivity.
Qed.

Lemma process_item_returns_named (total i : nat) (item : pydict) (s s' : state) :
  step total i item s = (Ok tt, s') -> has_name item.
Proof.
  intros H. destruct (item !! "new_name") as [n|] eqn:E.
  - exists n. exact E.
  - destruct (process_item_nameless total i item s E) as [s2 H2]. congruence.
Qed.

(** The loop over named items. *)
Lemma for_items_spec (total : nat) (items : list pydict) :
  Forall has_name items ->
  forall (i : nat) (s : state),
  exists s', loop total i items s = (Ok tt, s') /\
    let vs := verdicts_at total i items s in
    success_count s' =
      (success_count s + Z.of_nat (count_verdicts succeeded vs))%Z /\
    error_count s' =
      (error_count s + Z.of_nat (count_verdicts (fun v => negb (succeeded v)) vs))%Z /\
    List.length (publish_attempts (trace s')) =
      (List.length (publish_attempts (trace s)) + count_verdicts import_succeeded vs)%nat.
Proof.
  induction 1 as [|item rest Hitem Hrest IH]; intros i s.
  - exists s. split; [reflexivity|]. simpl. unfold count_verdicts. simpl.
    repeat split; lia.
  - destruct (process_item_spec total i item s Hitem) as (s1 & H1 & Hs & He & Hp).
    destruct (IH (S i) s1) as (s2 & H2 & Hs2 & He2 & Hp2).
    exists s2. simpl. unfold bind. rewrite H1. split; [exact H2|].
    simpl in *.
    unfold count_verdicts in *. simpl.
    rewrite Hs2, He2, Hp2, Hs, He, Hp.
    destruct (verdict_at total i item s); simpl; repeat split; lia.
Qed.

(** A loop that returns has moved exactly one counter per item. *)
Lemma for_items_tally (total : nat) (items : list pydict) :
  forall (i : nat) (s s' : state),
  loop total i items s = (Ok tt, s') ->
  Forall has_name items /\
  (success_count s' + error_count s' =
   success_count s + error_count s + Z.of_nat (List.length items))%Z /\
  (success_count s <= success_count s')%Z /\
  (error_count s <= error_count s')%Z.
Proof.
  induction items as [|item rest IH]; intros i s s' H.
  - simpl in H. injection H as <-. split; [constructor|]. simpl. lia.
  - simpl in H. unfold bind in H.
    destruct (step total i item s) as [[[]|e] s1] eqn:E1; [|discriminate].
    pose proof (process_item_returns_named _ _ _ _ _ E1) as Hn.
    destruct (process_item_spec total i item s Hn) as (s1' & H1 & Hs & He & _).
    rewrite E1 in H1. injection H1 as <-.
    destruct (IH _ _ _ H) as (Hall & Hsum & Hle1 & Hle2).
    split; [constructor; assumption|].
    simpl in Hs, He. rewrite Hs, He in *.
    change (List.length (item :: rest)) with (S (List.length rest)).
    unfold bump in *.
    destruct (succeeded (verdict_at total i item s)); simpl in *; lia.
Qed.

Local Abbreviation run_batch :=
  (batch W base_url workspace datastore_name progress_callback status_callback).

(** A batch that returns, returns the verdict of its counters. *)
Lemma batch_returns (items : list pydict) (s1 s2 : state) (r : bool * pystr) :
  run_batch items s1 = (Ok r, s2) ->
  r = ((0 <? success_count s2)%Z,
       completed_message (success_count s2) (List.length items)) /\
  (success_count s2 + error_count s2 = Z.of_nat (List.length items))%Z /\
  (0 <= success_count s2)%Z /\ (0 <= error_count s2)%Z /\
  Forall has_name items /\
  (forall cb, status_callback = Some cb ->
     exists tr, trace s2 =
       tr ++ [EStatus (completed_status (success_count s2) (error_count s2))]).
Proof.
  unfold batch, bind, set_counters. intros H.
  destruct (loop _ 0%nat items _) as [[[]|e] sA] eqn:EL; [|discriminate].
  apply for_items_tally in EL. simpl in EL. destruct EL as (Hall & Hsum & Hs & He).
  destruct (report_progress_quiet (Percent 100) sA) as (rp & sB & HP & (Qs & Qe & _)).
  rewrite HP in H. destruct rp as [[]|e]; [|discriminate].
  unfold report_status in H. destruct status_callback as [cb|].
  - unfold bind, get_success_count, get_error_count, ret, call in H.
    destruct (cb (trace sB) _); [discriminate|].
    simpl in H. injection H as <- <-. simpl.
    rewrite Qs, Qe. repeat split; try lia; try assumption.
    intros cb' _. eexists. reflexivity.
  - unfold ret, get_success_count in H. injection H as <- <-.
    rewrite Qs, Qe. repeat split; try lia; try assumption.
    intros cb' [=].
Qed.

End RunFacts.

(** Without callbacks a batch over named items always reaches its
    [return]. *)
Lemma batch_of_named_items_returns (workspace datastore_name : pystr)
    (items : list pydict) (s1 : state) :
  Forall has_name items ->
  exists r s2,
    batch W base_url workspace datastore_name None None items s1 = (Ok r, s2).
Proof.
  intros Hall. unfold batch, bind, set_counters.
  destruct (for_items_spec workspace datastore_name None None
              (List.length items) items Hall 0%nat
              {| trace := trace s1; success_count := 0; error_count := 0 |})
    as (sA & HA & _).
  rewrite HA. simpl. eexists _, _. reflexivity.
Qed.

End PipelineFacts.

(** ** The batch processor: claims *)





(** C3, as the specification states it, fails: what the caller receives
    does not hold the failure list.  Two runs in which different items fail
    return the same value. *)
Lemma failure_list_is_not_returned :
  fst (Examples.run_plain [Examples.dem; Examples.parcels]) =
  fst (Examples.run_plain [Examples.hillshade; Examples.parcels]) /\
  fst (Examples.run_plain [Examples.dem; Examples.parcels]) =
  Ok (true, u "处理完成: 成功 1/2 个") /\
  Examples.failed_plain [Examples.dem; Examples.parcels]
  = [PStr (u "/data/dem.tif")] /\
  Examples.failed_plain [Examples.hillshade; Examples.parcels]
  = [PStr (u "/data/hillshade.tif")] /\
  Examples.failed_plain [Examples.dem; Examples.parcels] <>
  Examples.failed_plain [Examples.hillshade; Examples.parcels].
Proof. vm_compute. repeat split; discriminate. Qed.

(** C3, amended.  Every batch run returns to its caller a pair of a flag
    and a message, and never raises.  When the run passed the setup phase
    and reached its [return], the pair is made of the success counter S and
    the number of items T only (flag S > 0, message "处理完成: 成功 S/T 个"),
    the error counter is T - S, and it is the status callback, when there is
    one, that is told both counters last.  No list of failed items is
    returned. *)
Theorem run_returns_flag_and_message
    (W : world) (params : connection_params)
    (base_url workspace datastore_name : pystr)
    (progress_callback : option (callback percent))
    (status_callback : option (callback pystr))
    (data_items : list pydict) (s : state) :
  exists (r : bool * pystr) (s' : state),
    process_data_items W params base_url workspace datastore_name
      progress_callback status_callback data_items s = (Ok r, s') /\
    forall (s1 s2 : state) (r2 : bool * pystr),
      setup W params base_url workspace datastore_name s = (Ok None, s1) ->
      batch W base_url workspace datastore_name progress_callback
        status_callback data_items s1 = (Ok r2, s2) ->
      r = ((0 <? success_count s')%Z,
           completed_message (success_count s') (List.length data_items)) /\
      error_count s' = (Z.of_nat (List.length data_items) - success_count s')%Z /\
      (forall cb, status_callback = Some cb ->
         exists tr, trace s' =
           tr ++ [EStatus (completed_status (success_count s') (error_count s'))]).
Proof.
  unfold process_data_items, try_except, bind.
  destruct (setup W params base_url workspace datastore_name s)
    as [[[msg|]|e] s1] eqn:Hsetup.
  - eexists _, _. split; [reflexivity|]. intros ? ? ? [=].
  - destruct (batch W base_url workspace datastore_name progress_callback
                status_callback data_items s1) as [[r|e] s2] eqn:Hbatch.
    + exists r, s2. split; [reflexivity|].
      intros s1' s2' r2 [= <-] _.
      destruct (batch_returns W base_url workspace datastore_name
                  progress_callback status_callback data_items s1 s2 r Hbatch)
        as (Hr & Hsum & _ & _ & _ & Hlast).
      repeat split; [exact Hr | lia | exact Hlast].
    + eexists _, _. split; [reflexivity|].
      intros s1' s2' r2 [= <-]. rewrite Hbatch. intros [=].
  - eexists _, _. split; [reflexivity|]. intros ? ? ? [=].
Qed.

(** ** The gateways: claims *)

(** C7.  [create_workspace] returns success when the server answers 200,
    201 or 409 and failure for any other status (and when the request
    raises); [publish_layer_from_table] returns success when the server
    answers 200 or 201 only, so a 409 is a failure there. *)
Theorem conflict_is_success_for_workspace_only
    (W : world) (base_url workspace datastore : pystr)
    (namespace_uri : option pystr) (table layer title srs : pyval) (s : state) :
  (exists (url : pystr) (body : payload) (r : bool * pystr),
     create_workspace W base_url workspace namespace_uri s =
       (Ok r, record (EHttpPost url body) s) /\
     fst r = match answer W s url body with
             | Ok status =>
               (status =? 200)%Z || (status =? 201)%Z || (status =? 409)%Z
             | Raise _ => false
             end) /\
  (exists (url : pystr) (body : payload) (r : bool * pystr),
     publish_layer_from_table W base_url workspace datastore
       table layer title srs s =
       (Ok r, record (EHttpPost url body) s) /\
     fst r = match answer W s url body with
             | Ok status => (status =? 200)%Z || (status =? 201)%Z
             | Raise _ => false
             end).
Proof.
  split.
  - rewrite create_workspace_eq. eexists _, _, _. split; [reflexivity|].
    match goal with |- context [answer W s ?url ?body] =>
      destruct (answer W s url body) as [status|e] end; [|reflexivity].
    unfold created.
    destruct ((status =? 200)%Z || (status =? 201)%Z); simpl; [reflexivity|].
    destruct (status =? 409)%Z; reflexivity.
  - rewrite publish_layer_from_table_eq. eexists _, _, _. split; [reflexivity|].
    match goal with |- context [answer W s ?url ?body] =>
      destruct (answer W s url body) as [status|e] end; [|reflexivity].
    unfold created.
    destruct ((status =? 200)%Z || (status =? 201)%Z); reflexivity.
Qed.

(** C8, as the specification states it, fails: the gateway's
    [rename_table] does not look at the new name.  Given ["1abc"], which
    violates the identifier rule, it executes the ALTER TABLE statement and
    commits; on a database that accepts the quoted name it reports
    success. *)
Lemma gateway_rename_executes_invalid_name :
  MainWindow.re_match_ident (u "1abc") = false /\
  Pipeline.rename_table Examples.reachable (u "roads") (u "1abc") (u "public")
    Examples.s0 =
  (Ok (true, u "重命名成功"),
   {| trace := [ESqlExecute (rename_statement (u "public") (u "roads") (u "1abc"));
                ECommit];
      success_count := 0; error_count := 0 |}).
Proof. vm_compute. split; reflexivity. Qed.

(** C8, amended.  A new name that violates the identifier rule is rejected
    by the rename action of the main window, before a connection is opened
    or any SQL executes: the action returns with the state untouched and
    reports no rename.  The gateway's [rename_table] itself checks nothing:
    whatever the new name, its first step is to execute the ALTER TABLE
    statement. *)
Theorem invalid_name_rejected_by_main_window
    (W : world) (params : connection_params)
    (selected_items : list (option MainWindow.table_data))
    (new_name : pystr) (s : state) :
  MainWindow.re_match_ident new_name = false ->
  (exists m,
     MainWindow.rename_table W params selected_items (Some new_name) s = (Ok m, s) /\
     forall text, m <> MainWindow.Information text) /\
  (forall old_name schema : pystr,
     exists r s' rest,
       Pipeline.rename_table W old_name new_name schema s = (r, s') /\
       trace s' =
       trace s ++ ESqlExecute (rename_statement schema old_name new_name) :: rest).
Proof.
  intros Hbad. split.
  - unfold MainWindow.rename_table, try_except.
    destruct selected_items as [|[data|] rest]; simpl.
    + eexists. split; [reflexivity | discriminate].
    + rewrite Hbad. simpl.
      destruct (bool_decide (new_name = []) ||
                bool_decide (new_name = MainWindow.table_name data));
        eexists; (split; [reflexivity | discriminate]).
    + eexists. split; [reflexivity | discriminate].
  - intros old_name schema.
    unfold Pipeline.rename_table, ask_unit, of_outcome, get_trace, emit,
      try_except, bind, ret, raise.
    cbn [trace record].
    destruct (sql_execute W (trace s) _) as [e|].
    + destruct (rollback W _) as [e'|]; eexists _, _, _;
        (split; [reflexivity|]); cbn [trace record];
        rewrite <- !app_assoc; reflexivity.
    + destruct (commit W _) as [e|].
      * destruct (rollback W _) as [e'|]; eexists _, _, _;
          (split; [reflexivity|]); cbn [trace record];
          rewrite <- !app_assoc; reflexivity.
      * eexists _, _, _. split; [reflexivity|]. cbn [trace record].
        rewrite <- !app_assoc. reflexivity.
Qed.

Lemma invalid_name_rejected_by_main_window_witness :
  MainWindow.re_match_ident (u "1abc") = false /\
  (exists m,
     MainWindow.rename_table Examples.reachable Examples.params0
       [Some {| MainWindow.table_name := u "roads";
                MainWindow.table_schema := u "public" |}]
       (Some (u "1abc")) Examples.s0 = (Ok m, Examples.s0) /\
     forall text, m <> MainWindow.Information text).
Proof.
  split; [reflexivity|].
  exact (proj1 (invalid_name_rejected_by_main_window Examples.reachable
                  Examples.params0
                  [Some {| MainWindow.table_name := u "roads";
                           MainWindow.table_schema := u "public" |}]
                  (u "1abc") Examples.s0 eq_refl)).
Defined.

(** *** Column names *)

Lemma column_mapping_from (lower : pystr -> pystr) (columns : list pystr)
    (m : gmap pystr pystr) (c : pystr) :
  let m' := foldl (fun mapping col =>
                     if bool_decide (col = Columns.geom) then mapping
                     else <[col := Columns.clean_col lower col]> mapping)
                  m columns in
  (c ∈ columns -> c <> Columns.geom -> m' !! c = Some (Columns.clean_col lower c)) /\
  (c ∉ columns \/ c = Columns.geom -> m' !! c = m !! c).
Proof.
  revert m. induction columns as [|a rest IH]; intros m; simpl.
  - split; [intros H; inversion H | reflexivity].
  - destruct (IH (if bool_decide (a = Columns.geom) then m
                  else <[a := Columns.clean_col lower a]> m)) as [IH1 IH2].
    split.
    + intros Hin Hne. destruct (decide (c ∈ rest)) as [Hr|Hr]; [auto|].
      rewrite IH2 by auto.
      apply elem_of_cons in Hin as [->|Hin]; [|contradiction].
      rewrite bool_decide_eq_false_2 by exact Hne.
      apply lookup_insert_eq.
    + intros H. rewrite IH2.
      * case_bool_decide as Ha; [reflexivity|].
        apply lookup_insert_ne. intros ->.
        destruct H as [H|H]; [apply H; left | contradiction].
      * destruct H as [H|H]; [left | right; exact H].
        intros Hr. apply H. right. exact Hr.
Qed.

Lemma column_mapping_lookup (lower : pystr -> pystr) (columns : list pystr) (c : pystr) :
  (c ∈ columns -> c <> Columns.geom ->
   Columns.column_mapping lower columns !! c = Some (Columns.clean_col lower c)) /\
  (c ∉ columns \/ c = Columns.geom ->
   Columns.column_mapping lower columns !! c = None).
Proof.
  destruct (column_mapping_from lower columns ∅ c) as [H1 H2].
  split; [exact H1|]. intros H. unfold Columns.column_mapping.
  rewrite H2 by exact H. apply lookup_empty.
Qed.

(** C9, as the specification states it, fails: the column clean-up keeps
    runs of underscores and underscores at the ends, and leaves an empty or
    all-underscore result as it is, where the normalizer does not. *)
Lemma column_clean_up_is_not_the_normalizer :
  Columns.destination_columns ascii_lower [u "Pop. (2020)"; u "#"; Columns.geom]
  = [u "pop___2020_"; u "_"; Columns.geom] /\
  normalize_name ascii_lower (u "Pop. (2020)") = u "pop_2020" /\
  normalize_name ascii_lower (u "#") = u "unnamed" /\
  Columns.clean_col ascii_lower (u "Pop. (2020)")
  <> normalize_name ascii_lower (u "Pop. (2020)").
Proof. vm_compute. repeat split; discriminate. Qed.

(** C9, amended.  During [import_vector_file] every column other than
    [geom] is renamed to its lower-cased name with each character outside
    [[a-zA-Z0-9_]] replaced by an underscore, one for one: the name keeps
    its length, underscores are neither collapsed nor stripped and an empty
    result is not replaced.  The column [geom] keeps its name. *)
Theorem columns_lowered_and_substituted (lower : pystr -> pystr)
    (columns : list pystr) :
  Columns.destination_columns lower columns =
  map (fun c => if bool_decide (c = Columns.geom) then c
                else Columns.clean_col lower c) columns /\
  forall c, c ∈ columns -> c <> Columns.geom ->
    Columns.column_mapping lower columns !! c = Some (Columns.clean_col lower c) /\
    Columns.clean_col lower c =
      map (fun x => if Columns.word_char x then x else underscore) (lower c) /\
    List.length (Columns.clean_col lower c) = List.length (lower c) /\
    forallb Columns.word_char (Columns.clean_col lower c) = true.
Proof.
  split.
  - assert (Hren : Columns.rename (Columns.column_mapping lower columns) columns =
                   map (fun c => if bool_decide (c = Columns.geom) then c
                                 else Columns.clean_col lower c) columns).
    { unfold Columns.rename. apply map_ext_in. intros c Hc.
      apply list_elem_of_In in Hc.
      destruct (column_mapping_lookup lower columns c) as [H1 H2].
      case_bool_decide as Hg.
      - rewrite H2 by (right; exact Hg). reflexivity.
      - rewrite H1 by assumption. reflexivity. }
    unfold Columns.destination_columns. case_bool_decide as He; [|exact Hren].
    rewrite <- Hren. unfold Columns.rename. rewrite He.
    symmetry. erewrite map_ext; [apply map_id|].
    intros c. rewrite lookup_empty. reflexivity.
  - intros c Hc Hg. split; [apply column_mapping_lookup; assumption|].
    split; [reflexivity|]. split.
    + unfold Columns.clean_col. apply length_map.
    + unfold Columns.clean_col. apply forallb_forall. intros x Hx.
      apply in_map_iff in Hx as (y & <- & _).
      destruct (Columns.word_char y) eqn:E; [exact E | reflexivity].
Qed.

(** ** Coordinate systems of the two stages *)

(** C10.  For an item whose coordinate reference string does not start
    with [EPSG:], the import stage computes the target system [EPSG:4326]
    and hands that to [import_vector_file] without a word, while the
    publish stage posts the item's own string as the layer's [srs]: the two
    differ. *)
Theorem import_and_publish_crs_differ
    (W : world) (base_url workspace datastore_name : pystr)
    (item : pydict) (srs : pystr) (s : state) :
  item !! "srs" = Some (PStr srs) ->
  startswith EPSG_prefix srs = false ->
  target_crs_of (PStr srs) s = (Ok EPSG_4326, s) /\
  srs <> EPSG_4326 /\
  (forall file_path table_name,
     item !! "path" = Some file_path ->
     item !! "new_name" = Some table_name ->
     item !! "type" = Some (PStr VECTOR) ->
     _import_single_item W item s =
     (Ok (fst (import_vector_result W (trace s) file_path table_name EPSG_4326)),
      record (EImportVector file_path table_name EPSG_4326) s)) /\
  (forall name,
     item !! "new_name" = Some name ->
     exists published,
       _publish_single_item W base_url item workspace datastore_name s =
       (Ok published,
        record (EHttpPost (featuretypes_url base_url workspace datastore_name)
                          (FeatureTypeData name name name (PStr srs))) s)).
Proof.
  intros Hsrs Hpre.
  assert (Hget : dict_get item "srs" (PStr EPSG_4326) = PStr srs)
    by (unfold dict_get; rewrite Hsrs; reflexivity).
  assert (Hcrs : target_crs_of (PStr srs) s = (Ok EPSG_4326, s)).
  { unfold target_crs_of, startswith_epsg, bind, ret. rewrite Hpre. reflexivity. }
  split; [exact Hcrs|]. split.
  { intros ->. change (startswith EPSG_prefix (EPSG_prefix ++ u "4326") = false) in Hpre.
    revert Hpre. vm_compute. discriminate. }
  split.
  - intros file_path table_name Hp Hn Ht.
    unfold _import_single_item, try_except, bind, getitem.
    rewrite Hp, Hn, Ht, Hget. unfold ret at 1 2 3.
    rewrite Hcrs. unfold is_str. rewrite bool_decide_eq_true_2 by reflexivity.
    rewrite import_vector_file_eq. reflexivity.
  - intros name Hn.
    rewrite (publish_single_item_eq W base_url item workspace datastore_name name s Hn).
    rewrite Hget. eexists. reflexivity.
Qed.

Lemma import_and_publish_crs_differ_witness :
  Examples.lakes !! "srs" = Some (PStr (u "ESRI:102100")) /\
  startswith EPSG_prefix (u "ESRI:102100") = false /\
  _import_single_item Examples.reachable Examples.lakes Examples.s0 =
  (Ok true,
   record (EImportVector (PStr (u "/data/lakes.shp")) (PStr (u "lakes")) EPSG_4326)
          Examples.s0) /\
  exists published,
    _publish_single_item Examples.reachable Examples.base0 Examples.lakes
      (u "gis") (u "gis_datastore") Examples.s0 =
    (Ok published,
     record (EHttpPost (featuretypes_url Examples.base0 (u "gis") (u "gis_datastore"))
               (FeatureTypeData (PStr (u "lakes")) (PStr (u "lakes"))
                  (PStr (u "lakes")) (PStr (u "ESRI:102100")))) Examples.s0).
Proof.
  pose proof (import_and_publish_crs_differ Examples.reachable Examples.base0
                (u "gis") (u "gis_datastore") Examples.lakes (u "ESRI:102100")
                Examples.s0 eq_refl eq_refl) as (_ & _ & Himport & Hpublish).
  split; [reflexivity|]. split; [reflexivity|]. split.
  - exact (Himport (PStr (u "/data/lakes.shp")) (PStr (u "lakes"))
             eq_refl eq_refl eq_refl).
  - exact (Hpublish (PStr (u "lakes")) eq_refl).
Defined.

(** ** The setup phase *)

Import TraceViews.

Section SetupFacts.

Variable W : world.
Variable params : connection_params.
Variable base_url : pystr.

Lemma connect_eq (s : state) :
  let s1 := record (EPgConnect params) s in
  let s2 := record EPostgisQuery s1 in
  connect W params s =
  match pg_connect W (trace s) params with
  | Some e => (Ok (false, exn_str e), s1)
  | None =>
    match has_postgis W (trace s1) with
    | Ok true => (Ok (true, u "连接成功"), s2)
    | Ok false => (Ok (false, u "PostGIS扩展未安装"), s2)
    | Raise e => (Ok (false, exn_str e), s2)
    end
  end.
Proof.
  intros s1 s2. unfold connect. run_monad.
  destruct (pg_connect W (trace s) params); [reflexivity|].
  destruct (has_postgis W _) as [[|]|e]; reflexivity.
Qed.

Lemma test_connection_eq (s : state) :
  let url := base_url ++ u "/rest/about/version" in
  test_connection W base_url s =
  (Ok match http_get W (trace s) url with
      | Ok status =>
        if (status =? 200)%Z then (true, u "连接成功")
        else (false, u "HTTP " ++ str_of_Z status)
      | Raise e => (false, exn_str e)
      end,
   record (EHttpGet url) s).
Proof.
  intros url. unfold test_connection. run_monad. fold url.
  destruct (http_get W (trace s) url) as [status|e]; [|reflexivity].
  destruct (status =? 200)%Z; reflexivity.
Qed.

Lemma create_postgresql_datastore_eq (ws ds : pystr) (pg : connection_params)
    (s : state) :
  let url := base_url ++ u "/rest/workspaces/" ++ ws ++ u "/datastores" in
  let body := DataStoreData ds pg in
  create_postgresql_datastore W base_url ws ds pg s =
  (Ok match answer W s url body with
      | Ok status =>
        if created status then (true, u "创建成功")
        else if (status =? 409)%Z then (true, u "数据存储已存在")
        else (false, u "创建失败: " ++ str_of_Z status)
      | Raise e => (false, exn_str e)
      end,
   record (EHttpPost url body) s).
Proof.
  intros url body. unfold create_postgresql_datastore, answer. run_monad.
  fold url. fold body.
  destruct (http_post W (trace s) url body) as [status|e]; [|reflexivity].
  destruct (created status); [reflexivity|].
  destruct (status =? 409)%Z; reflexivity.
Qed.

Lemma accepted_answer (r : result Z) :
  accepted r =
  fst match r with
      | Ok status =>
        if created status then (true, u "创建成功")
        else if (status =? 409)%Z then (true, u "工作空间已存在")
        else (false, u "创建失败: " ++ str_of_Z status)
      | Raise e => (false, exn_str e)
      end.
Proof.
  destruct r as [status|e]; [|reflexivity]. simpl.
  destruct (created status); [reflexivity|].
  destruct (status =? 409)%Z; reflexivity.
Qed.

End SetupFacts.

(** X1.  The setup phase passes exactly when the database accepts the
    connection and has PostGIS, the version request is answered 200, and
    the workspace and the data store requests are answered 200, 201 or
    409, each request being made after the ones before it; and then these
    five interactions are all it did. *)
Theorem setup_passes_iff
    (W : world) (params : connection_params)
    (base_url workspace datastore_name : pystr) (s : state) :
  let version_url := base_url ++ u "/rest/about/version" in
  let ws_url := base_url ++ u "/rest/workspaces" in
  let ws_body := WorkspaceData workspace (u "http://www.example.com/" ++ workspace) in
  let ds_url := base_url ++ u "/rest/workspaces/" ++ workspace ++ u "/datastores" in
  let ds_body := DataStoreData datastore_name params in
  let t1 := trace s ++ [EPgConnect params] in
  let t2 := t1 ++ [EPostgisQuery] in
  let t3 := t2 ++ [EHttpGet version_url] in
  let t4 := t3 ++ [EHttpPost ws_url ws_body] in
  let t5 := t4 ++ [EHttpPost ds_url ds_body] in
  ((exists s', setup W params base_url workspace datastore_name s = (Ok None, s'))
   <->
   pg_connect W (trace s) params = None /\
   has_postgis W t1 = Ok true /\
   http_get W t2 version_url = Ok 200%Z /\
   accepted (http_post W t3 ws_url ws_body) = true /\
   accepted (http_post W t4 ds_url ds_body) = true) /\
  (forall s', setup W params base_url workspace datastore_name s = (Ok None, s') ->
     s' = {| trace := t5; success_count := success_count s;
             error_count := error_count s |}).
Proof.
  intros version_url ws_url ws_body ds_url ds_body t1 t2 t3 t4 t5.
  unfold setup, bind. rewrite connect_eq.
  destruct (pg_connect W (trace s) params) as [e|] eqn:Hc.
  { cbn [negb]; unfold ret. split; [split|]; [intros [s' [=]] | intros ([=] & _) | intros s' [=]]. }
  cbn [trace record].
  fold t1. destruct (has_postgis W t1) as [[|]|e] eqn:Hp; cbn [negb]; unfold ret;
    [|split; [split|]; [intros [s' [=]] | intros (_ & [=] & _) | intros s' [=]] ..].
  rewrite test_connection_eq. cbn [trace record]. fold t1 t2 version_url.
  destruct (http_get W t2 version_url) as [st|e] eqn:Hg; cbn [negb]; unfold ret;
    [|split; [split|]; [intros [s' [=]] | intros (_ & _ & [=] & _) | intros s' [=]]].
  destruct (st =? 200)%Z eqn:Hst; cbn [negb]; unfold ret;
    [|split; [split|]; [intros [s' [=]]
                       | intros (_ & _ & [= ->] & _); discriminate
                       | intros s' [=]]].
  apply Z.eqb_eq in Hst. subst st.
  rewrite create_workspace_eq. cbn [trace record]. unfold answer. cbn [trace record].
  fold t1 t2 version_url t3 ws_url ws_body.
  assert (Hno : forall (P : Prop) (msg : pystr) (s1 : state),
             (P -> False) ->
             ((exists s', (Ok (Some msg), s1) = (Ok (None : option pystr), s')) <-> P) /\
             (forall s', (Ok (Some msg), s1) = (Ok (None : option pystr), s') ->
                s' = {| trace := t5; success_count := success_count s;
                        error_count := error_count s |})).
  { intros P msg s1 HP. split; [split|]; [intros [s' [=]] | tauto | intros s' [=]]. }
  destruct (http_post W t3 ws_url ws_body) as [stw|e] eqn:Ew;
    [|cbn [negb fst]; unfold ret; apply Hno; intros (_ & _ & _ & [=] & _)].
  unfold accepted at 1.
  destruct (created stw) eqn:Ecw; [|destruct (stw =? 409)%Z eqn:E9w];
    cbn [negb orb]; unfold ret;
    [| |apply Hno; intros (_ & _ & _ & [=] & _)].
  all: rewrite create_postgresql_datastore_eq; unfold answer; cbn [trace record];
    fold t1 t2 version_url t3 ws_url ws_body t4 ds_url ds_body;
    (destruct (http_post W t4 ds_url ds_body) as [std|e] eqn:Ed;
     [|cbn [negb fst]; apply Hno; intros (_ & _ & _ & _ & [=])]);
    unfold accepted;
    (destruct (created std) eqn:Ecd; [|destruct (std =? 409)%Z eqn:E9d]);
    cbn [negb orb];
    try (apply Hno; intros (_ & _ & _ & _ & [=]));
    (split; [split|];
     [intros _; auto | intros _; eexists; reflexivity | intros s' [= <-]; reflexivity]).
Qed.

Lemma record_extend (e : event) (l : list event) (s : state) :
  record e (extend l s) = extend (l ++ [e]) s.
Proof. unfold record, extend. simpl. rewrite app_assoc. reflexivity. Qed.

Lemma record_as_extend (e : event) (s : state) : record e s = extend [e] s.
Proof. reflexivity. Qed.

Lemma extend_nil (s : state) : extend [] s = s.
Proof. destruct s. unfold extend. simpl. rewrite app_nil_r. reflexivity. Qed.

Lemma extend_extend (l1 l2 : list event) (s : state) :
  extend l2 (extend l1 s) = extend (l1 ++ l2) s.
Proof. unfold extend. simpl. rewrite app_assoc. reflexivity. Qed.

(** The setup phase never raises and makes setup requests only. *)
Lemma setup_requests (W : world) (params : connection_params)
    (base_url workspace datastore_name : pystr) (s : state) :
  exists early l,
    setup W params base_url workspace datastore_name s = (Ok early, extend l s) /\
    forallb is_setup_event l = true.
Proof.
  unfold setup, bind. rewrite connect_eq.
  destruct (pg_connect W (trace s) params) as [e|].
  { cbn [negb]. unfold ret. rewrite record_as_extend. eauto. }
  rewrite !record_as_extend, !extend_extend.
  destruct (has_postgis W _) as [[|]|e]; cbn [negb]; unfold ret; eauto.
  rewrite test_connection_eq, record_extend.
  destruct (http_get W _ _) as [st|e]; [destruct (st =? 200)%Z|];
    cbn [negb]; unfold ret; eauto.
  rewrite create_workspace_eq, record_extend.
  destruct (answer W _ _ _) as [stw|e];
    [destruct (created stw); [|destruct (stw =? 409)%Z]|];
    cbn [negb]; unfold ret; eauto.
  all: rewrite create_postgresql_datastore_eq, record_extend;
    (destruct (answer W _ _ _) as [st'|e];
     [destruct (created st'); [|destruct (st' =? 409)%Z]|]);
    cbn [negb]; unfold ret; eauto.
Qed.

(** X2.  The setup phase never raises.  When one of its steps fails, the
    run returns [False] with the message of that step, having made setup
    requests only: no item is imported or published, no progress or status
    is reported and the counters are untouched. *)
Theorem failed_setup_ends_run
    (W : world) (params : connection_params)
    (base_url workspace datastore_name : pystr)
    (progress_callback : option (callback percent))
    (status_callback : option (callback pystr))
    (data_items : list pydict) (s : state) :
  exists (early : option pystr) (l : list event),
    setup W params base_url workspace datastore_name s = (Ok early, extend l s) /\
    forallb is_setup_event l = true /\
    forall msg, early = Some msg ->
      process_data_items W params base_url workspace datastore_name
        progress_callback status_callback data_items s
      = (Ok (false, msg), extend l s).
Proof.
  destruct (setup_requests W params base_url workspace datastore_name s)
    as (early & l & Hs & Hl).
  exists early, l. split; [exact Hs|]. split; [exact Hl|].
  intros msg ->. unfold process_data_items, try_except, bind. rewrite Hs.
  reflexivity.
Qed.

(** ** Single items *)

Section ItemFacts.

Variable W : world.
Variable base_url : pystr.

Lemma item_calls_extend (l : list event) (s : state) :
  item_calls (trace (extend l s)) = item_calls (trace s) ++ item_calls l.
Proof. unfold item_calls, extend. simpl. apply List.filter_app. Qed.


Lemma reports_are_no_item_calls (l : list event) :
  forallb is_report l = true -> item_calls l = [].
Proof.
  induction l as [|e l IH]; simpl; [reflexivity|].
  intros [He Hl]%andb_true_iff. destruct e; try discriminate; simpl; auto.
Qed.




Lemma kinds_differ :
  is_str (PStr RASTER) VECTOR = false /\ is_str (PStr RASTER) RASTER = true /\
  is_str (PStr SPATIAL_TABLE) VECTOR = false /\
  is_str (PStr SPATIAL_TABLE) RASTER = false /\
  is_str (PStr SPATIAL_TABLE) SPATIAL_TABLE = true.
Proof. vm_compute. auto. Qed.

Lemma import_of_raster (item : pydict) (s : state) :
  has_name item -> item !! "type" = Some (PStr RASTER) ->
  _import_single_item W item s = (Ok false, s).
Proof.
  intros Hn Ht. pose proof (log_item_named item s Hn) as Hlog.
  destruct Hn as [n Hn]. destruct kinds_differ as (K1 & K2 & _).
  unfold _import_single_item, try_except, bind, getitem. rewrite Hn, Ht.
  destruct (item !! "path") as [p|]; cbn [ret raise]; [|rewrite Hlog; reflexivity].
  unfold target_crs_of, startswith_epsg, bind.
  destruct (dict_get item "srs" (PStr EPSG_4326)) as [srs| | |]; cbn [ret raise];
    try (rewrite Hlog; reflexivity).
  rewrite K1, K2. reflexivity.
Qed.

Lemma import_without_crs_string (item : pydict) (v : pyval) (s : state) :
  has_name item ->
  item !! "srs" = Some v ->
  (forall c, v <> PStr c) ->
  _import_single_item W item s = (Ok false, s).
Proof.
  intros Hn Hs Hv. pose proof (log_item_named item s Hn) as Hlog.
  destruct Hn as [n Hn].
  unfold _import_single_item, try_except, bind, getitem. rewrite Hn.
  destruct (item !! "path") as [p|]; cbn [ret raise]; [|rewrite Hlog; reflexivity].
  destruct (item !! "type") as [ty|]; cbn [ret raise]; [|rewrite Hlog; reflexivity].
  assert (Hget : dict_get item "srs" (PStr EPSG_4326) = v)
    by (unfold dict_get; rewrite Hs; reflexivity).
  rewrite Hget. unfold target_crs_of, startswith_epsg, bind.
  destruct v as [c| | |]; [destruct (Hv c eq_refl)| | |];
    cbn [ret raise]; rewrite Hlog; reflexivity.
Qed.

End ItemFacts.

(** X3.  An item without a usable coordinate reference, that is one whose
    [srs] is present and is not a string (a file whose system was not
    detected carries [None]), fails the import stage whatever its kind:
    [False] is returned and nothing is asked of the database. *)
Theorem item_without_crs_string_fails_import
    (W : world) (item : pydict) (v : pyval) (s : state) :
  has_name item ->
  item !! "srs" = Some v ->
  (forall c, v <> PStr c) ->
  _import_single_item W item s = (Ok false, s).
Proof. apply import_without_crs_string. Qed.

Lemma item_without_crs_string_fails_import_witness :
  has_name (<["srs" := PNone]> Examples.roads) /\
  (<["srs" := PNone]> Examples.roads) !! "srs" = Some PNone /\
  _import_single_item Examples.reachable (<["srs" := PNone]> Examples.roads)
    Examples.s0 = (Ok false, Examples.s0).
Proof.
  assert (Hn : has_name (<["srs" := PNone]> Examples.roads))
    by (eexists; reflexivity).
  split; [exact Hn|]. split; [reflexivity|].
  apply (item_without_crs_string_fails_import Examples.reachable
           (<["srs" := PNone]> Examples.roads) PNone Examples.s0 Hn eq_refl).
  intros c. discriminate.
Defined.

(** X4.  For an existing spatial table the import stage asks nothing of
    the database; it returns [True] when the item's [srs] is a string or is
    absent, and [False] otherwise. *)
Theorem spatial_table_import_is_a_check_of_srs
    (W : world) (item : pydict) (path name : pyval) (s : state) :
  item !! "path" = Some path ->
  item !! "new_name" = Some name ->
  item !! "type" = Some (PStr SPATIAL_TABLE) ->
  _import_single_item W item s =
  (Ok match item !! "srs" with
      | None | Some (PStr _) => true
      | Some _ => false
      end, s).
Proof.
  intros Hp Hn Ht.
  assert (Hlog : log_item item s = (Ok tt, s))
    by (apply log_item_named; eexists; exact Hn).
  destruct kinds_differ as (_ & _ & K1 & K2 & K3).
  unfold _import_single_item, try_except, bind, getitem. rewrite Hp, Hn, Ht.
  cbn [ret].
  assert (Hget : dict_get item "srs" (PStr EPSG_4326) =
                 match item !! "srs" with Some v => v | None => PStr EPSG_4326 end)
    by (unfold dict_get; destruct (item !! "srs"); reflexivity).
  rewrite Hget. unfold target_crs_of, startswith_epsg, bind.
  destruct (item !! "srs") as [[c| | |]|]; cbn [ret raise];
    try (rewrite Hlog; reflexivity); rewrite K1, K2, K3; reflexivity.
Qed.

Lemma spatial_table_import_is_a_check_of_srs_witness :
  Examples.parcels !! "path" = Some (PStr (u "public.parcels")) /\
  Examples.parcels !! "new_name" = Some (PStr (u "parcels")) /\
  Examples.parcels !! "type" = Some (PStr SPATIAL_TABLE) /\
  _import_single_item Examples.reachable Examples.parcels Examples.s0 =
  (Ok match Examples.parcels !! "srs" with
      | None | Some (PStr _) => true
      | Some _ => false
      end, Examples.s0).
Proof.
  split; [reflexivity|]. split; [reflexivity|]. split; [reflexivity|].
  exact (spatial_table_import_is_a_check_of_srs Examples.reachable
           Examples.parcels _ _ Examples.s0 eq_refl eq_refl eq_refl).
Defined.

Section RunExtras.

Variable W : world.
Variable base_url workspace datastore_name : pystr.
Variable progress_callback : option (callback percent).
Variable status_callback : option (callback pystr).

Local Abbreviation step :=
  (process_item W base_url workspace datastore_name progress_callback status_callback).
Local Abbreviation loop :=
  (for_items W base_url workspace datastore_name progress_callback status_callback).

Lemma call_extend {A} (cb : callback A) (e : event) (a : A) (s : state) :
  exists r, call cb e a s = (r, extend [e] s).
Proof. unfold call. destruct (cb (trace s) a); eexists; reflexivity. Qed.

(** what the two reports that open an iteration add to the trace *)
Lemma announce_reports (total i : nat) (item : pydict) (s : state) :
  exists r l,
    announce progress_callback status_callback total i item s = (r, extend l s) /\
    forallb is_report l = true /\
    progress_reports l =
      match progress_callback with
      | Some _ => [Ratio i total]
      | None => []
      end.
Proof.
  unfold announce, bind, report_progress, report_status.
  destruct progress_callback as [pcb|].
  - destruct (call_extend pcb (EProgress (Ratio i total)) (Ratio i total) s)
      as [r Hr].
    rewrite Hr. destruct r as [[]|e]; [|eauto].
    destruct status_callback as [scb|].
    + unfold bind, getitem. destruct (item !! "new_name") as [n|]; cbn [ret raise].
      * match goal with |- context [call scb ?e ?a ?s0] =>
          destruct (call_extend scb e a s0) as [r2 Hr2]; rewrite Hr2 end.
        rewrite extend_extend. eauto.
      * eauto.
    + unfold ret. eauto.
  - unfold ret. destruct status_callback as [scb|].
    + unfold bind, getitem. destruct (item !! "new_name") as [n|]; cbn [ret raise].
      * match goal with |- context [call scb ?e ?a ?s0] =>
          destruct (call_extend scb e a s0) as [r2 Hr2]; rewrite Hr2 end.
        eauto.
      * exists (Raise (KeyError "new_name")), []. rewrite extend_nil. auto.
    + exists (Ok tt), []. rewrite extend_nil. auto.
Qed.

Lemma bump_error (s : state) :
  incr_error s =
  (Ok tt, {| trace := trace s; success_count := success_count s;
             error_count := (error_count s + 1)%Z |}).
Proof. reflexivity. Qed.

End RunExtras.

(** X5.  A raster item is never imported or published: its iteration
    returns normally, adds one to the error counter and makes no call for
    the item, whatever the database and the server would answer. *)
Theorem raster_item_always_fails
    (W : world) (base_url workspace datastore_name : pystr)
    (progress_callback : option (callback percent))
    (status_callback : option (callback pystr))
    (total i : nat) (item : pydict) (s : state) :
  has_name item ->
  item !! "type" = Some (PStr RASTER) ->
  exists s',
    process_item W base_url workspace datastore_name progress_callback
      status_callback total i item s = (Ok tt, s') /\
    success_count s' = success_count s /\
    error_count s' = (error_count s + 1)%Z /\
    item_calls (trace s') = item_calls (trace s).
Proof.
  intros Hn Ht. unfold process_item, item_body, try_except, bind.
  destruct (announce_reports progress_callback status_callback total i item s)
    as (r & l & Ha & Hl & _).
  rewrite Ha. destruct r as [[]|e].
  - rewrite (import_of_raster W item _ Hn Ht).
    rewrite bump_error, log_item_named by exact Hn.
    eexists. split; [reflexivity|]. cbn [trace success_count error_count extend].
    repeat split.
    change (item_calls (trace (extend l s)) = item_calls (trace s)).
    rewrite item_calls_extend, (reports_are_no_item_calls l Hl).
    apply app_nil_r.
  - rewrite bump_error, log_item_named by exact Hn.
    eexists. split; [reflexivity|]. cbn [trace success_count error_count extend].
    repeat split.
    change (item_calls (trace (extend l s)) = item_calls (trace s)).
    rewrite item_calls_extend, (reports_are_no_item_calls l Hl).
    apply app_nil_r.
Qed.

Lemma raster_item_always_fails_witness :
  has_name Examples.dem /\
  Examples.dem !! "type" = Some (PStr RASTER) /\
  exists s',
    process_item Examples.reachable Examples.base0 (u "gis") (u "gis_datastore")
      (Some Examples.silent) (Some Examples.silent) 3 1 Examples.dem Examples.s0
    = (Ok tt, s') /\
    success_count s' = success_count Examples.s0 /\
    error_count s' = (error_count Examples.s0 + 1)%Z /\
    item_calls (trace s') = item_calls (trace Examples.s0).
Proof.
  assert (Hn : has_name Examples.dem) by (eexists; reflexivity).
  split; [exact Hn|]. split; [reflexivity|].
  exact (raster_item_always_fails Examples.reachable Examples.base0 (u "gis")
           (u "gis_datastore") (Some Examples.silent) (Some Examples.silent)
           3 1 Examples.dem Examples.s0 Hn eq_refl).
Defined.

(** *** The keys a run reads *)

Section KeysRead.

Variable W : world.
Variable base_url workspace datastore_name : pystr.
Variable progress_callback : option (callback percent).
Variable status_callback : option (callback pystr).

Variable k : string.
Variable v : pyval.
Hypothesis k_path : k <> "path".
Hypothesis k_name : k <> "new_name".
Hypothesis k_type : k <> "type".
Hypothesis k_srs : k <> "srs".

Lemma process_item_other_key (total i : nat) (item : pydict) (s : state) :
  process_item W base_url workspace datastore_name progress_callback
    status_callback total i (<[k := v]> item) s =
  process_item W base_url workspace datastore_name progress_callback
    status_callback total i item s.
Proof.
  unfold process_item, item_body, announce, report_status,
    _import_single_item, _publish_single_item, log_item,
    try_except, bind, getitem, dict_get.
  rewrite !(lookup_insert_ne item k) by assumption. reflexivity.
Qed.

Lemma for_items_other_key (total : nat) (items : list pydict) :
  forall (i : nat) (s : state),
  for_items W base_url workspace datastore_name progress_callback
    status_callback total i (map (insert k v) items) s =
  for_items W base_url workspace datastore_name progress_callback
    status_callback total i items s.
Proof.
  induction items as [|item rest IH]; intros i s; [reflexivity|].
  simpl. unfold bind. rewrite process_item_other_key.
  destruct (process_item _ _ _ _ _ _ _ _ item s) as [[[]|e] s1];
    [apply IH | reflexivity].
Qed.

End KeysRead.

(** X6.  A run reads four keys of its items: [path], [new_name], [type]
    and [srs].  Setting any other key of every item, the [style] chosen for
    it among them, changes neither what the run does nor what it returns. *)
Theorem run_reads_four_keys_only
    (W : world) (params : connection_params)
    (base_url workspace datastore_name : pystr)
    (progress_callback : option (callback percent))
    (status_callback : option (callback pystr))
    (k : string) (v : pyval) (data_items : list pydict) (s : state) :
  k <> "path" -> k <> "new_name" -> k <> "type" -> k <> "srs" ->
  process_data_items W params base_url workspace datastore_name
    progress_callback status_callback (map (insert k v) data_items) s =
  process_data_items W params base_url workspace datastore_name
    progress_callback status_callback data_items s.
Proof.
  intros H1 H2 H3 H4.
  unfold process_data_items, try_except, bind.
  destruct (setup W params base_url workspace datastore_name s)
    as [[[msg|]|e] s1]; try reflexivity.
  unfold batch, bind. rewrite length_map.
  destruct (set_counters 0 0 s1) as [[[]|e] s2]; [|reflexivity].
  rewrite (for_items_other_key W base_url workspace datastore_name
             progress_callback status_callback k v H1 H2 H3 H4).
  reflexivity.
Qed.

Lemma run_reads_four_keys_only_witness :
  process_data_items Examples.reachable Examples.params0 Examples.base0
    (u "gis") (u "gis_datastore") None None
    (map (insert "style" (PStr (u "blue_line")))
         [Examples.roads; Examples.dem; Examples.parcels]) Examples.s0 =
  process_data_items Examples.reachable Examples.params0 Examples.base0
    (u "gis") (u "gis_datastore") None None
    [Examples.roads; Examples.dem; Examples.parcels] Examples.s0.
Proof.
  apply (run_reads_four_keys_only Examples.reachable Examples.params0
           Examples.base0 (u "gis") (u "gis_datastore") None None
           "style" (PStr (u "blue_line"))); discriminate.
Defined.

(** X7.  When the coordinate reference of a vector item starts with
    [EPSG:], or the item has none (the default [EPSG:4326] is then taken),
    both stages use it: it is the target system handed to
    [import_vector_file] and the [srs] of the feature type posted. *)
Theorem epsg_crs_is_used_by_both_stages
    (W : world) (base_url workspace datastore_name : pystr)
    (item : pydict) (path name : pyval) (c : pystr) (s : state) :
  item !! "path" = Some path ->
  item !! "new_name" = Some name ->
  item !! "type" = Some (PStr VECTOR) ->
  dict_get item "srs" (PStr EPSG_4326) = PStr c ->
  startswith EPSG_prefix c = true ->
  _import_single_item W item s =
    (Ok (fst (import_vector_result W (trace s) path name c)),
     record (EImportVector path name c) s) /\
  exists published,
    _publish_single_item W base_url item workspace datastore_name s =
    (Ok published,
     record (EHttpPost (featuretypes_url base_url workspace datastore_name)
               (FeatureTypeData name name name (PStr c))) s).
Proof.
  intros Hp Hn Ht Hget Hpre. split.
  - unfold _import_single_item, try_except, bind, getitem.
    rewrite Hp, Hn, Ht, Hget. unfold ret at 1 2 3.
    unfold target_crs_of, startswith_epsg, bind, ret. rewrite Hpre.
    unfold is_str. rewrite bool_decide_eq_true_2 by reflexivity.
    cbn [str_of]. rewrite import_vector_file_eq. reflexivity.
  - rewrite (publish_single_item_eq W base_url item workspace datastore_name name s Hn).
    rewrite Hget. eexists. reflexivity.
Qed.

Lemma epsg_crs_is_used_by_both_stages_witness :
  Examples.roads !! "path" = Some (PStr (u "/data/roads.shp")) /\
  dict_get Examples.roads "srs" (PStr EPSG_4326) = PStr EPSG_4326 /\
  startswith EPSG_prefix EPSG_4326 = true /\
  _import_single_item Examples.reachable Examples.roads Examples.s0 =
    (Ok (fst (import_vector_result Examples.reachable (trace Examples.s0)
                (PStr (u "/data/roads.shp")) (PStr (u "roads")) EPSG_4326)),
     record (EImportVector (PStr (u "/data/roads.shp")) (PStr (u "roads")) EPSG_4326)
            Examples.s0).
Proof.
  split; [reflexivity|]. split; [reflexivity|]. split; [reflexivity|].
  exact (proj1 (epsg_crs_is_used_by_both_stages Examples.reachable Examples.base0
                  (u "gis") (u "gis_datastore") Examples.roads
                  (PStr (u "/data/roads.shp")) (PStr (u "roads")) EPSG_4326
                  Examples.s0 eq_refl eq_refl eq_refl eq_refl eq_refl)).
Defined.

(** *** Progress *)

Section ProgressFacts.

Variable W : world.
Variable base_url workspace datastore_name : pystr.
Variable progress_callback : option (callback percent).
Variable status_callback : option (callback pystr).




End ProgressFacts.




(** ** Table operations *)

Import Tables.

Section TableFacts.

Variable W : world.

(** the shape the three operations share: execute, commit, and a rollback
    in the handler *)
Lemma transaction_outcome {A} (stmt : pystr) (good : A) (bad : exn -> A) (s : state) :
  let op := try_except
              (ask_unit (ESqlExecute stmt) (fun tr => sql_execute W tr stmt) ;;;
               ask_unit ECommit (commit W) ;;;
               ret good)
              (fun e => ask_unit ERollback (rollback W) ;;; ret (bad e)) in
  forall r s', op s = (r, s') ->
  (r = Ok good /\ committed s s' stmt /\
   sql_execute W (trace s) stmt = None /\
   commit W (trace s ++ [ESqlExecute stmt]) = None) \/
  ((exists e, r = Ok (bad e) \/ r = Raise e) /\ rolled_back s s' stmt /\
   (sql_execute W (trace s) stmt <> None \/
    commit W (trace s ++ [ESqlExecute stmt]) <> None)).
Proof.
  intros op r s'. unfold op, ask_unit, of_outcome, get_trace, emit, try_except,
    bind, ret, raise, committed, rolled_back.
  cbn [trace record].
  destruct (sql_execute W (trace s) stmt) as [e|] eqn:He.
  - destruct (rollback W _) as [e'|]; intros [= <- <-]; right;
      cbn [trace record]; rewrite <- !app_assoc;
      (split; [eexists; eauto | split; [left; reflexivity | left; discriminate]]).
  - destruct (commit W _) as [e|] eqn:Hc.
    + destruct (rollback W _) as [e'|]; intros [= <- <-]; right;
        cbn [trace record]; rewrite <- !app_assoc;
        (split; [eexists; eauto | split; [right; reflexivity | right; discriminate]]).
    + intros [= <- <-]. left. cbn [trace record]. rewrite <- !app_assoc. auto.
Qed.

End TableFacts.

Lemma rename_table_outcome (W : world) (old_name new_name schema : pystr)
    (s : state) (r : result (bool * pystr)) (s' : state) :
  Pipeline.rename_table W old_name new_name schema s = (r, s') ->
  let stmt := rename_statement schema old_name new_name in
  (r = Ok (true, u "重命名成功") /\ committed s s' stmt /\
   sql_execute W (trace s) stmt = None /\
   commit W (trace s ++ [ESqlExecute stmt]) = None) \/
  ((exists e, r = Ok (false, exn_str e) \/ r = Raise e) /\
   rolled_back s s' stmt /\
   (sql_execute W (trace s) stmt <> None \/
    commit W (trace s ++ [ESqlExecute stmt]) <> None)).
Proof.
  intros H stmt.
  exact (transaction_outcome W stmt (true, u "重命名成功")
           (fun e => (false, exn_str e)) s r s' H).
Qed.

(** X9.  Dropping a table, creating its spatial index and renaming a
    table each end in one of two ways.  Either the statement and the commit
    both went through, the operation reports success and the trace shows
    the statement followed by the commit; or one of them failed, a rollback
    was issued after it, and the operation reports failure (or lets the
    exception of the rollback through).  Success is never reported after a
    failed statement or commit. *)
Theorem table_operations_commit_or_roll_back (W : world) (s : state) :
  (forall table schema r s',
     drop_table_if_exists W table schema s = (r, s') ->
     let stmt := drop_statement schema table in
     (r = Ok true /\ committed s s' stmt /\
      sql_execute W (trace s) stmt = None /\
      commit W (trace s ++ [ESqlExecute stmt]) = None) \/
     ((r = Ok false \/ exists e, r = Raise e) /\ rolled_back s s' stmt /\
      (sql_execute W (trace s) stmt <> None \/
       commit W (trace s ++ [ESqlExecute stmt]) <> None))) /\
  (forall table schema geom_column r s',
     create_spatial_index W table schema geom_column s = (r, s') ->
     let stmt := index_statement schema table geom_column in
     (r = Ok true /\ committed s s' stmt /\
      sql_execute W (trace s) stmt = None /\
      commit W (trace s ++ [ESqlExecute stmt]) = None) \/
     ((r = Ok false \/ exists e, r = Raise e) /\ rolled_back s s' stmt /\
      (sql_execute W (trace s) stmt <> None \/
       commit W (trace s ++ [ESqlExecute stmt]) <> None))) /\
  (forall old_name new_name schema r s',
     Pipeline.rename_table W old_name new_name schema s = (r, s') ->
     let stmt := rename_statement schema old_name new_name in
     (r = Ok (true, u "重命名成功") /\ committed s s' stmt /\
      sql_execute W (trace s) stmt = None /\
      commit W (trace s ++ [ESqlExecute stmt]) = None) \/
     ((exists e, r = Ok (false, exn_str e) \/ r = Raise e) /\
      rolled_back s s' stmt /\
      (sql_execute W (trace s) stmt <> None \/
       commit W (trace s ++ [ESqlExecute stmt]) <> None))).
Proof.
  split; [|split].
  - intros table schema r s' H stmt.
    destruct (transaction_outcome W stmt true (fun _ => false) s r s' H)
      as [?|((e & [->| ->]) & ? & ?)]; [left; assumption | right | right];
      (split; [eauto | auto]).
  - intros table schema geom_column r s' H stmt.
    destruct (transaction_outcome W stmt true (fun _ => false) s r s' H)
      as [?|((e & [->| ->]) & ? & ?)]; [left; assumption | right | right];
      (split; [eauto | auto]).
  - intros old_name new_name schema r s' H stmt.
    destruct (transaction_outcome W stmt (true, u "重命名成功")
                (fun e => (false, exn_str e)) s r s' H)
      as [?|((e & He) & ? & ?)]; [left; assumption | right].
    split; [exists e; exact He | auto].
Qed.

(** X10.  The rename action of the main window always ends with a message
    box or silently, never with an exception.  It announces a rename
    only when the dialog was accepted with a new name that satisfies the
    identifier rule and differs from the current one, and after the
    connection, the ALTER TABLE statement and the commit all went through,
    in this order.  When it ends silently or with a warning, nothing was
    asked of the database. *)
Theorem rename_is_announced_only_after_commit
    (W : world) (params : connection_params)
    (selected_items : list (option MainWindow.table_data))
    (dialog : option pystr) (s : state) :
  exists m s',
    MainWindow.rename_table W params selected_items dialog s = (Ok m, s') /\
    (forall text, m = MainWindow.Information text ->
       exists data rest new_name,
         selected_items = Some data :: rest /\
         dialog = Some new_name /\
         MainWindow.re_match_ident new_name = true /\
         new_name <> MainWindow.table_name data /\
         text = u "表已重命名为: " ++ new_name /\
         trace s' = trace s ++
           [EPgConnect params; EPostgisQuery;
            ESqlExecute (rename_statement (MainWindow.table_schema data)
                           (MainWindow.table_name data) new_name);
            ECommit]) /\
    (m = MainWindow.NoMessage \/ (exists text, m = MainWindow.Warning text) ->
     s' = s).
Proof.
  unfold MainWindow.rename_table, try_except.
  destruct selected_items as [|[data|] rest].
  1, 3: unfold ret; eexists _, _; (split; [reflexivity|]);
    (split; [intros ? [=] | reflexivity]).
  destruct dialog as [new_name|].
  2: unfold ret; eexists _, _; (split; [reflexivity|]);
    (split; [intros ? [=] | reflexivity]).
  destruct (bool_decide (new_name = [])) eqn:Hempty; cbn [orb].
  1: unfold ret; eexists _, _; (split; [reflexivity|]);
    (split; [intros ? [=] | reflexivity]).
  destruct (bool_decide (new_name = MainWindow.table_name data)) eqn:Hsame.
  1: unfold ret; eexists _, _; (split; [reflexivity|]);
    (split; [intros ? [=] | reflexivity]).
  apply bool_decide_eq_false in Hsame.
  destruct (MainWindow.re_match_ident new_name) eqn:Hid; cbn [negb].
  2: unfold ret; eexists _, _; (split; [reflexivity|]);
    (split; [intros ? [=] | reflexivity]).
  unfold bind. rewrite connect_eq.
  destruct (pg_connect W (trace s) params) as [e|].
  { unfold ret. eexists _, _. split; [reflexivity|].
    split; [intros ? [=] | intros [[=]|[? [=]]]]. }
  destruct (has_postgis W _) as [[|]|e].
  2, 3: unfold ret; eexists _, _; (split; [reflexivity|]);
    (split; [intros ? [=] | intros [[=]|[? [=]]]]).
  destruct (Pipeline.rename_table W (MainWindow.table_name data) new_name
              (MainWindow.table_schema data) _) as [r s2] eqn:Hr.
  destruct (rename_table_outcome W _ _ _ _ _ _ Hr)
    as [(-> & Hc & _)|((e & [->| ->]) & _)].
  - unfold ret. eexists _, _. split; [reflexivity|]. split.
    + intros text [= <-]. exists data, rest, new_name.
      repeat split; try assumption. unfold committed in Hc. rewrite Hc.
      cbn [trace record]. rewrite <- !app_assoc. reflexivity.
    + intros [[=]|[? [=]]].
  - unfold ret. eexists _, _. split; [reflexivity|].
    split; [intros ? [=] | intros [[=]|[? [=]]]].
  - unfold ret. eexists _, _. split; [reflexivity|].
    split; [intros ? [=] | intros [[=]|[? [=]]]].
Qed.

(** ** The normalizer, by words *)

Import Words.

Section WordFacts.

Local Open Scope N_scope.

Lemma words_from_sub_invalid (w s : pystr) :
  words_from is_us w (sub_invalid s) =
  words_from (fun c => negb (alnum_char c)) w s.
Proof.
  revert w. induction s as [|c t IH]; intros w; [reflexivity|].
  unfold is_us in *. simpl. rewrite alnum_not_us. unfold not_us.
  destruct (name_char c) eqn:Hc; simpl.
  - destruct (c =? underscore); simpl; rewrite ?IH; reflexivity.
  - rewrite !IH. reflexivity.
Qed.

Lemma words_from_collapse (s : pystr) :
  (forall w, words_from is_us w (collapse_from false s) = words_from is_us w s) /\
  words_from is_us [] (collapse_from true s) = words_from is_us [] s.
Proof.
  induction s as [|c t [IH1 IH2]]; [split; reflexivity|].
  unfold is_us in *. simpl. destruct (c =? underscore) eqn:Hc.
  - split; [intros w|]; simpl; rewrite ?IH2; reflexivity.
  - split; [intros w|]; simpl; rewrite Hc; apply IH1.
Qed.

Lemma words_from_lstrip (s : pystr) :
  words_from is_us [] (lstrip_us s) = words_from is_us [] s.
Proof.
  induction s as [|c t IH]; [reflexivity|].
  unfold is_us in *. simpl. destruct (c =? underscore) eqn:Hc; [exact IH|].
  simpl. rewrite Hc. reflexivity.
Qed.

Lemma words_from_trailing (n : nat) (s w : pystr) :
  words_from is_us w (s ++ repeat underscore n) = words_from is_us w s.
Proof.
  revert w. induction s as [|c t IH]; intros w.
  - simpl. revert w. induction n as [|n IHn]; intros w; [reflexivity|].
    simpl. destruct w; rewrite IHn; reflexivity.
  - simpl. rewrite !IH. reflexivity.
Qed.

Lemma words_from_strip (s : pystr) :
  words_from is_us [] (strip_us s) = words_from is_us [] s.
Proof.
  unfold strip_us. rewrite <- (words_from_lstrip s).
  destruct (rstrip_us_split (lstrip_us s)) as [n Hn].
  rewrite Hn at 2. rewrite words_from_trailing. reflexivity.
Qed.

Lemma join_us_cons (w : pystr) (ws : list pystr) :
  ws <> [] -> join_us (w :: ws) = w ++ [underscore] ++ join_us ws.
Proof. destruct ws; [congruence | reflexivity]. Qed.

Lemma head_us_rev_cons (c : N) (t : pystr) :
  t <> [] -> head_us (rev (c :: t)) = head_us (rev t).
Proof.
  intros Ht. simpl. apply head_us_app.
  intros H. apply (f_equal (@rev N)) in H. rewrite rev_involutive in H.
  simpl in H. congruence.
Qed.

(** a string without runs of underscores and without an underscore at its
    end is its words joined *)
Lemma join_words_from (t : pystr) :
  forall w,
  no_run t = true -> head_us (rev t) = false ->
  (w = [] -> head_us t = false) ->
  join_us (words_from is_us w t) = w ++ t.
Proof.
  induction t as [|c t IH]; intros w Hrun Hlast Hhead.
  - simpl. destruct w; simpl; rewrite ?app_nil_r; reflexivity.
  - simpl in Hrun. apply andb_true_iff in Hrun as [Hc Hrun].
    unfold is_us in *. simpl. destruct (c =? underscore) eqn:Ec.
    + apply N.eqb_eq in Ec. subst c.
      destruct t as [|d t'] eqn:Et; [discriminate Hlast|]. rewrite <- Et in *.
      assert (Ht : t <> []) by (rewrite Et; discriminate).
      rewrite head_us_rev_cons in Hlast by exact Ht.
      simpl in Hc. apply negb_true_iff in Hc.
      pose proof (IH [] Hrun Hlast (fun _ => Hc)) as Hj. simpl in Hj.
      destruct w as [|a w']; [specialize (Hhead eq_refl); discriminate|].
      rewrite join_us_cons.
      * rewrite Hj. reflexivity.
      * intros Hnil. rewrite Hnil in Hj. simpl in Hj. congruence.
    + destruct t as [|d t'] eqn:Et.
      * simpl. destruct (w ++ [c]) eqn:Ew; [destruct w; discriminate|].
        reflexivity.
      * rewrite <- Et in *.
        assert (Ht : t <> []) by (rewrite Et; discriminate).
        rewrite head_us_rev_cons in Hlast by exact Ht.
        rewrite IH; [rewrite <- app_assoc; reflexivity | exact Hrun | exact Hlast |].
        intros Hnil. destruct w; discriminate.
Qed.

End WordFacts.

(** X11.  The normalizer by words: the result is the runs of letters
    [a-z] and digits of the lower-cased input, joined by single
    underscores, and [unnamed] when there is no such run. *)
Theorem normalize_name_joins_words (lower : pystr -> pystr) (x : pystr) :
  normalize_name lower x =
  match alnum_words (lower x) with
  | [] => unnamed
  | ws => join_us ws
  end.
Proof.
  rewrite normalize_name_core.
  destruct (core_shape lower x) as (_ & Hrun & Hhead & Hlast).
  assert (Hw : words_from is_us [] (core lower x) = alnum_words (lower x)).
  { unfold core, collapse, alnum_words.
    rewrite words_from_strip, (proj1 (words_from_collapse _)).
    apply words_from_sub_invalid. }
  pose proof (join_words_from (core lower x) [] Hrun Hlast (fun _ => Hhead)) as Hj.
  rewrite Hw in Hj. simpl in Hj.
  destruct (core lower x) as [|c t] eqn:E.
  - simpl in Hw. rewrite <- Hw. reflexivity.
  - destruct (alnum_words (lower x)) as [|w ws]; [discriminate Hj | symmetry; exact Hj].
Qed.

(** ** Renaming in the import table *)

Section PrefixFacts.

Local Open Scope N_scope.

Lemma no_run_app (a b : pystr) :
  no_run a = true -> no_run b = true ->
  head_us (rev a) = false \/ head_us b = false ->
  no_run (a ++ b) = true.
Proof.
  induction a as [|c t IH]; intros Ha Hb Hj; [exact Hb|].
  simpl in Ha. apply andb_true_iff in Ha as [Hc Ht].
  destruct t as [|d t'] eqn:Et.
  - simpl. rewrite Hb, andb_true_r. simpl in Hj.
    destruct Hj as [Hj|Hj]; rewrite Hj; rewrite ?andb_false_r; reflexivity.
  - rewrite <- Et in *.
    assert (Hne : t <> []) by (rewrite Et; discriminate).
    rewrite head_us_rev_cons in Hj by exact Hne.
    change (no_run ((c :: t) ++ b)) with
      (negb ((c =? underscore) && head_us (t ++ b)) && no_run (t ++ b)).
    rewrite head_us_app by exact Hne. rewrite Hc. apply IH; assumption.
Qed.

(** a normal form, an underscore, a normal form: a normal form *)
Lemma normal_form_prefixed (p n : pystr) :
  normal_form p = true -> normal_form n = true ->
  normal_form (p ++ [underscore] ++ n) = true.
Proof.
  intros (P0 & P1 & P2 & P3 & P4)%normal_form_parts
         (N0 & N1 & N2 & N3 & N4)%normal_form_parts.
  unfold normal_form.
  assert (H0 : bool_decide (p ++ [underscore] ++ n = []) = false)
    by (apply bool_decide_eq_false; destruct p; discriminate).
  assert (H1 : forallb name_char (p ++ [underscore] ++ n) = true)
    by (rewrite !forallb_app, P1, N1; reflexivity).
  assert (H2 : no_run (p ++ [underscore] ++ n) = true).
  { apply no_run_app; [exact P2 | | left; exact P4].
    simpl. rewrite N3, N2. reflexivity. }
  assert (H3 : head_us (p ++ [underscore] ++ n) = false)
    by (rewrite head_us_app by exact P0; exact P3).
  assert (H4 : head_us (rev (p ++ [underscore] ++ n)) = false).
  { rewrite !rev_app_distr. simpl. rewrite <- !app_assoc.
    rewrite head_us_app; [exact N4|].
    intros H. apply (f_equal (@rev N)) in H. rewrite rev_involutive in H.
    simpl in H. congruence. }
  rewrite H0, H1, H2, H3, H4. reflexivity.
Qed.

End PrefixFacts.

(** X12.  Batch renaming composes with the normalizer: when the prefix
    and the names of all items are already normalised, every item is
    renamed to exactly [prefix_name], and the action reports completion. *)
Theorem batch_rename_prefixes_normal_names (lower : pystr -> pystr)
    (lower_fixed : forall s, forallb name_char s = true -> lower s = s)
    (prefix : pystr) (scanned_data : list pydict) :
  normal_form prefix = true ->
  scanned_data <> [] ->
  Forall (fun data => exists n,
            data !! "new_name" = Some (PStr n) /\ normal_form n = true)
         scanned_data ->
  DataTable.batch_rename lower scanned_data (Some prefix) =
  (map (fun data =>
          <["new_name" := PStr (prefix ++ u "_" ++
                                str_of (default PNone (data !! "new_name")))]> data)
       scanned_data,
   MainWindow.Information (u "批量重命名完成")).
Proof.
  intros Hp Hne Hall.
  assert (Hloop : DataTable.rename_all lower prefix scanned_data =
                  (map (fun data =>
                          <["new_name" := PStr (prefix ++ u "_" ++
                             str_of (default PNone (data !! "new_name")))]> data)
                       scanned_data, None)).
  { clear Hne. induction Hall as [|data rest (n & Hn & Hnf) _ IH]; [reflexivity|].
    simpl. rewrite Hn, IH. simpl.
    rewrite normalize_name_fixed; [reflexivity| |].
    - apply lower_fixed.
      pose proof (normal_form_prefixed prefix n Hp Hnf) as H.
      apply normal_form_parts in H. tauto.
    - exact (normal_form_prefixed prefix n Hp Hnf). }
  unfold DataTable.batch_rename.
  destruct scanned_data as [|d rest]; [congruence|].
  destruct prefix as [|c p]; [discriminate Hp|].
  rewrite Hloop. reflexivity.
Qed.

Lemma batch_rename_prefixes_normal_names_witness :
  DataTable.batch_rename ascii_lower [Examples.roads; Examples.dem] (Some (u "city")) =
  (map (fun data =>
          <["new_name" := PStr (u "city" ++ u "_" ++
                                str_of (default PNone (data !! "new_name")))]> data)
       [Examples.roads; Examples.dem],
   MainWindow.Information (u "批量重命名完成")).
Proof.
  apply (batch_rename_prefixes_normal_names ascii_lower ascii_lower_fixed
           (u "city") [Examples.roads; Examples.dem]).
  - reflexivity.
  - discriminate.
  - repeat constructor; eexists; split; reflexivity.
Defined.


(** X14.  Editing a cell keeps the number of items and touches at most
    the item of the edited row, and of that item at most the keys [srs],
    [new_name] and [style].  A row outside the list changes nothing. *)
Theorem cell_edit_is_local (lower : pystr -> pystr)
    (scanned_data : list pydict) (row column : Z) (cell : option pystr) :
  let data' := fst (DataTable.on_cell_changed lower scanned_data row column cell) in
  List.length data' = List.length scanned_data /\
  (forall j : nat, Z.of_nat j <> row -> data' !! j = scanned_data !! j) /\
  ((row < 0 \/ Z.of_nat (List.length scanned_data) <= row)%Z ->
   data' = scanned_data) /\
  (forall (j : nat) (d d' : pydict) (k : string),
     scanned_data !! j = Some d -> data' !! j = Some d' ->
     k <> "srs" -> k <> "new_name" -> k <> "style" ->
     d' !! k = d !! k).
Proof.
  intros data'. subst data'.
  set (P := fun l : list pydict =>
    List.length l = List.length scanned_data /\
    (forall j : nat, Z.of_nat j <> row -> l !! j = scanned_data !! j) /\
    ((row < 0 \/ Z.of_nat (List.length scanned_data) <= row)%Z ->
     l = scanned_data) /\
    (forall (j : nat) (d d' : pydict) (k : string),
       scanned_data !! j = Some d -> l !! j = Some d' ->
       k <> "srs" -> k <> "new_name" -> k <> "style" ->
       d' !! k = d !! k)).
  change (P (fst (DataTable.on_cell_changed lower scanned_data row column cell))).
  assert (Hsame : P scanned_data).
  { unfold P. repeat split; auto. intros j d d' k H1 H2. congruence. }
  unfold DataTable.on_cell_changed.
  destruct ((0 <=? row)%Z && (row <? Z.of_nat (List.length scanned_data))%Z)
    eqn:Hrange; [|exact Hsame].
  apply andb_true_iff in Hrange as [H0%Z.leb_le Hlt%Z.ltb_lt].
  assert (Halter : forall (key : string) (val : pyval),
             key = "srs" \/ key = "new_name" \/ key = "style" ->
             P (alter (insert key val) (Z.to_nat row) scanned_data)).
  { intros key val Hkey. unfold P. split; [apply length_alter|]. split; [|split].
    - intros j Hj. apply list_lookup_alter_ne. lia.
    - lia.
    - intros j d d' k Hd Hd' K1 K2 K3.
      destruct (decide (Z.to_nat row = j)) as [<-|Hj].
      + rewrite list_lookup_alter_eq, Hd in Hd'. injection Hd' as <-.
        apply lookup_insert_ne. destruct Hkey as [->|[->| ->]]; congruence.
      + rewrite list_lookup_alter_ne in Hd' by exact Hj. congruence. }
  destruct cell as [value|]; [|exact Hsame].
  destruct (column =? 3)%Z; [apply Halter; auto|].
  destruct (column =? 4)%Z; [apply Halter; auto|].
  destruct (column =? 5)%Z; [apply Halter; auto | exact Hsame].
Qed.

(** X15.  Editing the name of a row stores the normal form of the text
    typed and shows it in the cell; the change of text that this causes
    edits the cell once more and leaves both as they are. *)
Theorem name_edit_settles_in_one_step (lower : pystr -> pystr)
    (lower_fixed : forall s, forallb name_char s = true -> lower s = s)
    (scanned_data : list pydict) (row : nat) (data : pydict) (value : pystr) :
  scanned_data !! row = Some data ->
  let name := normalize_name lower value in
  let after := DataTable.on_cell_changed lower scanned_data (Z.of_nat row) 4
                 (Some value) in
  fst after !! row = Some (<["new_name" := PStr name]> data) /\
  snd after = Some name /\
  DataTable.on_cell_changed lower (fst after) (Z.of_nat row) 4 (snd after) = after.
Proof.
  intros Hrow name after.
  assert (Hlt : (row < List.length scanned_data)%nat)
    by (apply lookup_lt_is_Some; eauto).
  assert (Hrange : forall l : list pydict, List.length l = List.length scanned_data ->
             ((0 <=? Z.of_nat row)%Z && (Z.of_nat row <? Z.of_nat (List.length l))%Z)
             = true).
  { intros l Hl. apply andb_true_iff. split; [apply Z.leb_le | apply Z.ltb_lt]; lia. }
  assert (Hafter : after =
            (alter (insert "new_name" (PStr name)) row scanned_data, Some name)).
  { subst after. unfold DataTable.on_cell_changed.
    rewrite (Hrange scanned_data eq_refl). rewrite Nat2Z.id. simpl. fold name.
    f_equal. case_bool_decide as E; [rewrite E; reflexivity | reflexivity]. }
  rewrite Hafter. simpl. split; [|split; [reflexivity|]].
  - rewrite list_lookup_alter_eq, Hrow. reflexivity.
  - unfold DataTable.on_cell_changed.
    rewrite (Hrange _ (length_alter _ _ _)). rewrite Nat2Z.id. simpl.
    assert (Hidem : normalize_name lower name = name).
    { subst name. pose proof (normalize_name_normal_form lower value) as Hn.
      apply normalize_name_fixed; [|exact Hn].
      apply lower_fixed. apply normal_form_parts in Hn. tauto. }
    rewrite Hidem, bool_decide_eq_true_2 by reflexivity.
    f_equal. rewrite list_alter_alter_eq. apply list_alter_ext; [|reflexivity].
    intros d _. simpl. apply insert_insert_eq.
Qed.

Lemma name_edit_settles_in_one_step_witness :
  [Examples.roads; Examples.dem] !! 1%nat = Some Examples.dem /\
  let name := normalize_name ascii_lower (u "Digital Elevation (30m)") in
  let after := DataTable.on_cell_changed ascii_lower [Examples.roads; Examples.dem]
                 (Z.of_nat 1) 4 (Some (u "Digital Elevation (30m)")) in
  fst after !! 1%nat = Some (<["new_name" := PStr name]> Examples.dem) /\
  snd after = Some name /\
  DataTable.on_cell_changed ascii_lower (fst after) (Z.of_nat 1) 4 (snd after)
  = after.
Proof.
  split; [reflexivity|].
  exact (name_edit_settles_in_one_step ascii_lower ascii_lower_fixed
           [Examples.roads; Examples.dem] 1 Examples.dem
           (u "Digital Elevation (30m)") eq_refl).
Defined.

(** ** Column names and the normalizer *)

Lemma ascii_lower_no_upper (s : pystr) :
  forallb (fun c => negb (is_upper_az c)) (ascii_lower s) = true.
Proof.
  induction s as [|c t IH]; simpl; [reflexivity|].
  rewrite IH, andb_true_r. unfold ascii_lower_char.
  destruct (is_upper_az c) eqn:E; [|rewrite E; reflexivity].
  revert E. unfold is_upper_az.
  rewrite andb_true_iff, !N.leb_le. intros [H1 H2].
  apply negb_true_iff, andb_false_iff. right. apply N.leb_gt. lia.
Qed.

(** X16.  What [lower] returns has no letter [A-Z], so the class
    [a-zA-Z0-9_] of the column clean-up keeps the same characters as the
    class [a-z0-9_] of the normalizer: a cleaned column name is the name
    after the first two steps of the normalizer, and collapsing, stripping
    and the empty test on it give the normalised name. *)
Theorem clean_col_is_the_normalizer_unfinished (lower : pystr -> pystr)
    (col : pystr) :
  forallb (fun c => negb (is_upper_az c)) (lower col) = true ->
  Columns.clean_col lower col = sub_invalid (lower col) /\
  normalize_name lower col =
  match strip_us (collapse (Columns.clean_col lower col)) with
  | [] => unnamed
  | c :: t => c :: t
  end.
Proof.
  intros Hup.
  assert (H : Columns.clean_col lower col = sub_invalid (lower col)).
  { unfold Columns.clean_col, sub_invalid. apply map_ext_in.
    intros c Hc. rewrite forallb_forall in Hup. specialize (Hup c Hc).
    apply negb_true_iff in Hup.
    unfold Columns.word_char, name_char. rewrite Hup, orb_false_r. reflexivity. }
  split; [exact H|]. rewrite H. unfold normalize_name.
  destruct (strip_us (collapse (sub_invalid (lower col)))); reflexivity.
Qed.

Lemma clean_col_is_the_normalizer_unfinished_witness :
  forallb (fun c => negb (is_upper_az c)) (ascii_lower (u "Pop. (2020)")) = true /\
  Columns.clean_col ascii_lower (u "Pop. (2020)")
  = sub_invalid (ascii_lower (u "Pop. (2020)")).
Proof.
  split; [reflexivity|].
  exact (proj1 (clean_col_is_the_normalizer_unfinished ascii_lower
                  (u "Pop. (2020)") eq_refl)).
Defined.

(** ** The folder scan *)

Import FileInfo.

Section ScanFacts.

Variable lower : pystr -> pystr.

Lemma data_item_lookup (file file_path stem : pystr) (info item : pydict) :
  Scanner.data_item lower file file_path stem info = Ok item ->
  item !! "path" = Some (PStr file_path) /\
  item !! "new_name" = Some (PStr (normalize_name lower stem)) /\
  item !! "type" = info !! "type" /\
  item !! "srs" = Some (dict_get info "crs" (PStr EPSG_4326)).
Proof.
  unfold Scanner.data_item.
  destruct (info !! "type") as [ty|] eqn:Ht; [|discriminate].
  destruct (info !! "size_formatted"); [|discriminate].
  intros [= <-]. repeat split.
Qed.

Lemma get_file_info_lookup (file_path name ext : pystr) (p : probes) (info : pydict) :
  get_file_info file_path name ext p = Some info ->
  info !! "type" = Some (PStr (get_data_type ext)) /\
  info !! "crs" =
    Some (if member ext vector_detail || member ext raster_detail
          then PStr (crs p) else PNone).
Proof.
  unfold get_file_info.
  destruct (stat p) as [[size text]|e]; [|discriminate].
  destruct (member ext vector_detail).
  - destruct (feature_count p); intros [= <-]; split; reflexivity.
  - destruct (member ext raster_detail).
    + destruct (raster_shape p) as [[[[b w] h] d]|]; intros [= <-];
        split; reflexivity.
    + intros [= <-]. split; reflexivity.
Qed.

(** what a scanned item holds *)
Lemma scan_file_item (f : file_entry) (item : pydict) :
  scan_file lower f = Some item ->
  (member (file_ext f) vector_extensions || member (file_ext f) raster_extensions
   = true) /\
  item !! "path" = Some (PStr (file_path f)) /\
  item !! "new_name" = Some (PStr (normalize_name lower (stem f))) /\
  item !! "type" = Some (PStr (get_data_type (file_ext f))) /\
  item !! "srs" =
    Some (if member (file_ext f) vector_detail || member (file_ext f) raster_detail
          then PStr (crs (probed f)) else PNone).
Proof.
  unfold scan_file.
  destruct (member (file_ext f) vector_extensions
            || member (file_ext f) raster_extensions) eqn:Hext; [|discriminate].
  destruct (get_file_info _ _ _ _) as [info|] eqn:Hinfo; [|discriminate].
  destruct (bool_decide (info = ∅)); [discriminate|].
  destruct (Scanner.data_item _ _ _ _ _) as [it|e] eqn:Hitem; [|discriminate].
  intros [= <-].
  destruct (data_item_lookup _ _ _ _ _ Hitem) as (H1 & H2 & H3 & H4).
  destruct (get_file_info_lookup _ _ _ _ _ Hinfo) as (G1 & G2).
  split; [reflexivity|]. split; [exact H1|]. split; [exact H2|].
  split; [rewrite H3; exact G1|].
  rewrite H4. unfold dict_get. rewrite G2. reflexivity.
Qed.

End ScanFacts.

(** X17.  Of the files a folder scan lists, only shapefiles, GeoJSON files
    and GeoPackages can pass the import stage.  A KML or GML file is listed
    without a coordinate reference and a raster file is a raster: for
    those the import stage returns [False], whatever the database does. *)
Theorem only_three_formats_can_be_imported (lower : pystr -> pystr) (W : world)
    (f : file_entry) (item : pydict) (s s' : state) :
  scan_file lower f = Some item ->
  _import_single_item W item s = (Ok true, s') ->
  file_ext f ∈ [u ".shp"; u ".geojson"; u ".gpkg"].
Proof.
  intros Hscan Himport.
  destruct (scan_file_item lower f item Hscan) as (Hext & Hp & Hn & Ht & Hs).
  assert (Hname : has_name item) by (eexists; exact Hn).
  destruct (member (file_ext f) vector_detail) eqn:Hv.
  { apply bool_decide_eq_true in Hv. exact Hv. }
  exfalso. simpl in Hs.
  destruct (member (file_ext f) raster_detail) eqn:Hr.
  - apply bool_decide_eq_true in Hr.
    assert (Hty : get_data_type (file_ext f) = RASTER).
    { apply elem_of_cons in Hr as [->|Hr]; [reflexivity|].
      apply elem_of_cons in Hr as [->|Hr]; [reflexivity|].
      inversion Hr. }
    rewrite Hty in Ht.
    rewrite (import_of_raster W item s Hname Ht) in Himport. discriminate.
  - rewrite (import_without_crs_string W item PNone s Hname Hs) in Himport;
      [discriminate | intros c; discriminate].
Qed.

Lemma only_three_formats_can_be_imported_witness :
  let f := {| file := u "Roads.SHP"; file_path := u "/data/Roads.SHP";
              stem := u "Roads"; file_ext := u ".shp";
              probed := {| stat := Ok (2048%Z, u "2.0 KB");
                           geometry_type := u "LINESTRING";
                           crs := EPSG_4326; extent := PNone;
                           feature_count := Some 12%Z;
                           raster_shape := None |} |} in
  exists item,
    scan_file ascii_lower f = Some item /\
    _import_single_item Examples.reachable item Examples.s0 =
    (Ok true, record (EImportVector (PStr (u "/data/Roads.SHP")) (PStr (u "roads"))
                        EPSG_4326) Examples.s0) /\
    file_ext f ∈ [u ".shp"; u ".geojson"; u ".gpkg"].
Proof.
  intros f.
  destruct (scan_file ascii_lower f) as [item|] eqn:Hscan; [|discriminate Hscan].
  exists item.
  assert (Hi : _import_single_item Examples.reachable item Examples.s0 =
    (Ok true, record (EImportVector (PStr (u "/data/Roads.SHP")) (PStr (u "roads"))
                        EPSG_4326) Examples.s0)).
  { revert Hscan. vm_compute. intros [= <-]. reflexivity. }
  split; [reflexivity|]. split; [exact Hi|].
  exact (only_three_formats_can_be_imported ascii_lower Examples.reachable f item
           Examples.s0 _ Hscan Hi).
Defined.

(** X18.  What a folder scan returns are data items: each has a path, a
    name in normal form and the kind vector or raster, never an unknown
    kind.  The loop of the batch processor over them therefore reaches
    every item and returns. *)
Theorem scanned_items_are_processed (lower : pystr -> pystr) (W : world)
    (base_url workspace datastore_name : pystr)
    (progress_callback : option (callback percent))
    (status_callback : option (callback pystr))
    (files : list file_entry) (total i : nat) (s : state) :
  Forall (fun item =>
            (exists p, item !! "path" = Some (PStr p)) /\
            (exists n, item !! "new_name" = Some (PStr n) /\ normal_form n = true) /\
            (item !! "type" = Some (PStr VECTOR) \/
             item !! "type" = Some (PStr RASTER)))
         (scan_folder lower files) /\
  exists s',
    for_items W base_url workspace datastore_name progress_callback
      status_callback total i (scan_folder lower files) s = (Ok tt, s').
Proof.
  assert (Hitems : Forall (fun item =>
            (exists p, item !! "path" = Some (PStr p)) /\
            (exists n, item !! "new_name" = Some (PStr n) /\ normal_form n = true) /\
            (item !! "type" = Some (PStr VECTOR) \/
             item !! "type" = Some (PStr RASTER)))
         (scan_folder lower files)).
  { unfold scan_folder. apply Forall_forall. intros item Hin.
    apply list_elem_of_omap in Hin as (f & _ & Hscan).
    destruct (scan_file_item lower f item Hscan) as (Hext & Hp & Hn & Ht & _).
    split; [eauto|]. split.
    - eexists. split; [exact Hn | apply normalize_name_normal_form].
    - rewrite Ht. unfold get_data_type.
      destruct (member (file_ext f) vector_extensions); [left; reflexivity|].
      simpl in Hext. rewrite Hext. right. reflexivity. }
  split; [exact Hitems|].
  assert (Hnamed : Forall has_name (scan_folder lower files)).
  { eapply Forall_impl; [exact Hitems|].
    intros item (_ & (n & Hn & _) & _). eexists. exact Hn. }
  destruct (for_items_spec W base_url workspace datastore_name progress_callback
              status_callback total (scan_folder lower files) Hnamed i s)
    as (s' & Hs' & _).
  eauto.
Qed.

(** ** The import task of the main window *)

Section ImportTaskFacts.

Variable W : world.

(** one item: one success, one error, or neither *)
Lemma import_one_tally (item : pydict) (sc : Z) (errs : list pystr) (s : state) :
  has_name item ->
  exists r s',
    ImportTask.import_one W item sc errs s = (Ok r, s') /\
    (fst r + Z.of_nat (List.length (snd r))
     + Z.of_nat (bump_nat (ImportTask.uncounted item))
     = sc + Z.of_nat (List.length errs) + 1)%Z /\
    (sc <= fst r)%Z.
Proof.
  intros [n Hn].
  unfold ImportTask.import_one, ImportTask.uncounted, try_except, bind, getitem.
  rewrite Hn.
  destruct (item !! "path") as [p|]; cbn [ret raise].
  2: { eexists _, _. split; [reflexivity|]. cbn [fst snd bump_nat].
       rewrite length_app. simpl. lia. }
  destruct (item !! "type") as [ty|]; cbn [ret raise].
  2: { eexists _, _. split; [reflexivity|]. cbn [fst snd bump_nat].
       rewrite length_app. simpl. lia. }
  unfold target_crs_of, startswith_epsg, bind.
  destruct (dict_get item "srs" (PStr EPSG_4326)) as [srs| | |]; cbn [ret raise].
  2-4: eexists _, _; (split; [reflexivity|]); cbn [fst snd bump_nat];
    rewrite length_app; simpl; lia.
  destruct (is_str ty VECTOR); cbn [negb andb].
  { rewrite import_vector_file_eq.
    destruct (import_vector_result W _ p n _) as [[|] msg]; cbn [fst snd];
      unfold ret; eexists _, _; (split; [reflexivity|]); cbn [fst snd bump_nat];
      rewrite ?length_app; simpl; lia. }
  destruct (is_str ty RASTER); cbn [negb andb].
  { unfold import_raster_file, ret. cbn [fst snd].
    eexists _, _. split; [reflexivity|]. cbn [fst snd bump_nat].
    rewrite length_app. simpl. lia. }
  destruct (is_str ty SPATIAL_TABLE); cbn [negb andb];
    unfold ret; eexists _, _; (split; [reflexivity|]); cbn [fst snd bump_nat];
    simpl; lia.
Qed.

Lemma import_items_tally (total : nat) (items : list pydict) :
  Forall has_name items ->
  forall (i : nat) (sc : Z) (errs : list pystr) (s : state),
  exists r s',
    ImportTask.import_items W total i items sc errs s = (Ok r, s') /\
    (fst r + Z.of_nat (List.length (snd r))
     + Z.of_nat (List.length (List.filter ImportTask.uncounted items))
     = sc + Z.of_nat (List.length errs) + Z.of_nat (List.length items))%Z /\
    (sc <= fst r)%Z.
Proof.
  induction 1 as [|item rest Hitem _ IH]; intros i sc errs s.
  - eexists _, _. split; [reflexivity|]. simpl. lia.
  - simpl. unfold bind, emit, getitem.
    destruct Hitem as [n Hn]. rewrite Hn. cbn [ret].
    assert (Hnamed : has_name item) by (eexists; exact Hn).
    match goal with |- context [ImportTask.import_one W item sc errs ?s0] =>
      destruct (import_one_tally item sc errs s0 Hnamed)
        as (r1 & s1 & H1 & T1 & L1) end.
    rewrite H1.
    destruct (IH (S i) (fst r1) (snd r1) s1) as (r2 & s2 & H2 & T2 & L2).
    exists r2, s2. split; [exact H2|].
    destruct (ImportTask.uncounted item); simpl in *; lia.
Qed.

End ImportTaskFacts.

(** X19.  The import task over data items, once connected, returns the
    flag [success_count > 0] and a message made of the success count, the
    number of items and, when there are any, the number of errors.  An item
    is a success, an error or neither: an item whose kind is none of the
    three is left out of both tallies, so the successes and the errors add
    up to the number of items less these. *)
Theorem import_task_tally (W : world) (params : connection_params)
    (scanned_data : list pydict) (s s1 : state) (message : pystr) :
  connect W params s = (Ok (true, message), s1) ->
  Forall has_name scanned_data ->
  exists (success_count : Z) (errors : list pystr) (s' : state),
    ImportTask.import_task W params scanned_data s =
      (Ok ((0 <? success_count)%Z,
           ImportTask.result_message success_count (List.length scanned_data)
             errors), s') /\
    (0 <= success_count)%Z /\
    (success_count + Z.of_nat (List.length errors)
     + Z.of_nat (List.length (List.filter ImportTask.uncounted scanned_data))
     = Z.of_nat (List.length scanned_data))%Z.
Proof.
  intros Hc Hall.
  unfold ImportTask.import_task, try_except, bind. rewrite Hc. cbn [negb].
  destruct (import_items_tally W (List.length scanned_data) scanned_data Hall
              0%nat 0%Z [] s1) as ([S errors] & s2 & H2 & T2 & L2).
  rewrite H2. unfold emit, ret. cbn [fst snd] in *.
  exists S, errors. eexists. split; [reflexivity|].
  simpl in T2. lia.
Qed.

Lemma import_task_tally_witness :
  let odd := <["type" := PStr (u "table")]> Examples.parcels in
  exists (success_count : Z) (errors : list pystr) (s' : state),
    ImportTask.import_task Examples.reachable Examples.params0
      [Examples.roads; Examples.dem; odd] Examples.s0 =
      (Ok ((0 <? success_count)%Z,
           ImportTask.result_message success_count 3 errors), s') /\
    (0 <= success_count)%Z /\
    (success_count + Z.of_nat (List.length errors)
     + Z.of_nat (List.length (List.filter ImportTask.uncounted
                                [Examples.roads; Examples.dem; odd]))
     = 3)%Z.
Proof.
  intros odd.
  apply (import_task_tally Examples.reachable Examples.params0
           [Examples.roads; Examples.dem; odd] Examples.s0
           (snd (connect Examples.reachable Examples.params0 Examples.s0))
           (u "连接成功")).
  - reflexivity.
  - repeat constructor; eexists; reflexivity.
Defined.

(** ** Listings *)

Section ListingFacts.

Lemma unwrap_entries (outer inner : pystr) (data : Listing.json) :
  match Listing.unwrap outer inner data with
  | Ok (Some l) => l
  | _ => []
  end = Listing.entries outer inner data.
Proof.
  unfold Listing.unwrap, Listing.entries, Listing.get_or_empty.
  destruct data as [| | | | |m]; try reflexivity.
  destruct (m !! outer) as [[|b|z|str|l|c]|];
    cbn [default from_option id Listing.truthy]; try reflexivity;
    try (destruct b; reflexivity);
    try (destruct (negb (z =? 0)%Z); reflexivity).
  - destruct (negb (bool_decide (str = []))); [|reflexivity].
    cbn [Listing.contains]. destruct (Listing.is_infix inner str); reflexivity.
  - destruct l as [|x l']; [reflexivity|].
    cbn [Listing.contains].
    destruct (existsb (Listing.is_the_string inner) (x :: l')); reflexivity.
  - case_bool_decide as Hc; cbn [negb].
    + subst c. rewrite lookup_empty. reflexivity.
    + cbn [Listing.contains Listing.subscript].
      destruct (c !! inner) as [found|] eqn:Hf.
      * rewrite bool_decide_eq_true_2 by eauto.
        destruct found; reflexivity.
      * rewrite bool_decide_eq_false_2 by (intros [? [=]]). reflexivity.
Qed.

End ListingFacts.

(** X20.  A listing of the publisher (workspaces, data stores, layers,
    styles) makes one GET and never raises.  It returns entries only when
    the answer is 200 and its body is an object whose outer entry is an
    object holding the inner key: the object found there, as a list of one,
    or the list found there.  Any other answer, body or shape (a body that
    is no JSON, an empty string where the container should be, a missing
    key) gives the empty list. *)
Theorem listing_unwraps_object_or_list (W : world)
    (body : list event -> pystr -> result Listing.json)
    (url outer inner : pystr) (s : state) :
  Listing.listing W body url outer inner s =
  (Ok match http_get W (trace s) url with
      | Ok status =>
        if (status =? 200)%Z then
          match body (trace s) url with
          | Ok data => Listing.entries outer inner data
          | Raise _ => []
          end
        else []
      | Raise _ => []
      end,
   record (EHttpGet url) s).
Proof.
  unfold Listing.listing, ask.
  unfold try_except, bind, get_trace, emit, of_result, ret.
  cbn [trace record].
  destruct (http_get W (trace s) url) as [status|e]; [|reflexivity].
  destruct (status =? 200)%Z; [|reflexivity].
  destruct (body (trace s) url) as [data|e]; [|reflexivity].
  rewrite <- unwrap_entries.
  destruct (Listing.unwrap outer inner data) as [[l|]|e]; reflexivity.
Qed.

(** X21.  A single object and a list holding that one object are listed
    alike. *)
Theorem single_object_is_listed_as_list_of_one (outer inner : pystr)
    (rest : gmap pystr Listing.json) (others : gmap pystr Listing.json)
    (o : gmap pystr Listing.json) :
  let wrap found :=
    Listing.JObj (<[outer := Listing.JObj (<[inner := found]> others)]> rest) in
  Listing.entries outer inner (wrap (Listing.JObj o)) =
  Listing.entries outer inner (wrap (Listing.JList [Listing.JObj o])) /\
  Listing.unwrap outer inner (wrap (Listing.JObj o)) =
  Listing.unwrap outer inner (wrap (Listing.JList [Listing.JObj o])) /\
  Listing.unwrap outer inner (wrap (Listing.JObj o)) = Ok (Some [Listing.JObj o]).
Proof.
  intros wrap.
  assert (Hne : forall found, <[inner := found]> others <> ∅)
    by (intros found; apply insert_non_empty).
  assert (Hu : forall found,
             Listing.unwrap outer inner (wrap found) =
             match found with
             | Listing.JObj _ => Ok (Some [found])
             | Listing.JList l => Ok (Some l)
             | _ => Ok (Some [])
             end).
  { intros found. unfold Listing.unwrap, wrap, Listing.get_or_empty.
    rewrite lookup_insert_eq. cbn [default from_option id Listing.truthy].
    rewrite bool_decide_eq_false_2 by apply Hne. cbn [negb Listing.contains].
    rewrite lookup_insert_eq, bool_decide_eq_true_2 by eauto.
    cbn [Listing.subscript]. rewrite lookup_insert_eq. reflexivity. }
  split; [|split].
  - unfold Listing.entries, wrap. rewrite !lookup_insert_eq. reflexivity.
  - rewrite !Hu. reflexivity.
  - apply Hu.
Qed.

(** ** [import_vector_file] in detail *)


Section VectorImportFacts.

Import Steps VectorImport.

Variable lower : pystr -> pystr.
Variable G : library.
Variable params : connection_params.

(** execute, commit, and a rollback in the handler *)
Lemma transaction_run (stmt : pystr) (tr : list step) :
  exists r l,
    attempt
      (and_then (perform_unit (SqlExecute stmt) (fun tr => cursor_execute G tr stmt))
         (fun _ => and_then (perform_unit Commit (connection_commit G))
                     (fun _ => pure true)))
      (fun _ => and_then (perform_unit Rollback (connection_rollback G))
                  (fun _ => pure false)) tr
    = (r, tr ++ SqlExecute stmt :: l) /\
    (l = [Commit] /\ r = Ok true \/
     (l = [Rollback] \/ l = [Commit; Rollback]) /\ r <> Ok true).
Proof.
  unfold attempt, and_then, perform_unit, perform, pure, outcome.
  destruct (cursor_execute G tr stmt) as [e|].
  - destruct (connection_rollback G _) as [e'|]; eexists _, _;
      (split; [rewrite <- app_assoc; reflexivity | right; split; [auto | discriminate]]).
  - destruct (connection_commit G _) as [e|].
    + destruct (connection_rollback G _) as [e'|]; eexists _, _;
        (split; [rewrite <- !app_assoc; reflexivity
                | right; split; [auto | discriminate]]).
    + eexists _, _. split; [rewrite <- app_assoc; reflexivity | left; auto].
Qed.

Lemma check_table_exists_run (table_name : pyval) (schema : pystr) (tr : list step) :
  check_table_exists G table_name schema tr =
  (Ok match fetch_exists G tr schema table_name with
      | Ok found => found
      | Raise _ => false
      end,
   tr ++ [TableExistsQuery schema table_name]).
Proof.
  unfold check_table_exists, attempt, perform, pure.
  destruct (fetch_exists G tr schema table_name); reflexivity.
Qed.

Lemma reproject_run (gdf : frame) (target_crs : pystr) (tr : list step) :
  exists r l,
    reproject G gdf target_crs tr = (r, tr ++ l) /\
    Forall (fun e => is_database_step e = false) l.
Proof.
  unfold reproject, perform, pure.
  destruct (crs gdf) as [c|].
  - case_bool_decide.
    + eexists _, [_]. split; [reflexivity|]. repeat constructor.
    + eexists _, []. rewrite app_nil_r. split; [reflexivity | constructor].
  - eexists _, [_]. split; [reflexivity|]. repeat constructor.
Qed.

Lemma name_geometry_run (gdf : frame) (tr : list step) :
  exists r l,
    name_geometry G gdf tr = (r, tr ++ l) /\
    Forall (fun e => is_database_step e = false) l.
Proof.
  unfold name_geometry, perform, pure.
  case_bool_decide.
  - eexists _, [_]. split; [reflexivity|]. repeat constructor.
  - eexists _, []. rewrite app_nil_r. split; [reflexivity | constructor].
Qed.

(** what [make_room] leaves behind: nothing, the existence query, or the
    query and a drop *)
Lemma make_room_run (table_name : pyval) (schema : pystr) (overwrite : bool)
    (tr : list step) :
  let drop := SqlExecute (Tables.drop_statement schema (str_of table_name)) in
  let query := TableExistsQuery schema table_name in
  exists r l,
    make_room G table_name schema overwrite tr = (r, tr ++ l) /\
    (l = [] /\ overwrite = false /\ r = Ok tt \/
     l = [query] /\ overwrite = true /\ r = Ok tt /\
       fetch_exists G tr schema table_name <> Ok true \/
     (exists rest, l = query :: drop :: rest /\
        (rest = [Commit] /\ r = Ok tt \/ rest = [Rollback] \/
         rest = [Commit; Rollback])) /\
       overwrite = true /\ fetch_exists G tr schema table_name = Ok true).
Proof.
  intros drop query. unfold make_room.
  destruct overwrite.
  2: { unfold pure. eexists _, []. rewrite app_nil_r.
       split; [reflexivity | left; auto]. }
  unfold and_then at 1. rewrite check_table_exists_run.
  destruct (fetch_exists G tr schema table_name) as [[|]|e] eqn:Hq.
  - unfold and_then, drop_table_if_exists.
    destruct (transaction_run (Tables.drop_statement schema (str_of table_name))
                (tr ++ [query])) as (r & l & Hrun & Hl).
    fold query. rewrite Hrun. rewrite <- app_assoc. cbn [app].
    destruct Hl as [[-> ->]|[Hl Hr]].
    + unfold pure. eexists _, _. split; [reflexivity|].
      right; right. split; [|auto]. eexists. split; [reflexivity|]. left; auto.
    + destruct r as [[|]|e]; [congruence| |];
        unfold pure; eexists _, _; (split; [reflexivity|]);
        right; right; (split; [|auto]); eexists; (split; [reflexivity|]);
        right; exact Hl.
  - unfold pure. eexists _, _. split; [reflexivity|].
    right; left. repeat split; auto; discriminate.
  - unfold pure. eexists _, _. split; [reflexivity|].
    right; left. repeat split; auto; discriminate.
Qed.

(** the write and the index after it *)
Lemma import_geodataframe_run (gdf : frame) (table_name : pyval)
    (schema if_exists : pystr) (tr : list step) :
  let write := ToPostgis gdf table_name (engine_string params) schema if_exists in
  let index := SqlExecute (Tables.index_statement schema (str_of table_name)
                             Columns.geom) in
  exists ok msg l,
    import_geodataframe_to_postgis G params gdf table_name schema if_exists tr =
      (Ok (ok, msg), tr ++ write :: l) /\
    (l = [] /\ ok = false /\
       to_postgis G tr gdf table_name (engine_string params) schema if_exists
         <> None \/
     (exists rest, l = index :: rest /\
        (ok = true /\ msg = imported /\ (rest = [Commit] \/ rest = [Rollback] \/
                                         rest = [Commit; Rollback]) \/
         ok = false /\ (rest = [Rollback] \/ rest = [Commit; Rollback]))) /\
       to_postgis G tr gdf table_name (engine_string params) schema if_exists
         = None).
Proof.
  intros write index.
  unfold import_geodataframe_to_postgis.
  unfold attempt at 1, and_then at 1, perform_unit at 1, perform at 1, outcome at 1.
  fold write.
  destruct (to_postgis G tr gdf table_name (engine_string params) schema if_exists)
    as [e|] eqn:Hw.
  { unfold pure. eexists _, _, []. split; [reflexivity|]. left.
    repeat split. discriminate. }
  unfold and_then, create_spatial_index.
  destruct (transaction_run (Tables.index_statement schema (str_of table_name)
                               Columns.geom) (tr ++ [write]))
    as (r & l & Hrun & Hl).
  fold index in Hrun |- *. rewrite Hrun. rewrite <- app_assoc. cbn [app].
  destruct Hl as [[-> ->]|[Hl Hr]].
  - unfold pure. eexists _, _, _. split; [reflexivity|]. right.
    split; [|reflexivity]. eexists. split; [reflexivity|]. left. auto.
  - destruct r as [[|]|e]; [congruence| |]; unfold pure; eexists _, _, _;
      (split; [reflexivity|]); right; (split; [|reflexivity]); eexists;
      (split; [reflexivity|]); [left | right]; auto.
Qed.

(** every run of [import_vector_file]: the file is read; the frame is
    prepared without touching the database; room is made; the frame is
    written and indexed *)
Lemma import_vector_file_run (file_path table_name : pyval)
    (schema target_crs : pystr) (overwrite : bool) (tr : list step) :
  let drop := SqlExecute (Tables.drop_statement schema (str_of table_name)) in
  let query := TableExistsQuery schema table_name in
  let index := SqlExecute (Tables.index_statement schema (str_of table_name)
                             Columns.geom) in
  exists ok msg l,
    import_vector_file lower G params file_path table_name schema target_crs
      overwrite tr = (Ok (ok, msg), tr ++ ReadFile file_path :: l) /\
    (ok = false /\ l = [] \/
     exists g0 pre,
       read_file G tr file_path = Ok g0 /\ geometry_empty g0 = Ok false /\
       Forall (fun e => is_database_step e = false) pre /\
       (ok = false /\ l = pre \/
        exists room,
          (room = [] /\ overwrite = false \/
           room = [query] /\ overwrite = true /\
             fetch_exists G (tr ++ ReadFile file_path :: pre) schema table_name
               <> Ok true \/
           (exists rest, room = query :: drop :: rest /\
              (rest = [Commit] \/ rest = [Rollback] \/ rest = [Commit; Rollback])) /\
             overwrite = true /\
             fetch_exists G (tr ++ ReadFile file_path :: pre) schema table_name
               = Ok true) /\
          (ok = false /\ l = pre ++ room /\
             (exists rest, room = query :: drop :: rest /\
                (rest = [Rollback] \/ rest = [Commit; Rollback])) \/
           exists g wl,
             let engine := engine_string params in
             let mode := if_exists_of overwrite in
             let written := clean_columns lower g in
             l = pre ++ room ++ ToPostgis written table_name engine schema mode :: wl /\
             (wl = [] /\ ok = false /\
                to_postgis G (tr ++ ReadFile file_path :: pre ++ room) written
                  table_name engine schema mode <> None \/
              (exists rest, wl = index :: rest /\
                 (ok = true /\ msg = imported /\
                    (rest = [Commit] \/ rest = [Rollback] \/
                     rest = [Commit; Rollback]) \/
                  ok = false /\ (rest = [Rollback] \/ rest = [Commit; Rollback]))) /\
                to_postgis G (tr ++ ReadFile file_path :: pre ++ room) written
                  table_name engine schema mode = None)))).
Proof.
  intros drop query index.
  unfold import_vector_file.
  unfold attempt at 1, and_then at 1, perform at 1.
  destruct (read_file G tr file_path) as [g0|e] eqn:Hread.
  2: { unfold pure. eexists _, _, []. split; [reflexivity | left; auto]. }
  unfold and_then at 1, lift.
  destruct (geometry_empty g0) as [[|]|e] eqn:Hempty.
  1, 3: unfold pure; eexists _, _, []; (split; [reflexivity | left; auto]).
  unfold and_then at 1.
  destruct (reproject_run g0 target_crs (tr ++ [ReadFile file_path]))
    as (r1 & l1 & H1 & F1).
  rewrite H1. destruct r1 as [g1|e].
  2: { unfold pure. eexists _, _, l1. rewrite <- app_assoc. cbn [app].
       split; [reflexivity|]. right. exists g0, l1. repeat split; auto. }
  unfold and_then at 1.
  destruct (name_geometry_run g1 ((tr ++ [ReadFile file_path]) ++ l1))
    as (r2 & l2 & H2 & F2).
  rewrite H2. destruct r2 as [g2|e].
  2: { unfold pure. eexists _, _, (l1 ++ l2). rewrite <- !app_assoc. cbn [app].
       split; [reflexivity|]. right. exists g0, (l1 ++ l2).
       repeat split; auto. apply Forall_app; auto. }
  assert (Fpre : Forall (fun e => is_database_step e = false) (l1 ++ l2))
    by (apply Forall_app; auto).
  assert (Htr : ((tr ++ [ReadFile file_path]) ++ l1) ++ l2 =
                tr ++ ReadFile file_path :: (l1 ++ l2))
    by (rewrite <- !app_assoc; reflexivity).
  rewrite Htr. clear Htr H1 H2 F1 F2.
  set (pre := l1 ++ l2) in *. clearbody pre.
  unfold and_then at 1.
  destruct (make_room_run table_name schema overwrite
              (tr ++ ReadFile file_path :: pre)) as (r3 & room & H3 & S3).
  fold drop query in S3. rewrite H3.
  assert (Hroom :
    room = [] /\ overwrite = false \/
    room = [query] /\ overwrite = true /\
      fetch_exists G (tr ++ ReadFile file_path :: pre) schema table_name
        <> Ok true \/
    (exists rest, room = query :: drop :: rest /\
       (rest = [Commit] \/ rest = [Rollback] \/ rest = [Commit; Rollback])) /\
      overwrite = true /\
      fetch_exists G (tr ++ ReadFile file_path :: pre) schema table_name
        = Ok true).
  { destruct S3 as [(? & ? & ?)|[(? & ? & ? & ?)|((rest & ? & Hrest) & ? & ?)]];
      [left; auto | right; left; auto | right; right].
    split; [|auto]. exists rest. split; [assumption|].
    destruct Hrest as [[? _]|[?|?]]; auto. }
  assert (Htr : (tr ++ ReadFile file_path :: pre) ++ room =
                tr ++ ReadFile file_path :: pre ++ room)
    by (rewrite <- app_assoc; reflexivity).
  destruct r3 as [[]|e].
  2: { unfold pure. eexists _, _, (pre ++ room). rewrite Htr.
       split; [reflexivity|]. right. exists g0, pre.
       repeat split; auto. right. exists room. split; [exact Hroom|]. left.
       repeat split; auto.
       destruct S3 as [(? & ? & [=])|[(? & ? & [=] & ?)|((rest & ? & Hrest) & ? & ?)]].
       exists rest. split; [assumption|].
       destruct Hrest as [[_ [=]]|[?|?]]; auto. }
  destruct (import_geodataframe_run (clean_columns lower g2) table_name schema
              (if_exists_of overwrite) ((tr ++ ReadFile file_path :: pre) ++ room))
    as (ok & msg & wl & H4 & S4).
  rewrite H4. fold index in S4. rewrite Htr in *.
  exists ok, msg,
    (pre ++ room ++ ToPostgis (clean_columns lower g2) table_name
       (engine_string params) schema (if_exists_of overwrite) :: wl).
  split.
  { f_equal. rewrite <- !app_assoc. cbn [app]. rewrite <- !app_assoc.
    reflexivity. }
  right. exists g0, pre. repeat split; auto. right. exists room.
  split; [exact Hroom|]. right. exists g2, wl. cbn zeta.
  split; [reflexivity | exact S4].
Qed.

End VectorImportFacts.

Section VectorImportRuns.

Import Steps VectorImport.

(** X22.  [import_vector_file] returns a pair (success, message) on every
    path and never raises, whatever geopandas and the database do.  It
    reads the file first.  Success comes with the message of a finished
    import, and unless the file was read into a frame whose geometry is
    not empty the function stops there: it reports failure and nothing is
    reprojected, asked of the database or written. *)
Theorem import_vector_file_always_returns (lower : pystr -> pystr)
    (G : library) (params : connection_params) (file_path table_name : pyval)
    (schema target_crs : pystr) (overwrite : bool) (tr : list step) :
  exists ok msg l,
    import_vector_file lower G params file_path table_name schema target_crs
      overwrite tr = (Ok (ok, msg), tr ++ ReadFile file_path :: l) /\
    (ok = true -> msg = imported) /\
    (ok = true \/ l <> [] ->
     exists gdf, read_file G tr file_path = Ok gdf /\
                 geometry_empty gdf = Ok false).
Proof.
  destruct (import_vector_file_run lower G params file_path table_name schema
              target_crs overwrite tr) as (ok & msg & l & Hrun & Hl).
  exists ok, msg, l. split; [exact Hrun|].
  destruct Hl as [[-> ->]|(g0 & pre & Hread & Hempty & _ & Hl)].
  { split; [discriminate|]. intros [[=]|H]; congruence. }
  split; [|intros _; exists g0; auto].
  intros ->.
  destruct Hl as [[[=] _]|(room & _ & [([=] & _)|(g & wl & _ & Hw)])].
  destruct Hw as [(_ & [=] & _)|((rest & _ & [(_ & -> & _)|([=] & _)]) & _)].
  reflexivity.
Qed.




End VectorImportRuns.

(** ** [upload_style] *)

(** X25.  [upload_style] never raises and makes at most two requests.  It
    first posts the style entry, to the styles of the workspace when a
    non-empty workspace is given and to the global styles otherwise.  The
    SLD body is put to that address followed by the style name exactly when
    the POST was answered 200, 201 or 409, so the body of a style that
    exists already is replaced; after any other answer, or a POST that
    raises, nothing is put.  Success is reported exactly when the POST was
    accepted in this way and the PUT was answered 200 or 201: 409 is no
    success for the PUT. *)
Theorem style_upload_posts_then_puts (GS : Styles.server)
    (base_url style_name sld_content : pystr) (workspace : option pystr)
    (tr : list Styles.request) :
  let url := Styles.styles_url base_url workspace in
  let post := Styles.PostStyle url style_name (style_name ++ u ".sld") in
  let target := Styles.sld_url base_url workspace style_name in
  let posted := Styles.post_status GS tr url style_name (style_name ++ u ".sld") in
  let put := Styles.put_status GS (tr ++ [post]) target sld_content in
  exists ok msg,
    Styles.upload_style GS base_url style_name sld_content workspace tr =
      (Ok (ok, msg),
       tr ++ post :: (if accepted posted
                      then [Styles.PutSld target sld_content] else [])) /\
    ok = accepted posted &&
         match put with Ok status => created status | Raise _ => false end /\
    (ok = true -> msg = Styles.uploaded) /\
    target = url ++ u "/" ++ style_name.
Proof.
  intros url post target posted put.
  assert (Htarget : target = url ++ u "/" ++ style_name).
  { unfold target, url, Styles.sld_url, Styles.styles_url.
    destruct workspace as [[|c w]|]; rewrite <- ?app_assoc;
      repeat (f_equal; []); reflexivity. }
  unfold Styles.upload_style, Steps.attempt, Steps.and_then, Steps.perform,
    Steps.pure.
  fold url post target posted. unfold accepted.
  destruct posted as [status|e] eqn:Hposted.
  2: { eexists _, _. split; [reflexivity|]. repeat split; auto. discriminate. }
  destruct (created status) eqn:Hc; cbn [negb andb orb].
  - fold put. destruct put as [sld_status|e].
    + destruct (created sld_status); eexists _, _;
        (split; [rewrite <- app_assoc; reflexivity|]);
        repeat split; auto; discriminate.
    + eexists _, _. split; [rewrite <- app_assoc; reflexivity|].
      repeat split; auto. discriminate.
  - destruct (status =? 409)%Z; cbn [negb].
    + fold put. destruct put as [sld_status|e].
      * destruct (created sld_status); eexists _, _;
          (split; [rewrite <- app_assoc; reflexivity|]);
          repeat split; auto; discriminate.
      * eexists _, _. split; [rewrite <- app_assoc; reflexivity|].
        repeat split; auto. discriminate.
    + eexists _, _. split; [reflexivity|]. repeat split; auto. discriminate.
Qed.

(** ** Spatial tables as data items *)

Lemma table_item_lookup (t : TableScan.spatial_table) :
  let item := TableScan.table_item t in
  item !! "path" =
    Some (PStr (TableScan.table_schema t ++ u "." ++ TableScan.table_name t)) /\
  item !! "new_name" = Some (PStr (TableScan.table_name t)) /\
  item !! "type" = Some (PStr SPATIAL_TABLE) /\
  item !! "srs" = Some (PStr (TableScan.srs_of (TableScan.srid t))).
Proof. repeat split; reflexivity. Qed.

(** X26.  The data items made from the spatial tables of the database do
    not pass through the normalizer: the target name of such an item is
    the table name as the database gives it.  In a batch the import stage
    accepts the item without asking anything of the database, whatever its
    SRID, and the publish stage posts a feature type whose name, native
    name and title are that table name and whose [srs] is [EPSG:] followed
    by the SRID, or the word for unknown when the SRID is 0 or NULL; the
    loop of the batch over such items reaches every item and returns. *)
Theorem spatial_tables_are_published_under_their_own_names (W : world)
    (base_url workspace datastore_name : pystr)
    (progress_callback : option (callback percent))
    (status_callback : option (callback pystr))
    (spatial_tables : list TableScan.spatial_table) (total i : nat) (s : state) :
  Forall (fun t =>
            let item := TableScan.table_item t in
            let name := PStr (TableScan.table_name t) in
            let srs := PStr (TableScan.srs_of (TableScan.srid t)) in
            let url := featuretypes_url base_url workspace datastore_name in
            let body := FeatureTypeData name name name srs in
            item !! "new_name" = Some name /\
            forall s1,
              _import_single_item W item s1 = (Ok true, s1) /\
              _publish_single_item W base_url item workspace datastore_name s1 =
              (Ok match answer W s1 url body with
                  | Ok status => created status
                  | Raise _ => false
                  end,
               record (EHttpPost url body) s1))
         spatial_tables /\
  exists s',
    for_items W base_url workspace datastore_name progress_callback
      status_callback total i (TableScan.scan_postgresql_data spatial_tables) s
    = (Ok tt, s').
Proof.
  split.
  - apply Forall_forall. intros t _.
    destruct (table_item_lookup t) as (Hp & Hn & Ht & Hs).
    cbn zeta. split; [exact Hn|]. intros s1. split.
    + assert (Hlog : log_item (TableScan.table_item t) s1 = (Ok tt, s1))
        by (apply log_item_named; eexists; exact Hn).
      destruct kinds_differ as (_ & _ & K1 & K2 & K3).
      unfold _import_single_item, try_except, bind, getitem.
      rewrite Hp, Hn, Ht. cbn [ret].
      unfold dict_get. rewrite Hs. cbn [default from_option id].
      unfold target_crs_of, startswith_epsg, bind. cbn [ret raise].
      rewrite K1, K2, K3. reflexivity.
    + pose proof (publish_single_item_eq W base_url (TableScan.table_item t)
                    workspace datastore_name _ s1 Hn) as Hpub.
      cbn zeta in Hpub. unfold dict_get in Hpub. rewrite Hs in Hpub.
      exact Hpub.
  - assert (Hnamed : Forall has_name (TableScan.scan_postgresql_data spatial_tables)).
    { unfold TableScan.scan_postgresql_data. apply Forall_forall.
      intros item Hin. apply list_elem_of_fmap in Hin as (t & -> & _).
      eexists. exact (proj1 (proj2 (table_item_lookup t))). }
    destruct (for_items_spec W base_url workspace datastore_name progress_callback
                status_callback total (TableScan.scan_postgresql_data spatial_tables)
                Hnamed i s) as (s' & Hs' & _).
    eauto.
Qed.

(** ** Worked examples *)

Module Runs.
Import Examples.

Example ex_norm1 :
  normalize_name ascii_lower (u "My Roads (2020).v2") = u "my_roads_2020_v2".
Proof. vm_compute. reflexivity. Qed.
Example ex_norm2 : normalize_name ascii_lower (u "__--__") = u "unnamed".
Proof. vm_compute. reflexivity. Qed.
Example ex_norm3 : normalize_name ascii_lower (u "河流Rivers") = u "rivers".
Proof. vm_compute. reflexivity. Qed.
Example ex_u : u "矢量" = [30690; 37327]%N.
Proof. vm_compute. reflexivity. Qed.
Example ex_str : str_of_Z 409 = u "409".
Proof. vm_compute. reflexivity. Qed.


(** the scenario of the specification: a vector file, a raster file and an
    existing spatial table against a reachable database and server *)
Example three_items :
  fst (run_plain [roads; dem; parcels]) = Ok (true, u "处理完成: 成功 2/3 个") /\
  success_count (snd (run_plain [roads; dem; parcels])) = 2%Z /\
  error_count (snd (run_plain [roads; dem; parcels])) = 1%Z /\
  failed_plain [roads; dem; parcels] = [PStr (u "/data/dem.tif")].
Proof. vm_compute. repeat split; reflexivity. Qed.

Example no_item : fst (run_plain []) = Ok (false, u "处理完成: 成功 0/0 个").
Proof. vm_compute. reflexivity. Qed.

(** the database refuses the credentials: nothing is imported or posted *)
Example connection_refused :
  process_data_items bad_credentials params0 base0 (u "gis") (u "gis_datastore")
    None None [roads; parcels] s0 =
  (Ok (false, u "数据库连接失败: password authentication failed"),
   {| trace := [EPgConnect params0]; success_count := 0; error_count := 0 |}).
Proof. vm_compute. reflexivity. Qed.

(** creating a workspace twice succeeds twice; publishing a layer twice
    succeeds once *)
Example workspace_twice :
  let first := create_workspace reachable base0 (u "gis") None s0 in
  let second := create_workspace reachable base0 (u "gis") None (snd first) in
  fst first = Ok (true, u "创建成功") /\
  fst second = Ok (true, u "工作空间已存在").
Proof. vm_compute. split; reflexivity. Qed.

Example layer_twice :
  let publish := publish_layer_from_table reachable base0 (u "gis")
                   (u "gis_datastore") (PStr (u "roads")) PNone PNone
                   (PStr EPSG_4326) in
  let first := publish s0 in
  let second := publish (snd first) in
  fst first = Ok (true, u "发布成功") /\
  fst second = Ok (false, u "发布失败: 409").
Proof. vm_compute. split; reflexivity. Qed.

(** every report of progress raises: each item is counted as failed, and
    the report that follows the loop ends the run *)
Example progress_raises :
  let run := process_data_items reachable params0 base0 (u "gis")
               (u "gis_datastore") (Some failing_progress) None
               [roads; parcels] s0 in
  fst run = Ok (false, u "progress bar is gone") /\
  success_count (snd run) = 0%Z /\ error_count (snd run) = 2%Z.
Proof. vm_compute. repeat split; reflexivity. Qed.

(** a dictionary without [new_name] is not a data item: the handler of its
    iteration raises and the run ends there *)
Example nameless_item :
  fst (run_plain [roads; nameless; parcels]) = Ok (false, u "'new_name'") /\
  success_count (snd (run_plain [roads; nameless; parcels])) = 1%Z /\
  error_count (snd (run_plain [roads; nameless; parcels])) = 1%Z.
Proof. vm_compute. repeat split; reflexivity. Qed.

(** a file whose coordinate system was not detected carries [None]: its
    import fails on [startswith] *)
Example undetected_crs :
  _import_single_item reachable (<["srs" := PNone]> roads) s0 = (Ok false, s0).
Proof. vm_compute. reflexivity. Qed.

Example ident_examples :
  MainWindow.re_match_ident (u "roads_2020") = true /\
  MainWindow.re_match_ident (u "1abc") = false /\
  MainWindow.re_match_ident (u "a-b") = false /\
  MainWindow.re_match_ident (u "abc" ++ [newline]) = true.
Proof. vm_compute. repeat split; reflexivity. Qed.

(** an overwriting import: the frame is reprojected, its geometry column
    renamed and its columns cleaned; the table found is dropped before the
    write *)
Example overwrite_run :
  let run := VectorImport.import_vector_file ascii_lower
               (VectorImport.friendly (fun _ => false)) params0
               (PStr (u "/data/parcels.gpkg")) (PStr (u "parcels"))
               (u "public") (u "EPSG:4326") true [] in
  fst run = Ok (true, u "导入成功") /\
  map VectorImport.is_database_step (snd run) =
    [false; false; false; true; true; true; true; true; true] /\
  omap (fun e => match e with
                 | VectorImport.ToPostgis gdf _ _ _ mode =>
                     Some (VectorImport.columns gdf, mode)
                 | _ => None
                 end) (snd run) =
    [([u "parcel_id"; u "area_m2_"; u "geom"], u "replace")].
Proof. vm_compute. repeat split; reflexivity. Qed.

(** the drop is committed and the write fails: the import reports the
    failure and the table is gone *)
Example dropped_and_not_replaced :
  let run := VectorImport.import_vector_file ascii_lower
               (VectorImport.write_refused (VectorImport.friendly (fun _ => false)))
               params0 (PStr (u "/data/parcels.gpkg")) (PStr (u "parcels"))
               (u "public") (u "EPSG:4326") true [] in
  fst run = Ok (false, u "disk full") /\
  VectorImport.statements (snd run) =
    [Tables.drop_statement (u "public") (u "parcels")] /\
  List.filter (fun e => match e with
                        | VectorImport.Commit | VectorImport.Rollback => true
                        | _ => false
                        end) (snd run) = [VectorImport.Commit].
Proof. vm_compute. repeat split; reflexivity. Qed.

(** without [overwrite] the table is not looked for *)
Example append_run :
  let run := VectorImport.import_vector_file ascii_lower
               (VectorImport.friendly (fun _ => false)) params0
               (PStr (u "/data/parcels.gpkg")) (PStr (u "parcels"))
               (u "public") (u "EPSG:3857") false [] in
  fst run = Ok (true, u "导入成功") /\
  VectorImport.statements (snd run) =
    [Tables.index_statement (u "public") (u "parcels") Columns.geom] /\
  map VectorImport.is_database_step (snd run) = [false; false; true; true; true].
Proof. vm_compute. repeat split; reflexivity. Qed.

(** a style that exists already: the POST is answered 409 and the SLD body
    is put all the same *)
Example style_exists :
  let server := {| Styles.post_status := fun _ _ _ _ => Ok 409%Z;
                   Styles.put_status := fun _ _ _ => Ok 200%Z |} in
  Styles.upload_style server (u "http://localhost:8080/geoserver")
    (u "roads") (u "<sld/>") (Some (u "gis")) [] =
  (Ok (true, u "上传成功"),
   [Styles.PostStyle (u "http://localhost:8080/geoserver/rest/workspaces/gis/styles")
      (u "roads") (u "roads.sld");
    Styles.PutSld (u "http://localhost:8080/geoserver/rest/workspaces/gis/styles/roads")
      (u "<sld/>")]).
Proof. vm_compute. reflexivity. Qed.

End Runs.
